(** * Device presence and notification subsystem

    A shallow embedding of [lib/device-connection-service.ts]
    ([DeviceConnectionService]) and of the notification service
    ([DeviceNotificationService]) that listens to it.

    Conventions.
    - A [Date] is its epoch time in milliseconds, an integer.
    - An optional property of a TypeScript object is an [option].
    - The two singletons and the collaborators they write to (the Prisma
      store, the audit log, the WebSocket server) share one [State]; every
      outbound call is appended, in program order, to the [trace] of that
      state.
    - One call of a public method is one atomic step: every clock read made
      during the call returns [now], and a listener registered on the
      connection service runs to completion inside [emit].  The listeners
      are [async] and are not awaited, so the program fixes the order of
      effects inside one run of a listener but not across the two runs
      that one transition starts: what is stated about the deliveries of a
      whole transition is stated as counts per channel.
    - The Prisma store is a total in-memory table, so the [catch] branches
      that only print to the console are not represented. *)

From stdpp Require Import base option list gmap strings pretty.
From Stdlib Require Import ZArith Lia.

Set Default Proof Using "Type".

(** ** Enumerations *)

Module DeviceConnectionStatus.
Inductive t := ONLINE | OFFLINE | INACTIVE | ERROR.
#[global] Instance eq_dec : EqDecision t.
Proof. solve_decision. Defined.
Definition toString (s : t) : string :=
  match s with
  | ONLINE => "ONLINE" | OFFLINE => "OFFLINE"
  | INACTIVE => "INACTIVE" | ERROR => "ERROR"
  end.
End DeviceConnectionStatus.

Module DeviceProtocol.
Inductive t := MQTT | TCP | UDP | HTTP | WEBSOCKET | COAP | UNKNOWN.
#[global] Instance eq_dec : EqDecision t.
Proof. solve_decision. Defined.
Definition toString (p : t) : string :=
  match p with
  | MQTT => "MQTT" | TCP => "TCP" | UDP => "UDP" | HTTP => "HTTP"
  | WEBSOCKET => "WEBSOCKET" | COAP => "COAP" | UNKNOWN => "UNKNOWN"
  end.
(** All members of the enumeration, in declaration order. *)
Definition all : list t := [MQTT; TCP; UDP; HTTP; WEBSOCKET; COAP; UNKNOWN].
End DeviceProtocol.

Module NotificationType.
Inductive t :=
  | DEVICE_ONLINE | DEVICE_OFFLINE | DEVICE_INACTIVE | DEVICE_ERROR
  | DEVICE_ALARM | DEVICE_COMMAND_RESPONSE | DEVICE_DATA_ANOMALY | SYSTEM_ERROR.
#[global] Instance eq_dec : EqDecision t.
Proof. solve_decision. Defined.
End NotificationType.

Module NotificationChannel.
Inductive t := WEBSOCKET | EMAIL | SMS | PUSH | WEBHOOK.
#[global] Instance eq_dec : EqDecision t.
Proof. solve_decision. Defined.
End NotificationChannel.

Module NotificationPriority.
Inductive t := LOW | MEDIUM | HIGH | CRITICAL.
#[global] Instance eq_dec : EqDecision t.
Proof. solve_decision. Defined.
End NotificationPriority.

Module AuditEventType.
Inductive t := DEVICE_ONLINE | NOTIFICATION_SENT.
End AuditEventType.

Module AuditLogLevel.
Inductive t := INFO | WARNING | ERROR | CRITICAL.
End AuditLogLevel.

(** ** Values

    The values a [Record<string, any>] holds in the two services. *)

Inductive JsAtom :=
  | JStr (s : string)
  | JNum (n : Z)
  | JDate (t : Z).

Inductive JsValue :=
  | JAtom (a : JsAtom)
  | JObj (fields : list (string * JsAtom)).

(** JavaScript truthiness of an optional string: [undefined], [null] and the
    empty string are falsy. *)
Definition truthy (s : option string) : bool :=
  match s with
  | Some s => bool_decide (s ≠ "")
  | None => false
  end.

(** [a || b] on optional strings. *)
Definition or_else (a : option string) (b : option string) : option string :=
  if truthy a then a else b.

(** ** A JavaScript [Map] with string keys

    Entries are kept in insertion order: [set] on a present key replaces the
    value in place, on an absent key it appends. *)

Module JsMap.
Section JsMap.
Context {V : Type}.

Fixpoint get (k : string) (m : list (string * V)) : option V :=
  match m with
  | [] => None
  | (k', v) :: m' => if decide (k' = k) then Some v else get k m'
  end.

Fixpoint set (k : string) (v : V) (m : list (string * V)) : list (string * V) :=
  match m with
  | [] => [(k, v)]
  | (k', v') :: m' =>
      if decide (k' = k) then (k, v) :: m' else (k', v') :: set k v m'
  end.

Fixpoint delete (k : string) (m : list (string * V)) : list (string * V) :=
  match m with
  | [] => []
  | (k', v) :: m' =>
      if decide (k' = k) then delete k m' else (k', v) :: delete k m'
  end.

Definition keys (m : list (string * V)) : list string := m.*1.
Definition values (m : list (string * V)) : list V := m.*2.
End JsMap.
End JsMap.

(** ** The presence record *)

Record DeviceConnectionInfo := {
  deviceId : string;
  deviceIdentifier : string;
  status : DeviceConnectionStatus.t;
  protocol : DeviceProtocol.t;
  address : option string;
  port : option Z;
  clientId : option string;
  lastActivityAt : Z;
  connectedAt : option Z;
  disconnectedAt : option Z;
  connectionDuration : option Z;
  sessionId : option string;
  metadata : option (gmap string JsValue)
}.

(** [Partial<DeviceConnectionInfo>]: [None] is a property that is not
    supplied. *)
Module Partial.
Record t := {
  deviceId : option string;
  deviceIdentifier : option string;
  status : option DeviceConnectionStatus.t;
  protocol : option DeviceProtocol.t;
  address : option string;
  port : option Z;
  clientId : option string;
  lastActivityAt : option Z;
  connectedAt : option Z;
  disconnectedAt : option Z;
  connectionDuration : option Z;
  sessionId : option string;
  metadata : option (gmap string JsValue)
}.
Definition empty : t :=
  {| deviceId := None; deviceIdentifier := None; status := None;
     protocol := None; address := None; port := None; clientId := None;
     lastActivityAt := None; connectedAt := None; disconnectedAt := None;
     connectionDuration := None; sessionId := None; metadata := None |}.
End Partial.

(** ** The durable device row, as far as the two services read it *)

Module Device.
Record t := {
  id : string;
  identifier : string;
  name : string;
  organizationId : option string;
  organizationName : option string;
  status : DeviceConnectionStatus.t;
  lastOnlineAt : option Z
}.
End Device.

(** ** Notification data *)

Module NotificationConfig.
Record t := {
  type : NotificationType.t;
  channels : list NotificationChannel.t;
  priority : NotificationPriority.t;
  enabled : bool
}.
End NotificationConfig.

Module NotificationData.
Record t := {
  status : DeviceConnectionStatus.t;
  protocol : DeviceProtocol.t;
  address : option string;
  port : option Z;
  lastActivityAt : Z;
  connectedAt : option Z;
  disconnectedAt : option Z;
  connectionDuration : option Z
}.
End NotificationData.

Module NotificationMessage.
Record t := {
  id : string;
  type : NotificationType.t;
  title : string;
  content : string;
  timestamp : Z;
  priority : NotificationPriority.t;
  deviceId : option string;
  deviceIdentifier : option string;
  deviceName : option string;
  organizationId : option string;
  organizationName : option string;
  data : option NotificationData.t
}.
End NotificationMessage.

(** ** Outbound calls *)

(** A row handed to [prisma.deviceConnectionLog.create]. *)
Module ConnectionLog.
Record t := {
  deviceId : string;
  status : DeviceConnectionStatus.t;
  protocol : DeviceProtocol.t;
  clientId : option string;
  ipAddress : option string;
  port : option Z;
  connectedAt : option Z;
  disconnectedAt : option Z;
  connectionDuration : option Z;
  sessionId : option string;
  metadata : option (gmap string JsValue)
}.
End ConnectionLog.

(** The arguments of [auditLogService.logSecurityEvent], without the
    [details] bag.  Both services pass the device id in the [ipAddress]
    position. *)
Module AuditEntry.
Record t := {
  eventType : AuditEventType.t;
  level : AuditLogLevel.t;
  description : string;
  ipAddress : option string
}.
End AuditEntry.

(** Events of the connection service's [EventEmitter]. *)
Inductive BusEvent :=
  | status_change (id : string) (newConnection : DeviceConnectionInfo)
      (oldConnection : option DeviceConnectionInfo)
  | device_online (id : string) (connectionInfo : DeviceConnectionInfo)
  | device_offline (id : string) (connectionInfo : DeviceConnectionInfo)
  | device_inactive (id : string) (connectionInfo : DeviceConnectionInfo)
  | device_error (id : string) (connectionInfo : DeviceConnectionInfo).

(** The third argument of [websocketService.broadcastToRoom]. *)
Inductive Payload :=
  | StatusPayload (id : string) (s : DeviceConnectionStatus.t) (timestamp : Z)
  | NotificationPayload (m : NotificationMessage.t).

Inductive Effect :=
  (** [prisma.deviceConnectionLog.create] *)
  | LogCreate (row : ConnectionLog.t)
  (** [auditLogService.logSecurityEvent] *)
  | Audit (entry : AuditEntry.t)
  (** [this.emit] of the connection service *)
  | Emit (ev : BusEvent)
  (** [websocketService.broadcastToRoom(room, event, payload)] *)
  | Broadcast (room : string) (event : string) (payload : Payload)
  (** a call of the channel's [send...Notification] method *)
  | Deliver (channel : NotificationChannel.t) (m : NotificationMessage.t)
  (** [this.emit('notification_sent', message)] of the notification service *)
  | NotificationSent (m : NotificationMessage.t).

(** ** State and environment *)

Record State := {
  (** [prisma.device] *)
  devices : gmap string Device.t;
  (** [DeviceConnectionService.deviceConnections] *)
  deviceConnections : list (string * DeviceConnectionInfo);
  (** [DeviceConnectionService.heartbeatIntervals]: the handle of the armed
      interval timer of a device *)
  heartbeatIntervals : gmap string nat;
  (** the number of [setInterval] calls made so far; the next handle *)
  timerSeq : nat;
  (** [DeviceNotificationService.notificationConfigs] *)
  notificationConfigs : gmap string (list NotificationConfig.t);
  (** the number of [Math.random()] calls made so far *)
  randomCalls : nat;
  (** every outbound call made so far, oldest first *)
  trace : list Effect
}.

(** What one call reads from the runtime: the clock, and the stream of
    [Math.random().toString(36).substring(2, 15)] results. *)
Record Env := {
  now : Z;
  random : nat → string
}.

Inductive Result (A : Type) :=
  | Ok (a : A)
  | Throw (message : string).
Arguments Ok {A} a.
Arguments Throw {A} message.

Definition with_devices (f : gmap string Device.t → gmap string Device.t)
    (st : State) : State :=
  {| devices := f (devices st); deviceConnections := deviceConnections st;
     heartbeatIntervals := heartbeatIntervals st; timerSeq := timerSeq st;
     notificationConfigs := notificationConfigs st;
     randomCalls := randomCalls st; trace := trace st |}.

Definition with_deviceConnections
    (f : list (string * DeviceConnectionInfo) → list (string * DeviceConnectionInfo))
    (st : State) : State :=
  {| devices := devices st; deviceConnections := f (deviceConnections st);
     heartbeatIntervals := heartbeatIntervals st; timerSeq := timerSeq st;
     notificationConfigs := notificationConfigs st;
     randomCalls := randomCalls st; trace := trace st |}.

Definition with_heartbeatIntervals (f : gmap string nat → gmap string nat)
    (st : State) : State :=
  {| devices := devices st; deviceConnections := deviceConnections st;
     heartbeatIntervals := f (heartbeatIntervals st); timerSeq := timerSeq st;
     notificationConfigs := notificationConfigs st;
     randomCalls := randomCalls st; trace := trace st |}.

Definition with_timerSeq (n : nat) (st : State) : State :=
  {| devices := devices st; deviceConnections := deviceConnections st;
     heartbeatIntervals := heartbeatIntervals st; timerSeq := n;
     notificationConfigs := notificationConfigs st;
     randomCalls := randomCalls st; trace := trace st |}.

Definition with_notificationConfigs
    (f : gmap string (list NotificationConfig.t) → gmap string (list NotificationConfig.t))
    (st : State) : State :=
  {| devices := devices st; deviceConnections := deviceConnections st;
     heartbeatIntervals := heartbeatIntervals st; timerSeq := timerSeq st;
     notificationConfigs := f (notificationConfigs st);
     randomCalls := randomCalls st; trace := trace st |}.

Definition with_randomCalls (n : nat) (st : State) : State :=
  {| devices := devices st; deviceConnections := deviceConnections st;
     heartbeatIntervals := heartbeatIntervals st; timerSeq := timerSeq st;
     notificationConfigs := notificationConfigs st;
     randomCalls := n; trace := trace st |}.

(** Record one outbound call. *)
Definition perform (e : Effect) (st : State) : State :=
  {| devices := devices st; deviceConnections := deviceConnections st;
     heartbeatIntervals := heartbeatIntervals st; timerSeq := timerSeq st;
     notificationConfigs := notificationConfigs st;
     randomCalls := randomCalls st; trace := trace st ++ [e] |}.

(** [Math.random().toString(36).substring(2, 15)] *)
Definition nextRandom (env : Env) (st : State) : string * State :=
  (random env (randomCalls st), with_randomCalls (S (randomCalls st)) st).

(** [Date.prototype.toLocaleString]: the rendering depends on the locale of
    the host; the decimal epoch time stands for it. *)
Definition toLocaleString (t : Z) : string := pretty t.

(** * DeviceNotificationService *)

Module DeviceNotificationService.

(** [loadDefaultConfigs] *)
Definition defaultConfigs : list NotificationConfig.t :=
  [ {| NotificationConfig.type := NotificationType.DEVICE_ONLINE;
       NotificationConfig.channels := [NotificationChannel.WEBSOCKET];
       NotificationConfig.priority := NotificationPriority.LOW;
       NotificationConfig.enabled := true |};
    {| NotificationConfig.type := NotificationType.DEVICE_OFFLINE;
       NotificationConfig.channels := [NotificationChannel.WEBSOCKET];
       NotificationConfig.priority := NotificationPriority.MEDIUM;
       NotificationConfig.enabled := true |};
    {| NotificationConfig.type := NotificationType.DEVICE_INACTIVE;
       NotificationConfig.channels :=
         [NotificationChannel.WEBSOCKET; NotificationChannel.EMAIL];
       NotificationConfig.priority := NotificationPriority.MEDIUM;
       NotificationConfig.enabled := true |};
    {| NotificationConfig.type := NotificationType.DEVICE_ERROR;
       NotificationConfig.channels :=
         [NotificationChannel.WEBSOCKET; NotificationChannel.EMAIL];
       NotificationConfig.priority := NotificationPriority.HIGH;
       NotificationConfig.enabled := true |};
    {| NotificationConfig.type := NotificationType.DEVICE_ALARM;
       NotificationConfig.channels :=
         [NotificationChannel.WEBSOCKET; NotificationChannel.EMAIL;
          NotificationChannel.SMS];
       NotificationConfig.priority := NotificationPriority.HIGH;
       NotificationConfig.enabled := true |};
    {| NotificationConfig.type := NotificationType.DEVICE_COMMAND_RESPONSE;
       NotificationConfig.channels := [NotificationChannel.WEBSOCKET];
       NotificationConfig.priority := NotificationPriority.LOW;
       NotificationConfig.enabled := true |};
    {| NotificationConfig.type := NotificationType.DEVICE_DATA_ANOMALY;
       NotificationConfig.channels :=
         [NotificationChannel.WEBSOCKET; NotificationChannel.EMAIL];
       NotificationConfig.priority := NotificationPriority.MEDIUM;
       NotificationConfig.enabled := true |};
    {| NotificationConfig.type := NotificationType.SYSTEM_ERROR;
       NotificationConfig.channels :=
         [NotificationChannel.WEBSOCKET; NotificationChannel.EMAIL];
       NotificationConfig.priority := NotificationPriority.CRITICAL;
       NotificationConfig.enabled := true |} ].

Definition setNotificationConfigs (organizationId : string)
    (configs : list NotificationConfig.t) (st : State) : State :=
  with_notificationConfigs (insert organizationId configs) st.

(** [this.notificationConfigs.get(organizationId) || this.defaultConfigs]:
    an array, also an empty one, is truthy. *)
Definition getNotificationConfigs (organizationId : string) (st : State)
    : list NotificationConfig.t :=
  default defaultConfigs (notificationConfigs st !! organizationId).

Definition isHighOrCritical (p : NotificationPriority.t) : bool :=
  match p with
  | NotificationPriority.HIGH | NotificationPriority.CRITICAL => true
  | _ => false
  end.

Definition sendWebSocketNotification (message : NotificationMessage.t)
    (st : State) : State :=
  let st :=
    match NotificationMessage.deviceId message with
    | Some d =>
        if truthy (Some d)
        then perform (Broadcast ("device:" +:+ d) "notification"
                        (NotificationPayload message)) st
        else st
    | None => st
    end in
  let st :=
    match NotificationMessage.organizationId message with
    | Some o =>
        if truthy (Some o)
        then perform (Broadcast ("organization:" +:+ o) "notification"
                        (NotificationPayload message)) st
        else st
    | None => st
    end in
  if isHighOrCritical (NotificationMessage.priority message)
  then perform (Broadcast "notifications" "notification"
                  (NotificationPayload message)) st
  else st.

(** The e-mail, SMS, push and webhook senders only print the message. *)
Definition sendEmailNotification (message : NotificationMessage.t)
    (st : State) : State := st.
Definition sendSmsNotification (message : NotificationMessage.t)
    (st : State) : State := st.
Definition sendPushNotification (message : NotificationMessage.t)
    (st : State) : State := st.
Definition sendWebhookNotification (message : NotificationMessage.t)
    (st : State) : State := st.

(** One turn of the loop of [sendNotification]: the [switch] on the channel. *)
Definition sendOnChannel (message : NotificationMessage.t) (st : State)
    (channel : NotificationChannel.t) : State :=
  let st := perform (Deliver channel message) st in
  match channel with
  | NotificationChannel.WEBSOCKET => sendWebSocketNotification message st
  | NotificationChannel.EMAIL => sendEmailNotification message st
  | NotificationChannel.SMS => sendSmsNotification message st
  | NotificationChannel.PUSH => sendPushNotification message st
  | NotificationChannel.WEBHOOK => sendWebhookNotification message st
  end.

Definition sendNotification (message : NotificationMessage.t)
    (channels : list NotificationChannel.t) (st : State) : State :=
  let st := foldl (sendOnChannel message) st channels in
  perform (NotificationSent message) st.

Definition auditLevel (p : NotificationPriority.t) : AuditLogLevel.t :=
  match p with
  | NotificationPriority.CRITICAL => AuditLogLevel.CRITICAL
  | NotificationPriority.HIGH => AuditLogLevel.ERROR
  | NotificationPriority.MEDIUM => AuditLogLevel.WARNING
  | NotificationPriority.LOW => AuditLogLevel.INFO
  end.

Definition logNotification (message : NotificationMessage.t) (st : State)
    : State :=
  perform (Audit
    {| AuditEntry.eventType := AuditEventType.NOTIFICATION_SENT;
       AuditEntry.level := auditLevel (NotificationMessage.priority message);
       AuditEntry.description :=
         "发送通知: " +:+ NotificationMessage.title message;
       AuditEntry.ipAddress := NotificationMessage.deviceId message |}) st.

Definition generateNotificationId (env : Env) (st : State) : string * State :=
  let '(r, st) := nextRandom env st in
  ("notification-" +:+ pretty (now env) +:+ "-" +:+ r, st).

Definition generateNotificationTitle (type : NotificationType.t)
    (device : Device.t) : string :=
  match type with
  | NotificationType.DEVICE_ONLINE => "设备上线: " +:+ Device.name device
  | NotificationType.DEVICE_OFFLINE => "设备离线: " +:+ Device.name device
  | NotificationType.DEVICE_INACTIVE => "设备不活跃: " +:+ Device.name device
  | NotificationType.DEVICE_ERROR => "设备错误: " +:+ Device.name device
  | NotificationType.DEVICE_ALARM => "设备告警: " +:+ Device.name device
  | NotificationType.DEVICE_COMMAND_RESPONSE =>
      "设备命令响应: " +:+ Device.name device
  | NotificationType.DEVICE_DATA_ANOMALY =>
      "设备数据异常: " +:+ Device.name device
  | NotificationType.SYSTEM_ERROR => "系统错误"
  end.

Definition generateNotificationContent (env : Env) (type : NotificationType.t)
    (device : Device.t) (connectionInfo : DeviceConnectionInfo) : string :=
  let time := toLocaleString (now env) in
  let who :=
    "设备 " +:+ Device.name device +:+ "(" +:+ Device.identifier device +:+ ")" in
  match type with
  | NotificationType.DEVICE_ONLINE =>
      who +:+ " 于 " +:+ time +:+ " 上线。连接协议: "
        +:+ DeviceProtocol.toString (protocol connectionInfo)
  | NotificationType.DEVICE_OFFLINE =>
      who +:+ " 于 " +:+ time +:+ " 离线。连接持续时间: "
        +:+ pretty (default 0%Z (connectionDuration connectionInfo)) +:+ " 秒"
  | NotificationType.DEVICE_INACTIVE =>
      who +:+ " 于 " +:+ time +:+ " 变为不活跃状态。最后活动时间: "
        +:+ toLocaleString (lastActivityAt connectionInfo)
  | NotificationType.DEVICE_ERROR =>
      who +:+ " 于 " +:+ time +:+ " 发生错误。请检查设备状态。"
  | _ => who +:+ " 状态变更通知。"
  end.

(** The [switch] that picks the notification type of a status. *)
Definition notificationTypeOf (s : DeviceConnectionStatus.t)
    : NotificationType.t :=
  match s with
  | DeviceConnectionStatus.ONLINE => NotificationType.DEVICE_ONLINE
  | DeviceConnectionStatus.OFFLINE => NotificationType.DEVICE_OFFLINE
  | DeviceConnectionStatus.INACTIVE => NotificationType.DEVICE_INACTIVE
  | DeviceConnectionStatus.ERROR => NotificationType.DEVICE_ERROR
  end.

(** [configs.find(config => config.type === notificationType && config.enabled)] *)
Definition findMatchingConfig (notificationType : NotificationType.t)
    (configs : list NotificationConfig.t) : option NotificationConfig.t :=
  List.find (λ config,
    bool_decide (NotificationConfig.type config = notificationType)
    && NotificationConfig.enabled config) configs.

Definition sendDeviceStatusNotification (env : Env) (id : string)
    (s : DeviceConnectionStatus.t) (connectionInfo : DeviceConnectionInfo)
    (st : State) : State :=
  match devices st !! id with
  | None => st
  | Some device =>
      let notificationType := notificationTypeOf s in
      let organizationId :=
        default "default" (or_else (Device.organizationId device) None) in
      let configs := getNotificationConfigs organizationId st in
      match findMatchingConfig notificationType configs with
      | None => st
      | Some matchingConfig =>
          let '(nid, st) := generateNotificationId env st in
          let message :=
            {| NotificationMessage.id := nid;
               NotificationMessage.type := notificationType;
               NotificationMessage.title :=
                 generateNotificationTitle notificationType device;
               NotificationMessage.content :=
                 generateNotificationContent env notificationType device
                   connectionInfo;
               NotificationMessage.timestamp := now env;
               NotificationMessage.priority :=
                 NotificationConfig.priority matchingConfig;
               NotificationMessage.deviceId := Some id;
               NotificationMessage.deviceIdentifier :=
                 Some (Device.identifier device);
               NotificationMessage.deviceName := Some (Device.name device);
               NotificationMessage.organizationId :=
                 or_else (Device.organizationId device) None;
               NotificationMessage.organizationName :=
                 Device.organizationName device;
               NotificationMessage.data := Some
                 {| NotificationData.status := s;
                    NotificationData.protocol := protocol connectionInfo;
                    NotificationData.address := address connectionInfo;
                    NotificationData.port := port connectionInfo;
                    NotificationData.lastActivityAt :=
                      lastActivityAt connectionInfo;
                    NotificationData.connectedAt := connectedAt connectionInfo;
                    NotificationData.disconnectedAt :=
                      disconnectedAt connectionInfo;
                    NotificationData.connectionDuration :=
                      connectionDuration connectionInfo |} |} in
          let st :=
            sendNotification message (NotificationConfig.channels matchingConfig) st in
          logNotification message st
      end
  end.

(** The five listeners that [setupEventListeners] registers on the
    connection service. *)
Definition onEvent (env : Env) (ev : BusEvent) (st : State) : State :=
  match ev with
  | status_change id newConnection _ =>
      sendDeviceStatusNotification env id (status newConnection) newConnection st
  | device_online id connectionInfo =>
      sendDeviceStatusNotification env id DeviceConnectionStatus.ONLINE
        connectionInfo st
  | device_offline id connectionInfo =>
      sendDeviceStatusNotification env id DeviceConnectionStatus.OFFLINE
        connectionInfo st
  | device_inactive id connectionInfo =>
      sendDeviceStatusNotification env id DeviceConnectionStatus.INACTIVE
        connectionInfo st
  | device_error id connectionInfo =>
      sendDeviceStatusNotification env id DeviceConnectionStatus.ERROR
        connectionInfo st
  end.

End DeviceNotificationService.

(** * DeviceConnectionService *)

(** Assignments to single properties of a presence record. *)
Definition set_status (v : DeviceConnectionStatus.t) (c : DeviceConnectionInfo)
    : DeviceConnectionInfo :=
  {| deviceId := deviceId c; deviceIdentifier := deviceIdentifier c;
     status := v; protocol := protocol c; address := address c;
     port := port c; clientId := clientId c;
     lastActivityAt := lastActivityAt c; connectedAt := connectedAt c;
     disconnectedAt := disconnectedAt c;
     connectionDuration := connectionDuration c; sessionId := sessionId c;
     metadata := metadata c |}.

Definition set_lastActivityAt (v : Z) (c : DeviceConnectionInfo)
    : DeviceConnectionInfo :=
  {| deviceId := deviceId c; deviceIdentifier := deviceIdentifier c;
     status := status c; protocol := protocol c; address := address c;
     port := port c; clientId := clientId c;
     lastActivityAt := v; connectedAt := connectedAt c;
     disconnectedAt := disconnectedAt c;
     connectionDuration := connectionDuration c; sessionId := sessionId c;
     metadata := metadata c |}.

Definition set_connectedAt (v : option Z) (c : DeviceConnectionInfo)
    : DeviceConnectionInfo :=
  {| deviceId := deviceId c; deviceIdentifier := deviceIdentifier c;
     status := status c; protocol := protocol c; address := address c;
     port := port c; clientId := clientId c;
     lastActivityAt := lastActivityAt c; connectedAt := v;
     disconnectedAt := disconnectedAt c;
     connectionDuration := connectionDuration c; sessionId := sessionId c;
     metadata := metadata c |}.

Definition set_disconnectedAt (v : option Z) (c : DeviceConnectionInfo)
    : DeviceConnectionInfo :=
  {| deviceId := deviceId c; deviceIdentifier := deviceIdentifier c;
     status := status c; protocol := protocol c; address := address c;
     port := port c; clientId := clientId c;
     lastActivityAt := lastActivityAt c; connectedAt := connectedAt c;
     disconnectedAt := v;
     connectionDuration := connectionDuration c; sessionId := sessionId c;
     metadata := metadata c |}.

Definition set_connectionDuration (v : option Z) (c : DeviceConnectionInfo)
    : DeviceConnectionInfo :=
  {| deviceId := deviceId c; deviceIdentifier := deviceIdentifier c;
     status := status c; protocol := protocol c; address := address c;
     port := port c; clientId := clientId c;
     lastActivityAt := lastActivityAt c; connectedAt := connectedAt c;
     disconnectedAt := disconnectedAt c;
     connectionDuration := v; sessionId := sessionId c;
     metadata := metadata c |}.

Definition set_sessionId (v : option string) (c : DeviceConnectionInfo)
    : DeviceConnectionInfo :=
  {| deviceId := deviceId c; deviceIdentifier := deviceIdentifier c;
     status := status c; protocol := protocol c; address := address c;
     port := port c; clientId := clientId c;
     lastActivityAt := lastActivityAt c; connectedAt := connectedAt c;
     disconnectedAt := disconnectedAt c;
     connectionDuration := connectionDuration c; sessionId := v;
     metadata := metadata c |}.

Definition set_metadata (v : option (gmap string JsValue))
    (c : DeviceConnectionInfo) : DeviceConnectionInfo :=
  {| deviceId := deviceId c; deviceIdentifier := deviceIdentifier c;
     status := status c; protocol := protocol c; address := address c;
     port := port c; clientId := clientId c;
     lastActivityAt := lastActivityAt c; connectedAt := connectedAt c;
     disconnectedAt := disconnectedAt c;
     connectionDuration := connectionDuration c; sessionId := sessionId c;
     metadata := v |}.

(** Object spread [{ ...base, ...p }]: a property that [p] supplies wins. *)
Definition spread (base : DeviceConnectionInfo) (p : Partial.t)
    : DeviceConnectionInfo :=
  {| deviceId := default (deviceId base) (Partial.deviceId p);
     deviceIdentifier :=
       default (deviceIdentifier base) (Partial.deviceIdentifier p);
     status := default (status base) (Partial.status p);
     protocol := default (protocol base) (Partial.protocol p);
     address := Partial.address p ∪ address base;
     port := Partial.port p ∪ port base;
     clientId := Partial.clientId p ∪ clientId base;
     lastActivityAt := default (lastActivityAt base) (Partial.lastActivityAt p);
     connectedAt := Partial.connectedAt p ∪ connectedAt base;
     disconnectedAt := Partial.disconnectedAt p ∪ disconnectedAt base;
     connectionDuration :=
       Partial.connectionDuration p ∪ connectionDuration base;
     sessionId := Partial.sessionId p ∪ sessionId base;
     metadata := Partial.metadata p ∪ metadata base |}.

(** [{ ...a, ...b }] on two metadata bags, the first possibly [undefined]. *)
Definition spreadMetadata (a : option (gmap string JsValue))
    (b : gmap string JsValue) : gmap string JsValue :=
  b ∪ default ∅ a.

Module DeviceConnectionService.

Definition HEARTBEAT_INTERVAL : Z := 60000.
Definition CLEANUP_INTERVAL : Z := 300000.
Definition INACTIVE_THRESHOLD : Z := 300000.
(** [24 * 60 * 60 * 1000] in [cleanupInactiveConnections] *)
Definition CLEANUP_THRESHOLD : Z := 24 * 60 * 60 * 1000.

Definition getDeviceById (id : string) (st : State) : option Device.t :=
  devices st !! id.

Definition generateSessionId (env : Env) (st : State) : string * State :=
  let '(r, st) := nextRandom env st in
  ("session-" +:+ pretty (now env) +:+ "-" +:+ r, st).

Definition clearHeartbeat (id : string) (st : State) : State :=
  match heartbeatIntervals st !! id with
  | Some _ => with_heartbeatIntervals (delete id) st
  | None => st
  end.

(** Arms the interval timer of the device; its callback is
    [heartbeatCallback] below. *)
Definition setupHeartbeat (id : string) (st : State) : State :=
  let st := clearHeartbeat id st in
  let interval := timerSeq st in
  let st := with_timerSeq (S interval) st in
  with_heartbeatIntervals (insert id interval) st.

(** The [data] object of [prisma.deviceConnectionLog.create]. *)
Definition connectionLogRow (id : string) (s : DeviceConnectionStatus.t)
    (proto : DeviceProtocol.t) (connectionInfo : DeviceConnectionInfo)
    : ConnectionLog.t :=
  {| ConnectionLog.deviceId := id;
     ConnectionLog.status := s;
     ConnectionLog.protocol := proto;
     ConnectionLog.clientId := clientId connectionInfo;
     ConnectionLog.ipAddress := address connectionInfo;
     ConnectionLog.port := port connectionInfo;
     ConnectionLog.connectedAt := connectedAt connectionInfo;
     ConnectionLog.disconnectedAt := disconnectedAt connectionInfo;
     ConnectionLog.connectionDuration := connectionDuration connectionInfo;
     ConnectionLog.sessionId := sessionId connectionInfo;
     ConnectionLog.metadata := metadata connectionInfo |}.

Definition logConnectionStatus (id : string) (s : DeviceConnectionStatus.t)
    (proto : DeviceProtocol.t) (connectionInfo : DeviceConnectionInfo)
    (st : State) : State :=
  let st := perform (LogCreate (connectionLogRow id s proto connectionInfo)) st in
  let online := bool_decide (s = DeviceConnectionStatus.ONLINE) in
  perform (Audit
    {| AuditEntry.eventType := AuditEventType.DEVICE_ONLINE;
       AuditEntry.level :=
         if online then AuditLogLevel.INFO else AuditLogLevel.WARNING;
       AuditEntry.description :=
         (if online then "设备连接成功 (" else "设备断开连接 (")
           +:+ DeviceProtocol.toString proto +:+ ")";
       AuditEntry.ipAddress := Some id |}) st.

(** [prisma.device.update]: a property set to [undefined] is left as it is. *)
Definition updateDeviceStatus (env : Env) (id : string)
    (s : DeviceConnectionStatus.t) (st : State) : State :=
  with_devices (alter (λ d,
    {| Device.id := Device.id d; Device.identifier := Device.identifier d;
       Device.name := Device.name d;
       Device.organizationId := Device.organizationId d;
       Device.organizationName := Device.organizationName d;
       Device.status := s;
       Device.lastOnlineAt :=
         if bool_decide (s = DeviceConnectionStatus.ONLINE)
         then Some (now env) else Device.lastOnlineAt d |}) id) st.

(** [EventEmitter.emit]: the event is published, then its listeners run. *)
Definition emit (env : Env) (ev : BusEvent) (st : State) : State :=
  DeviceNotificationService.onEvent env ev (perform (Emit ev) st).

(** The status-specific event of [emitStatusChange]. *)
Definition specificEvent (id : string) (c : DeviceConnectionInfo) : BusEvent :=
  match status c with
  | DeviceConnectionStatus.ONLINE => device_online id c
  | DeviceConnectionStatus.OFFLINE => device_offline id c
  | DeviceConnectionStatus.INACTIVE => device_inactive id c
  | DeviceConnectionStatus.ERROR => device_error id c
  end.

(** [oldConnection && oldConnection.status === newConnection.status] *)
Definition sameStatus (newConnection : DeviceConnectionInfo)
    (oldConnection : option DeviceConnectionInfo) : bool :=
  match oldConnection with
  | Some old => bool_decide (status old = status newConnection)
  | None => false
  end.

Definition emitStatusChange (env : Env) (id : string)
    (newConnection : DeviceConnectionInfo)
    (oldConnection : option DeviceConnectionInfo) (st : State) : State :=
  if sameStatus newConnection oldConnection then st
  else
    let st := emit env (status_change id newConnection oldConnection) st in
    let st := emit env (specificEvent id newConnection) st in
    perform (Broadcast ("device:" +:+ id) "device:status_change"
               (StatusPayload id (status newConnection) (now env))) st.

Definition setDeviceStatus (env : Env) (id : string)
    (s : DeviceConnectionStatus.t) (proto : DeviceProtocol.t)
    (connectionInfo : option Partial.t) (st : State)
    : State * Result DeviceConnectionInfo :=
  match getDeviceById id st with
  | None => (st, Throw ("Device with ID " +:+ id +:+ " not found"))
  | Some device =>
      let existingConnection := JsMap.get id (deviceConnections st) in
      let connectionData :=
        spread
          {| deviceId := id;
             deviceIdentifier := Device.identifier device;
             status := s;
             protocol := proto;
             address := None; port := None; clientId := None;
             lastActivityAt := now env;
             connectedAt := None; disconnectedAt := None;
             connectionDuration := None; sessionId := None;
             metadata := None |}
          (default Partial.empty connectionInfo) in
      let '(connectionData, st) :=
        match s with
        | DeviceConnectionStatus.ONLINE =>
            let stayingOnline :=
              match existingConnection with
              | Some ex =>
                  bool_decide (status ex = DeviceConnectionStatus.ONLINE)
              | None => false
              end in
            let '(connectionData, st) :=
              if stayingOnline then
                (set_sessionId (existingConnection ≫= sessionId)
                   (set_connectedAt (existingConnection ≫= connectedAt)
                      connectionData), st)
              else
                let '(sid, st) := generateSessionId env st in
                (set_sessionId (Some sid)
                   (set_connectedAt (Some (now env)) connectionData), st) in
            (set_disconnectedAt None connectionData, setupHeartbeat id st)
        | DeviceConnectionStatus.OFFLINE =>
            let connectionData :=
              set_disconnectedAt (Some (now env)) connectionData in
            let connectionData :=
              match existingConnection ≫= connectedAt with
              | Some t =>
                  set_connectionDuration (Some ((now env - t) `div` 1000)%Z)
                    connectionData
              | None => connectionData
              end in
            (connectionData, clearHeartbeat id st)
        | _ => (connectionData, st)
        end in
      let st := with_deviceConnections (JsMap.set id connectionData) st in
      let st := logConnectionStatus id s proto connectionData st in
      let st := updateDeviceStatus env id s st in
      let st := emitStatusChange env id connectionData existingConnection st in
      (st, Ok connectionData)
  end.

Definition updateDeviceActivity (env : Env) (id : string)
    (patch : option (gmap string JsValue)) (st : State) : State :=
  match JsMap.get id (deviceConnections st) with
  | None => st
  | Some connection =>
      let connection := set_lastActivityAt (now env) connection in
      let connection :=
        match patch with
        | Some m =>
            set_metadata (Some (spreadMetadata (metadata connection) m))
              connection
        | None => connection
        end in
      with_deviceConnections (JsMap.set id connection) st
  end.

Definition getDeviceConnection (id : string) (st : State)
    : option DeviceConnectionInfo :=
  JsMap.get id (deviceConnections st).

Definition getAllDeviceConnections (st : State)
    : list (string * DeviceConnectionInfo) :=
  deviceConnections st.

Definition isOnline (c : DeviceConnectionInfo) : bool :=
  bool_decide (status c = DeviceConnectionStatus.ONLINE).

Definition getOnlineDeviceCount (st : State) : nat :=
  foldl (λ count connection, if isOnline connection then S count else count)
    0 (JsMap.values (deviceConnections st)).

(** [stats[p]++] *)
Definition increment (p : DeviceProtocol.t) (stats : DeviceProtocol.t → nat)
    : DeviceProtocol.t → nat :=
  λ q, if decide (q = p) then S (stats q) else stats q.

Definition getDeviceConnectionStatsByProtocol (st : State)
    : DeviceProtocol.t → nat :=
  foldl (λ stats connection,
           if isOnline connection then increment (protocol connection) stats
           else stats)
    (λ _, 0) (JsMap.values (deviceConnections st)).

(** The partial record that the heartbeat passes with [INACTIVE]: the last
    activity time is carried over, and the reason is added to the metadata. *)
Definition inactiveSignal (connection : DeviceConnectionInfo) : Partial.t :=
  {| Partial.deviceId := None;
     Partial.deviceIdentifier := None;
     Partial.status := None; Partial.protocol := None;
     Partial.address := None; Partial.port := None;
     Partial.clientId := None;
     Partial.lastActivityAt := Some (lastActivityAt connection);
     Partial.connectedAt := None;
     Partial.disconnectedAt := None;
     Partial.connectionDuration := None;
     Partial.sessionId := None;
     Partial.metadata := Some
       (spreadMetadata (metadata connection)
          {[ "inactiveReason" := JAtom (JStr "Heartbeat timeout") ]}) |}.

(** The callback that [setupHeartbeat] hands to [setInterval].  An error
    thrown by [setDeviceStatus] rejects the promise of the callback and is
    not handled. *)
Definition heartbeatCallback (env : Env) (id : string) (st : State) : State :=
  match JsMap.get id (deviceConnections st) with
  | None => clearHeartbeat id st
  | Some connection =>
      let lastActivity := lastActivityAt connection in
      let inactiveTime := (now env - lastActivity)%Z in
      if bool_decide (inactiveTime > INACTIVE_THRESHOLD)%Z then
        (setDeviceStatus env id DeviceConnectionStatus.INACTIVE
           (protocol connection) (Some (inactiveSignal connection)) st).1
      else st
  end.

(** The test of the first loop of [cleanupInactiveConnections]. *)
Definition isStale (env : Env) (connection : DeviceConnectionInfo) : bool :=
  (bool_decide (status connection = DeviceConnectionStatus.INACTIVE)
   || bool_decide (status connection = DeviceConnectionStatus.ERROR))
  && bool_decide (now env - lastActivityAt connection > CLEANUP_THRESHOLD)%Z.

(** The record that the cleanup hands to [logConnectionStatus]. *)
Definition cleanupRecord (env : Env) (connection : DeviceConnectionInfo)
    : DeviceConnectionInfo :=
  set_metadata
    (Some (spreadMetadata (metadata connection)
             {[ "cleanupReason" :=
                  JAtom (JStr "Inactive for more than 24 hours") ]}))
    (set_disconnectedAt (Some (now env))
       (set_status DeviceConnectionStatus.OFFLINE connection)).

(** One turn of the second loop of [cleanupInactiveConnections]. *)
Definition cleanupDevice (env : Env) (st : State) (id : string) : State :=
  match JsMap.get id (deviceConnections st) with
  | Some connection =>
      let st :=
        logConnectionStatus id DeviceConnectionStatus.OFFLINE
          (protocol connection) (cleanupRecord env connection) st in
      let st := with_deviceConnections (JsMap.delete id) st in
      clearHeartbeat id st
  | None => st
  end.

Definition devicesToCleanup (env : Env) (st : State) : list string :=
  (filter (λ entry, isStale env entry.2 = true) (deviceConnections st)).*1.

Definition cleanupInactiveConnections (env : Env) (st : State) : State :=
  foldl (cleanupDevice env) st (devicesToCleanup env st).

End DeviceConnectionService.

(** ** The subsystem as a transition system

    What can happen to the shared state: a status signal, an activity
    signal, a tick of a device's heartbeat timer, a run of the sweeper, an
    administrator setting the configurations of an organization. *)

Inductive Step (st : State) : State → Prop :=
  | StepStatus env id s proto connectionInfo :
      Step st
        (DeviceConnectionService.setDeviceStatus env id s proto connectionInfo st).1
  | StepActivity env id patch :
      Step st (DeviceConnectionService.updateDeviceActivity env id patch st)
  | StepHeartbeat env id :
      is_Some (heartbeatIntervals st !! id) →
      Step st (DeviceConnectionService.heartbeatCallback env id st)
  | StepCleanup env :
      Step st (DeviceConnectionService.cleanupInactiveConnections env st)
  | StepConfigs organizationId configs :
      Step st
        (DeviceNotificationService.setNotificationConfigs organizationId configs st).

(** ** Reading a trace *)

(** The events published on the connection service's emitter. *)
Definition busEvents (t : list Effect) : list BusEvent :=
  omap (λ e, match e with Emit ev => Some ev | _ => None end) t.

(** The rows written to the connection log. *)
Definition connectionLogs (t : list Effect) : list ConnectionLog.t :=
  omap (λ e, match e with LogCreate row => Some row | _ => None end) t.

(** The channels on which a delivery was attempted, one entry per attempt. *)
Definition deliveries (t : list Effect) : list NotificationChannel.t :=
  omap (λ e, match e with Deliver ch _ => Some ch | _ => None end) t.

(** The number of delivery attempts made on a channel. *)
Definition attemptsOn (ch : NotificationChannel.t) (t : list Effect) : nat :=
  length (filter (λ c, c = ch) (deliveries t)).

(** The messages broadcast to the system-wide room [notifications]. *)
Definition systemWide (t : list Effect) : list NotificationMessage.t :=
  omap (λ e, match e with
             | Broadcast room _ (NotificationPayload m) =>
                 if decide (room = "notifications") then Some m else None
             | _ => None
             end) t.

(** The messages for which [notification_sent] was emitted. *)
Definition sentMessages (t : list Effect) : list NotificationMessage.t :=
  omap (λ e, match e with NotificationSent m => Some m | _ => None end) t.

(** What a step appended to the trace. *)
Definition since (st st' : State) : list Effect :=
  drop (length (trace st)) (trace st').

(** [emits st st' d]: the step from [st] to [st'] appended [d] to the trace
    and changed nothing else, the count of random draws apart. *)
Definition emits (st st' : State) (d : list Effect) : Prop :=
  trace st' = trace st ++ d
  ∧ devices st' = devices st
  ∧ deviceConnections st' = deviceConnections st
  ∧ heartbeatIntervals st' = heartbeatIntervals st
  ∧ timerSeq st' = timerSeq st
  ∧ notificationConfigs st' = notificationConfigs st.

(** The channels that the notification about status [s] of device [id] is
    sent on: those of the first enabled configuration of that type of the
    device's organization, and none when there is no such configuration or
    no such device. *)
Definition dispatchChannels (id : string) (s : DeviceConnectionStatus.t)
    (st : State) : list NotificationChannel.t :=
  match devices st !! id with
  | None => []
  | Some device =>
      let organizationId :=
        default "default" (or_else (Device.organizationId device) None) in
      match DeviceNotificationService.findMatchingConfig
              (DeviceNotificationService.notificationTypeOf s)
              (DeviceNotificationService.getNotificationConfigs organizationId st) with
      | Some config => NotificationConfig.channels config
      | None => []
      end
  end.

(** ** Concrete runs

    One device [dev-1] of organization [org-1], used by the examples. *)

Module Scenario.

Definition device : Device.t :=
  {| Device.id := "dev-1"; Device.identifier := "sn-0001";
     Device.name := "pump"; Device.organizationId := Some "org-1";
     Device.organizationName := Some "Waterworks";
     Device.status := DeviceConnectionStatus.OFFLINE;
     Device.lastOnlineAt := None |}.

(** The clock reads [t]; the [n]-th random draw is rendered as [n]. *)
Definition at_time (t : Z) : Env := {| now := t; random := λ n, pretty n |}.

(** Both services freshly constructed, with the configurations [configs]
    set for [org-1], or the defaults when [configs] is [None]. *)
Definition initial (configs : option (list NotificationConfig.t)) : State :=
  {| devices := {[ "dev-1" := device ]};
     deviceConnections := [];
     heartbeatIntervals := ∅;
     timerSeq := 0;
     notificationConfigs :=
       match configs with
       | Some cs => {[ "org-1" := cs ]}
       | None => ∅
       end;
     randomCalls := 0;
     trace := [] |}.

Definition hour : Z := 60 * 60 * 1000.

(** What the TCP listener reports on a new connection. *)
Definition tcpDetails : Partial.t :=
  {| Partial.deviceId := None; Partial.deviceIdentifier := None;
     Partial.status := None; Partial.protocol := None;
     Partial.address := Some "10.0.0.5"; Partial.port := Some 5000%Z;
     Partial.clientId := Some "conn-7";
     Partial.lastActivityAt := None; Partial.connectedAt := None;
     Partial.disconnectedAt := None; Partial.connectionDuration := None;
     Partial.sessionId := None; Partial.metadata := None |}.

(** [org-1] wants offline notifications by e-mail and SMS. *)
Definition offlineByEmailAndSms (enabled : bool) : NotificationConfig.t :=
  {| NotificationConfig.type := NotificationType.DEVICE_OFFLINE;
     NotificationConfig.channels :=
       [NotificationChannel.EMAIL; NotificationChannel.SMS];
     NotificationConfig.priority := NotificationPriority.MEDIUM;
     NotificationConfig.enabled := enabled |}.

(** [dev-1] is online since time 1000, under that configuration. *)
Definition onlineWithOfflineConfig (enabled : bool) : State :=
  (DeviceConnectionService.setDeviceStatus (at_time 1000) "dev-1"
     DeviceConnectionStatus.ONLINE DeviceProtocol.MQTT None
     (initial (Some [offlineByEmailAndSms enabled]))).1.

(** The offline signal arrives at time 5000. *)
Definition wentOffline (enabled : bool) : State :=
  (DeviceConnectionService.setDeviceStatus (at_time 5000) "dev-1"
     DeviceConnectionStatus.OFFLINE DeviceProtocol.MQTT None
     (onlineWithOfflineConfig enabled)).1.

(** [org-1] wants device errors at critical priority, by e-mail only. *)
Definition errorByEmail : NotificationConfig.t :=
  {| NotificationConfig.type := NotificationType.DEVICE_ERROR;
     NotificationConfig.channels := [NotificationChannel.EMAIL];
     NotificationConfig.priority := NotificationPriority.CRITICAL;
     NotificationConfig.enabled := true |}.

(** An error signal for [dev-1] at time 1000, under that configuration. *)
Definition reportedError : State :=
  (DeviceConnectionService.setDeviceStatus (at_time 1000) "dev-1"
     DeviceConnectionStatus.ERROR DeviceProtocol.MQTT None
     (initial (Some [errorByEmail]))).1.

(** A system error message, as the default configuration would rank it. *)
Definition systemError : NotificationMessage.t :=
  {| NotificationMessage.id := "notification-1000-0";
     NotificationMessage.type := NotificationType.SYSTEM_ERROR;
     NotificationMessage.title := "系统错误";
     NotificationMessage.content := "broker unreachable";
     NotificationMessage.timestamp := 1000;
     NotificationMessage.priority := NotificationPriority.CRITICAL;
     NotificationMessage.deviceId := None;
     NotificationMessage.deviceIdentifier := None;
     NotificationMessage.deviceName := None;
     NotificationMessage.organizationId := None;
     NotificationMessage.organizationName := None;
     NotificationMessage.data := None |}.

(** A status signal at time 0 reports [dev-1] as [INACTIVE]. *)
Definition inactiveAt0 : State :=
  (DeviceConnectionService.setDeviceStatus (at_time 0) "dev-1"
     DeviceConnectionStatus.INACTIVE DeviceProtocol.MQTT None
     (initial None)).1.

(** 23 hours later the device publishes on [devices/dev-1/data]. *)
Definition activityAt23h : State :=
  DeviceConnectionService.updateDeviceActivity (at_time (23 * hour)) "dev-1"
    (Some {[ "lastMessage" :=
               JObj [("topic", JStr "devices/dev-1/data");
                     ("timestamp", JDate (23 * hour))] ]})
    inactiveAt0.

(** [dev-1] has connected over TCP at time 1000. *)
Definition connectedOverTcp : State :=
  (DeviceConnectionService.setDeviceStatus (at_time 1000) "dev-1"
     DeviceConnectionStatus.ONLINE DeviceProtocol.TCP (Some tcpDetails)
     (initial None)).1.

End Scenario.

(** * The protocol listeners

    The listeners that [DeviceConnectionService.setupEventListeners] and
    [setupMqttSubscriptions] register, and the part of the MQTT client that
    routes an incoming message to them.  The audit entries that the MQTT
    client writes about its own operations are not represented. *)

Module MqttClientService.

(** The two closures that [setupMqttSubscriptions] passes to [subscribe]. *)
Inductive Handler := StatusHandler | LwtHandler.

Record Subscription := {
  qos : nat;
  handler : Handler
}.

Record t := {
  (** [this.client !== null] *)
  client : bool;
  isConnected : bool;
  subscriptions : list (string * Subscription)
}.

Definition with_subscriptions
    (f : list (string * Subscription) → list (string * Subscription))
    (c : t) : t :=
  {| client := client c; isConnected := isConnected c;
     subscriptions := f (subscriptions c) |}.

Definition isClientConnected (c : t) : bool := isConnected c && client c.

Definition getSubscriptions (c : t) : list string :=
  JsMap.keys (subscriptions c).

(** [subscribe(topic, options, handler)]; [err] is the error that the broker
    answers with, if any. *)
Definition subscribe (err : option string) (topic : string)
    (qos : option nat) (handler : option Handler) (c : t) : t * Result bool :=
  if negb (client c) || negb (isConnected c)
  then (c, Throw "MQTT client not connected")
  else
    match err with
    | Some e => (c, Throw e)
    | None =>
        let c :=
          match handler with
          | Some h =>
              with_subscriptions
                (JsMap.set topic {| qos := default 0 qos; handler := h |}) c
          | None => c
          end in
        (c, Ok true)
    end.

Definition unsubscribe (err : option string) (topic : string) (c : t)
    : t * Result bool :=
  if negb (client c) || negb (isConnected c)
  then (c, Throw "MQTT client not connected")
  else
    match err with
    | Some e => (c, Throw e)
    | None => (with_subscriptions (JsMap.delete topic) c, Ok true)
    end.

End MqttClientService.

Module DeviceConnectionListeners.

(** The character [/], code 47. *)
Definition slash : Ascii.ascii :=
  Ascii.Ascii true true true true false true false false.

(** The longest prefix of [s] without a slash: what [[^\/]+] matches. *)
Fixpoint segment (s : string) : string :=
  match s with
  | EmptyString => EmptyString
  | String c s' =>
      if Ascii.eqb c slash then EmptyString else String c (segment s')
  end.

(** [s] without the prefix [p], when it has that prefix. *)
Fixpoint stripPrefix (p s : string) : option string :=
  match p with
  | EmptyString => Some s
  | String a p' =>
      match s with
      | EmptyString => None
      | String b s' => if Ascii.eqb a b then stripPrefix p' s' else None
      end
  end.

(** [topic.match(/^devices\/([^\/]+)/)], then the first group or [null]. *)
Definition extractDeviceIdFromTopic (topic : string) : option string :=
  match stripPrefix "devices/" topic with
  | Some rest =>
      let id := segment rest in
      if decide (id = "") then None else Some id
  | None => None
  end.

(** The stub: no identifier can be read from a TCP socket. *)
Definition extractDeviceIdentifierFromSocket : option string := None.

(** The listener of the MQTT client's [message] event. *)
Definition onMqttMessage (env : Env) (topic : string) (st : State) : State :=
  match extractDeviceIdFromTopic topic with
  | Some id =>
      DeviceConnectionService.updateDeviceActivity env id
        (Some {[ "lastMessage" :=
                   JObj [("topic", JStr topic);
                         ("timestamp", JDate (now env))] ]}) st
  | None => st
  end.

(** The handler of [devices/+/status].  An error of [setDeviceStatus] is
    caught and printed. *)
Definition statusHandler (env : Env) (topic payload : string) (st : State)
    : State :=
  match extractDeviceIdFromTopic topic with
  | None => st
  | Some id =>
      if decide (payload = "online") then
        match DeviceConnectionService.getDeviceById id st with
        | Some _ =>
            (DeviceConnectionService.setDeviceStatus env id
               DeviceConnectionStatus.ONLINE DeviceProtocol.MQTT None st).1
        | None => st
        end
      else if decide (payload = "offline") then
        (DeviceConnectionService.setDeviceStatus env id
           DeviceConnectionStatus.OFFLINE DeviceProtocol.MQTT None st).1
      else st
  end.

(** The partial record that the last-will handler passes. *)
Definition lwtSignal (env : Env) (payload : string) : Partial.t :=
  {| Partial.deviceId := None; Partial.deviceIdentifier := None;
     Partial.status := None; Partial.protocol := None;
     Partial.address := None; Partial.port := None;
     Partial.clientId := None; Partial.lastActivityAt := None;
     Partial.connectedAt := None; Partial.disconnectedAt := None;
     Partial.connectionDuration := None; Partial.sessionId := None;
     Partial.metadata := Some
       (<[ "lwtMessage" := JAtom (JStr payload) ]>
          {[ "lwtTimestamp" := JAtom (JDate (now env)) ]}) |}.

(** The handler of [devices/+/lwt]. *)
Definition lwtHandler (env : Env) (topic payload : string) (st : State)
    : State :=
  match extractDeviceIdFromTopic topic with
  | None => st
  | Some id =>
      (DeviceConnectionService.setDeviceStatus env id
         DeviceConnectionStatus.OFFLINE DeviceProtocol.MQTT
         (Some (lwtSignal env payload)) st).1
  end.

Definition runHandler (h : MqttClientService.Handler) (env : Env)
    (topic payload : string) (st : State) : State :=
  match h with
  | MqttClientService.StatusHandler => statusHandler env topic payload st
  | MqttClientService.LwtHandler => lwtHandler env topic payload st
  end.

(** [MqttClientService.handleMessage]: the handler subscribed under exactly
    this topic string runs, if there is one; then the [message] event is
    emitted, whose listener is [onMqttMessage].  The handler is [async]
    and is run here to completion before the listener; the program starts
    it first but does not await it, so when a handler is found the order
    of the two is the model's. *)
Definition handleMessage (env : Env) (c : MqttClientService.t)
    (topic payload : string) (st : State) : State :=
  let st :=
    match JsMap.get topic (MqttClientService.subscriptions c) with
    | Some subscription =>
        runHandler (MqttClientService.handler subscription) env topic payload st
    | None => st
    end in
  onMqttMessage env topic st.

(** [setupMqttSubscriptions]; [err1] and [err2] are the broker's answers to
    the two subscriptions.  A rejected subscription ends the [try] block. *)
Definition setupMqttSubscriptions (err1 err2 : option string)
    (c : MqttClientService.t) : MqttClientService.t :=
  if negb (MqttClientService.isClientConnected c) then c
  else
    match MqttClientService.subscribe err1 "devices/+/status" (Some 1)
            (Some MqttClientService.StatusHandler) c with
    | (c, Ok _) =>
        (MqttClientService.subscribe err2 "devices/+/lwt" (Some 1)
           (Some MqttClientService.LwtHandler) c).1
    | (c, Throw _) => c
    end.

(** The test of the loops in the [socket_close] and [disconnect] listeners. *)
Definition usesConnection (proto : DeviceProtocol.t) (connectionId : string)
    (entry : string * DeviceConnectionInfo) : bool :=
  bool_decide (protocol entry.2 = proto)
  && bool_decide (clientId entry.2 = Some connectionId).

(** The listener of the TCP service's [socket_close] event: the first device
    of the table that uses the connection goes offline. *)
Definition onTcpSocketClose (env : Env) (connectionId : string) (st : State)
    : State :=
  match List.find (usesConnection DeviceProtocol.TCP connectionId)
          (deviceConnections st) with
  | Some (id, _) =>
      (DeviceConnectionService.setDeviceStatus env id
         DeviceConnectionStatus.OFFLINE DeviceProtocol.TCP None st).1
  | None => st
  end.

(** The listener of the WebSocket service's [disconnect] event. *)
Definition onWebSocketDisconnect (env : Env) (clientId : string) (st : State)
    : State :=
  match List.find (usesConnection DeviceProtocol.WEBSOCKET clientId)
          (deviceConnections st) with
  | Some (id, _) =>
      (DeviceConnectionService.setDeviceStatus env id
         DeviceConnectionStatus.OFFLINE DeviceProtocol.WEBSOCKET None st).1
  | None => st
  end.

(** The listener of a device client's [device:heartbeat] event. *)
Definition onWebSocketHeartbeat (env : Env) (id : string) (st : State) : State :=
  DeviceConnectionService.updateDeviceActivity env id
    (Some {[ "lastHeartbeat" := JAtom (JDate (now env)) ]}) st.

End DeviceConnectionListeners.

(** ** More readings of a trace and of a state *)

(** The entries handed to the audit log. *)
Definition audits (t : list Effect) : list AuditEntry.t :=
  omap (λ e, match e with Audit entry => Some entry | _ => None end) t.

(** The rooms to which a notification was broadcast, one entry per
    broadcast. *)
Definition notificationRooms (t : list Effect) : list string :=
  omap (λ e, match e with
             | Broadcast room _ (NotificationPayload _) => Some room
             | _ => None
             end) t.

(** The rooms that [sendWebSocketNotification] broadcasts a message to. *)
Definition webSocketRooms (m : NotificationMessage.t) : list string :=
  (match NotificationMessage.deviceId m with
   | Some d => if truthy (Some d) then ["device:" +:+ d] else []
   | None => []
   end)
  ++ (match NotificationMessage.organizationId m with
      | Some o => if truthy (Some o) then ["organization:" +:+ o] else []
      | None => []
      end)
  ++ (if DeviceNotificationService.isHighOrCritical
           (NotificationMessage.priority m)
      then ["notifications"] else []).

(** Every armed heartbeat timer belongs to a device that has a record. *)
Definition timersHaveRecords (st : State) : Prop :=
  ∀ id, is_Some (heartbeatIntervals st !! id) →
        is_Some (JsMap.get id (deviceConnections st)).

(** [1] for [true]: what a record contributes to the online count. *)
Definition onlineWeight (c : option DeviceConnectionInfo) : nat :=
  match c with
  | Some c => if DeviceConnectionService.isOnline c then 1 else 0
  | None => 0
  end.

(** ** More concrete runs *)

Module Examples.

(** A device that belongs to no organization. *)
Definition strayDevice : Device.t :=
  {| Device.id := "dev-9"; Device.identifier := "sn-0009";
     Device.name := "valve"; Device.organizationId := None;
     Device.organizationName := None;
     Device.status := DeviceConnectionStatus.OFFLINE;
     Device.lastOnlineAt := None |}.

(** The store holds the stray device only; errors are notified by e-mail
    under the key [default]. *)
Definition strayState : State :=
  {| devices := {[ "dev-9" := strayDevice ]};
     deviceConnections := [];
     heartbeatIntervals := ∅;
     timerSeq := 0;
     notificationConfigs := {[ "default" := [Scenario.errorByEmail] ]};
     randomCalls := 0;
     trace := [] |}.

(** A connected MQTT client on which both subscriptions were granted. *)
Definition mqttReady : MqttClientService.t :=
  DeviceConnectionListeners.setupMqttSubscriptions None None
    {| MqttClientService.client := true;
       MqttClientService.isConnected := true;
       MqttClientService.subscriptions := [] |}.

(** [dev-1] has connected over a WebSocket at time 1000. *)
Definition connectedOverWebSocket : State :=
  (DeviceConnectionService.setDeviceStatus (Scenario.at_time 1000) "dev-1"
     DeviceConnectionStatus.ONLINE DeviceProtocol.WEBSOCKET
     (Some {| Partial.deviceId := None; Partial.deviceIdentifier := None;
              Partial.status := None; Partial.protocol := None;
              Partial.address := Some "10.0.0.8"; Partial.port := None;
              Partial.clientId := Some "sock-3";
              Partial.lastActivityAt := None; Partial.connectedAt := None;
              Partial.disconnectedAt := None;
              Partial.connectionDuration := None;
              Partial.sessionId := None; Partial.metadata := None |})
     (Scenario.initial None)).1.

(** [org-1] has the offline notification switched off and errors notified
    by e-mail; [dev-1] has no record yet. *)
Definition mixedConfigs : State :=
  Scenario.initial
    (Some [Scenario.offlineByEmailAndSms false; Scenario.errorByEmail]).

(** A record of [dev-1] as an error signal at time 1000 stores it. *)
Definition errorRecord : DeviceConnectionInfo :=
  {| deviceId := "dev-1"; deviceIdentifier := "sn-0001";
     status := DeviceConnectionStatus.ERROR;
     protocol := DeviceProtocol.MQTT;
     address := None; port := None; clientId := None;
     lastActivityAt := 1000; connectedAt := None;
     disconnectedAt := None; connectionDuration := None;
     sessionId := None; metadata := None |}.

End Examples.

(** * Properties *)

Import DeviceConnectionService.

(** ** The map *)

Section JsMapFacts.
Context {V : Type}.
Implicit Types (m : list (string * V)) (k : string) (v : V).

Lemma get_set_eq m k v : JsMap.get k (JsMap.set k v m) = Some v.
Proof.
  induction m as [|[k' v'] m IH]; cbn [JsMap.get JsMap.set JsMap.delete fmap list_fmap fst].
  - by rewrite decide_True.
  - destruct (decide (k' = k)) as [->|Hne]; cbn [JsMap.get JsMap.set JsMap.delete fmap list_fmap fst].
    + by rewrite decide_True.
    + by rewrite decide_False.
Qed.

Lemma get_set_ne m k k' v :
  k ≠ k' → JsMap.get k' (JsMap.set k v m) = JsMap.get k' m.
Proof.
  intros Hne. induction m as [|[k0 v0] m IH]; cbn [JsMap.get JsMap.set JsMap.delete fmap list_fmap fst].
  - by rewrite decide_False.
  - destruct (decide (k0 = k)) as [->|Hk0]; cbn [JsMap.get JsMap.set JsMap.delete fmap list_fmap fst].
    + by rewrite !decide_False.
    + destruct (decide (k0 = k')); [done|apply IH].
Qed.

Lemma get_delete_eq m k : JsMap.get k (JsMap.delete k m) = None.
Proof.
  induction m as [|[k' v'] m IH]; cbn [JsMap.get JsMap.set JsMap.delete fmap list_fmap fst]; [done|].
  destruct (decide (k' = k)); cbn [JsMap.get JsMap.set JsMap.delete fmap list_fmap fst]; [done|]. by rewrite decide_False.
Qed.

Lemma get_delete_ne m k k' :
  k ≠ k' → JsMap.get k' (JsMap.delete k m) = JsMap.get k' m.
Proof.
  intros Hne. induction m as [|[k0 v0] m IH]; cbn [JsMap.get JsMap.set JsMap.delete fmap list_fmap fst]; [done|].
  destruct (decide (k0 = k)) as [->|Hk0]; cbn [JsMap.get JsMap.set JsMap.delete fmap list_fmap fst].
  - by rewrite decide_False.
  - destruct (decide (k0 = k')); [done|apply IH].
Qed.

Lemma get_Some_elem_of m k v : JsMap.get k m = Some v → (k, v) ∈ m.
Proof.
  induction m as [|[k' v'] m IH]; cbn [JsMap.get JsMap.set JsMap.delete fmap list_fmap fst]; [done|].
  destruct (decide (k' = k)) as [->|Hne].
  - intros [= ->]. left.
  - intros H. right. by apply IH.
Qed.

Lemma get_None_keys m k : JsMap.get k m = None ↔ k ∉ JsMap.keys m.
Proof.
  unfold JsMap.keys. induction m as [|[k' v'] m IH]; cbn [JsMap.get JsMap.set JsMap.delete fmap list_fmap fst].
  - split; [intros _; apply not_elem_of_nil|done].
  - rewrite not_elem_of_cons. destruct (decide (k' = k)) as [->|Hne].
    + split; [done|]. by intros [? _].
    + rewrite IH. split; [by intros ?; split|by intros [_ ?]].
Qed.

Lemma elem_of_get_NoDup m k v :
  NoDup (JsMap.keys m) → (k, v) ∈ m → JsMap.get k m = Some v.
Proof.
  unfold JsMap.keys. induction m as [|[k' v'] m IH]; cbn [JsMap.get JsMap.set JsMap.delete fmap list_fmap fst].
  - intros _ H. by apply elem_of_nil in H.
  - intros [Hnotin Hnd]%NoDup_cons [[= -> ->]|Hin]%elem_of_cons.
    + by rewrite decide_True.
    + destruct (decide (k' = k)) as [->|Hne]; [|by apply IH].
      exfalso. apply Hnotin. apply list_elem_of_fmap. by exists (k, v).
Qed.

Lemma keys_set m k v :
  JsMap.keys (JsMap.set k v m)
  = if decide (k ∈ JsMap.keys m) then JsMap.keys m else JsMap.keys m ++ [k].
Proof.
  unfold JsMap.keys. induction m as [|[k' v'] m IH]; cbn [JsMap.get JsMap.set JsMap.delete fmap list_fmap fst].
  - rewrite decide_False; [done|apply not_elem_of_nil].
  - destruct (decide (k' = k)) as [->|Hne]; cbn [JsMap.get JsMap.set JsMap.delete fmap list_fmap fst].
    + rewrite decide_True; [done|left].
    + rewrite IH. destruct (decide (k ∈ m.*1)) as [Hin|Hnotin].
      * rewrite decide_True; [done|by right].
      * rewrite decide_False; [done|].
        rewrite not_elem_of_cons. split; [done|done].
Qed.

Lemma keys_delete_sublist m k : JsMap.keys (JsMap.delete k m) `sublist_of` JsMap.keys m.
Proof.
  unfold JsMap.keys. induction m as [|[k' v'] m IH]; cbn [JsMap.get JsMap.set JsMap.delete fmap list_fmap fst]; [done|].
  destruct (decide (k' = k)); cbn [JsMap.get JsMap.set JsMap.delete fmap list_fmap fst].
  - by apply sublist_cons.
  - by apply sublist_skip.
Qed.

(** A [Map] holds at most one entry per key; [set] and [delete] keep it so. *)
Lemma NoDup_keys_set m k v :
  NoDup (JsMap.keys m) → NoDup (JsMap.keys (JsMap.set k v m)).
Proof.
  intros Hnd. rewrite keys_set. case_decide; [done|].
  apply NoDup_app. split_and!; [done| |apply NoDup_singleton].
  intros x Hx [->|[]%elem_of_nil]%elem_of_cons. done.
Qed.

Lemma NoDup_keys_delete m k :
  NoDup (JsMap.keys m) → NoDup (JsMap.keys (JsMap.delete k m)).
Proof. intros Hnd. eapply sublist_NoDup; [done|apply keys_delete_sublist]. Qed.
End JsMapFacts.

(** ** Traces *)

Lemma since_refl st : since st st = [].
Proof. unfold since. by rewrite drop_all. Qed.

Lemma since_app st st' d : trace st' = trace st ++ d → since st st' = d.
Proof. intros H. unfold since. rewrite H. apply drop_app_length. Qed.

Lemma busEvents_app d1 d2 : busEvents (d1 ++ d2) = busEvents d1 ++ busEvents d2.
Proof. apply omap_app. Qed.

Lemma connectionLogs_app d1 d2 :
  connectionLogs (d1 ++ d2) = connectionLogs d1 ++ connectionLogs d2.
Proof. apply omap_app. Qed.

Lemma deliveries_app d1 d2 : deliveries (d1 ++ d2) = deliveries d1 ++ deliveries d2.
Proof. apply omap_app. Qed.

Lemma systemWide_app d1 d2 : systemWide (d1 ++ d2) = systemWide d1 ++ systemWide d2.
Proof. apply omap_app. Qed.

Lemma attemptsOn_app ch d1 d2 :
  attemptsOn ch (d1 ++ d2) = attemptsOn ch d1 + attemptsOn ch d2.
Proof. unfold attemptsOn. by rewrite deliveries_app, filter_app, length_app. Qed.

Lemma emits_refl st : emits st st [].
Proof. unfold emits. by rewrite app_nil_r. Qed.

Lemma emits_perform e st : emits st (perform e st) [e].
Proof. by unfold emits. Qed.

Lemma emits_trans st st1 st2 d1 d2 :
  emits st st1 d1 → emits st1 st2 d2 → emits st st2 (d1 ++ d2).
Proof.
  unfold emits. intros (Ht1 & ? & ? & ? & ? & ?) (Ht2 & ? & ? & ? & ? & ?).
  rewrite Ht2, Ht1, app_assoc. split_and!; congruence.
Qed.

Lemma emits_randomCalls n st : emits st (with_randomCalls n st) [].
Proof. unfold emits. simpl. by rewrite app_nil_r. Qed.

Lemma emits_since st st' d : emits st st' d → since st st' = d.
Proof. intros [H _]. by apply since_app. Qed.

(** ** The notification service *)

Import DeviceNotificationService.

Lemma sendWebSocketNotification_emits m st :
  ∃ d, emits st (sendWebSocketNotification m st) d
       ∧ busEvents d = [] ∧ connectionLogs d = [] ∧ deliveries d = []
       ∧ systemWide d
         = if isHighOrCritical (NotificationMessage.priority m) then [m] else [].
Proof.
  unfold sendWebSocketNotification.
  set (s1 := match NotificationMessage.deviceId m with
             | Some d => _ | None => st end).
  assert (∃ d1, emits st s1 d1 ∧ busEvents d1 = [] ∧ connectionLogs d1 = []
                ∧ deliveries d1 = [] ∧ systemWide d1 = []) as (d1 & E1 & ? & ? & ? & ?).
  { subst s1. destruct (NotificationMessage.deviceId m) as [dv|];
      [destruct (truthy (Some dv))|];
      try (by exists []; split; [apply emits_refl|]).
    eexists; split; [apply emits_perform|]. by split_and!. }
  set (s2 := match NotificationMessage.organizationId m with
             | Some o => _ | None => s1 end).
  assert (∃ d2, emits s1 s2 d2 ∧ busEvents d2 = [] ∧ connectionLogs d2 = []
                ∧ deliveries d2 = [] ∧ systemWide d2 = []) as (d2 & E2 & ? & ? & ? & ?).
  { subst s2. destruct (NotificationMessage.organizationId m) as [o|];
      [destruct (truthy (Some o))|];
      try (by exists []; split; [apply emits_refl|]).
    eexists; split; [apply emits_perform|]. by split_and!. }
  pose proof (emits_trans _ _ _ _ _ E1 E2) as E12.
  destruct (isHighOrCritical (NotificationMessage.priority m)).
  - eexists. split; [eapply emits_trans; [exact E12|apply emits_perform]|].
    rewrite !busEvents_app, !connectionLogs_app, !deliveries_app, !systemWide_app.
    repeat match goal with H : _ = [] |- _ => rewrite H end. done.
  - eexists. split; [exact E12|].
    rewrite !busEvents_app, !connectionLogs_app, !deliveries_app, !systemWide_app.
    repeat match goal with H : _ = [] |- _ => rewrite H end. done.
Qed.

Lemma sendOnChannel_emits m st ch :
  ∃ d, emits st (sendOnChannel m st ch) d
       ∧ busEvents d = [] ∧ connectionLogs d = [] ∧ deliveries d = [ch]
       ∧ systemWide d
         = if decide (ch = NotificationChannel.WEBSOCKET)
           then if isHighOrCritical (NotificationMessage.priority m)
                then [m] else []
           else [].
Proof.
  unfold sendOnChannel.
  pose proof (emits_perform (Deliver ch m) st) as E0.
  destruct ch; simpl;
    try (eexists; split; [exact E0|by split_and!]).
  destruct (sendWebSocketNotification_emits m (perform (Deliver NotificationChannel.WEBSOCKET m) st))
    as (d & E & Hb & Hl & Hd & Hs).
  eexists. split; [exact (emits_trans _ _ _ _ _ E0 E)|].
  rewrite busEvents_app, connectionLogs_app, deliveries_app, systemWide_app.
  rewrite Hb, Hl, Hd, Hs. done.
Qed.

Lemma sendOnChannels_emits m chs st :
  ∃ d, emits st (foldl (sendOnChannel m) st chs) d
       ∧ busEvents d = [] ∧ connectionLogs d = [] ∧ deliveries d = chs
       ∧ systemWide d
         = if isHighOrCritical (NotificationMessage.priority m)
           then replicate
                  (length (filter (λ c, c = NotificationChannel.WEBSOCKET) chs)) m
           else [].
Proof.
  revert st. induction chs as [|ch chs IH]; intros st; simpl.
  - exists []. split; [apply emits_refl|]. split_and!; try done.
    by destruct (isHighOrCritical _).
  - destruct (sendOnChannel_emits m st ch) as (d1 & E1 & Hb1 & Hl1 & Hd1 & Hs1).
    destruct (IH (sendOnChannel m st ch)) as (d2 & E2 & Hb2 & Hl2 & Hd2 & Hs2).
    exists (d1 ++ d2). split; [exact (emits_trans _ _ _ _ _ E1 E2)|].
    rewrite busEvents_app, connectionLogs_app, deliveries_app, systemWide_app.
    rewrite Hb1, Hl1, Hd1, Hs1, Hb2, Hl2, Hd2, Hs2. split_and!; try done.
    rewrite filter_cons. destruct (decide (ch = _)); simpl;
      by destruct (isHighOrCritical _).
Qed.

Lemma sendNotification_emits m chs st :
  ∃ d, emits st (sendNotification m chs st) d
       ∧ busEvents d = [] ∧ connectionLogs d = [] ∧ deliveries d = chs
       ∧ systemWide d
         = if isHighOrCritical (NotificationMessage.priority m)
           then replicate
                  (length (filter (λ c, c = NotificationChannel.WEBSOCKET) chs)) m
           else [].
Proof.
  unfold sendNotification.
  destruct (sendOnChannels_emits m chs st) as (d & E & Hb & Hl & Hd & Hs).
  exists (d ++ [NotificationSent m]).
  split; [exact (emits_trans _ _ _ _ _ E (emits_perform _ _))|].
  rewrite busEvents_app, connectionLogs_app, deliveries_app, systemWide_app.
  rewrite Hb, Hl, Hd, Hs. simpl. by rewrite !app_nil_r.
Qed.

(** One call of the dispatcher attempts one delivery on each channel that
    the matching configuration lists, in the order listed, and none when no
    enabled configuration matches. *)
Lemma sendDeviceStatusNotification_emits env id s c st :
  ∃ d, emits st (sendDeviceStatusNotification env id s c st) d
       ∧ busEvents d = [] ∧ connectionLogs d = []
       ∧ deliveries d = dispatchChannels id s st.
Proof.
  unfold sendDeviceStatusNotification, dispatchChannels.
  destruct (devices st !! id) as [device|];
    [|by exists []; split; [apply emits_refl|]].
  simpl. destruct (findMatchingConfig _ _) as [cfg|];
    [|by exists []; split; [apply emits_refl|]].
  unfold generateNotificationId, nextRandom.
  match goal with
  | |- context [sendNotification ?m ?chs ?s] =>
      destruct (sendNotification_emits m chs s) as (d & E & Hb & Hl & Hd & _);
      exists ([] ++ d ++ [Audit
        {| AuditEntry.eventType := AuditEventType.NOTIFICATION_SENT;
           AuditEntry.level := auditLevel (NotificationMessage.priority m);
           AuditEntry.description := "发送通知: " +:+ NotificationMessage.title m;
           AuditEntry.ipAddress := NotificationMessage.deviceId m |}])
  end.
  split.
  - eapply emits_trans; [apply emits_randomCalls|].
    eapply emits_trans; [exact E|apply emits_perform].
  - rewrite !busEvents_app, !connectionLogs_app, !deliveries_app.
    rewrite Hb, Hl, Hd. simpl. by rewrite !app_nil_r.
Qed.

Lemma onEvent_specificEvent env id c st :
  onEvent env (specificEvent id c) st
  = sendDeviceStatusNotification env id (status c) c st.
Proof. unfold specificEvent. by destruct (status c). Qed.

Lemma emit_emits env id s c ev st :
  (∀ st, onEvent env ev st = sendDeviceStatusNotification env id s c st) →
  ∃ d, emits st (emit env ev st) (Emit ev :: d)
       ∧ busEvents d = [] ∧ connectionLogs d = []
       ∧ deliveries d = dispatchChannels id s st.
Proof.
  intros Hev. unfold emit. rewrite Hev.
  destruct (sendDeviceStatusNotification_emits env id s c (perform (Emit ev) st))
    as (d & E & Hb & Hl & Hd).
  exists d. split; [exact (emits_trans _ _ _ _ _ (emits_perform _ _) E)|done].
Qed.

(** [emitStatusChange] publishes the general and the status-specific event
    when the status has changed, and nothing when it has not; each of the
    two events makes the dispatcher run once. *)
Lemma emitStatusChange_emits env id c old st :
  ∃ d, emits st (emitStatusChange env id c old st) d
       ∧ busEvents d
         = (if sameStatus c old then []
            else [status_change id c old; specificEvent id c])
       ∧ connectionLogs d = []
       ∧ deliveries d
         = (if sameStatus c old then []
            else dispatchChannels id (status c) st
                   ++ dispatchChannels id (status c) st).
Proof.
  unfold emitStatusChange. destruct (sameStatus c old).
  { exists []. split; [apply emits_refl|done]. }
  destruct (emit_emits env id (status c) c (status_change id c old) st (λ _, eq_refl))
    as (d1 & E1 & Hb1 & Hl1 & Hd1).
  set (st1 := emit env (status_change id c old) st) in *.
  destruct (emit_emits env id (status c) c (specificEvent id c) st1
              (onEvent_specificEvent env id c))
    as (d2 & E2 & Hb2 & Hl2 & Hd2).
  eexists. split.
  - eapply emits_trans; [exact E1|].
    eapply emits_trans; [exact E2|apply emits_perform].
  - assert (dispatchChannels id (status c) st1 = dispatchChannels id (status c) st)
      as Hsame.
    { destruct E1 as (_ & Hdev & _ & _ & _ & Hcfg).
      unfold dispatchChannels, getNotificationConfigs. by rewrite Hdev, Hcfg. }
    rewrite !busEvents_app, !connectionLogs_app, !deliveries_app. simpl.
    rewrite Hb1, Hl1, Hd1, Hb2, Hl2, Hd2, Hsame. simpl.
    by rewrite !app_nil_r.
Qed.

(** ** The connection service *)

Lemma spread_empty c : spread c Partial.empty = c.
Proof. by destruct c as [? ? ? ? [] [] [] ? [] [] [] [] []]. Qed.

Lemma union_None_r {A} (x : option A) : x ∪ None = x.
Proof. by destruct x. Qed.

(** What [setDeviceStatus] does for a device that the store knows: the
    record it builds, and the four steps that follow. *)
Lemma setDeviceStatus_run env id s proto ci st device :
  devices st !! id = Some device →
  let p := default Partial.empty ci in
  let ex := JsMap.get id (deviceConnections st) in
  ∃ c st0,
    setDeviceStatus env id s proto ci st
    = (emitStatusChange env id c ex
         (updateDeviceStatus env id s
            (logConnectionStatus id s proto c
               (with_deviceConnections (JsMap.set id c) st0))), Ok c)
    ∧ (trace st0 = trace st ∧ devices st0 = devices st
       ∧ deviceConnections st0 = deviceConnections st
       ∧ notificationConfigs st0 = notificationConfigs st)
    ∧ (deviceId c = default id (Partial.deviceId p)
       ∧ deviceIdentifier c
         = default (Device.identifier device) (Partial.deviceIdentifier p)
       ∧ status c = default s (Partial.status p)
       ∧ protocol c = default proto (Partial.protocol p)
       ∧ address c = Partial.address p
       ∧ port c = Partial.port p
       ∧ clientId c = Partial.clientId p
       ∧ metadata c = Partial.metadata p
       ∧ lastActivityAt c = default (now env) (Partial.lastActivityAt p))
    ∧ match s with
      | DeviceConnectionStatus.ONLINE =>
          disconnectedAt c = None
          ∧ connectionDuration c = Partial.connectionDuration p
          ∧ match ex with
            | Some e =>
                if decide (status e = DeviceConnectionStatus.ONLINE)
                then connectedAt c = connectedAt e ∧ sessionId c = sessionId e
                else connectedAt c = Some (now env)
                     ∧ sessionId c = Some (generateSessionId env st).1
            | None => connectedAt c = Some (now env)
                      ∧ sessionId c = Some (generateSessionId env st).1
            end
      | DeviceConnectionStatus.OFFLINE =>
          disconnectedAt c = Some (now env)
          ∧ connectedAt c = Partial.connectedAt p
          ∧ sessionId c = Partial.sessionId p
          ∧ connectionDuration c
            = match ex ≫= connectedAt with
              | Some t => Some ((now env - t) `div` 1000)%Z
              | None => Partial.connectionDuration p
              end
      | _ =>
          disconnectedAt c = Partial.disconnectedAt p
          ∧ connectedAt c = Partial.connectedAt p
          ∧ sessionId c = Partial.sessionId p
          ∧ connectionDuration c = Partial.connectionDuration p
      end.
Proof.
  intros Hdev p ex. unfold setDeviceStatus, getDeviceById. rewrite Hdev.
  fold ex. fold p.
  destruct s.
  - (* ONLINE *)
    destruct ex as [e|] eqn:Hex; [destruct (decide (status e = _)) as [He|He]|].
    + rewrite bool_decide_eq_true_2 by done.
      eexists _, _. split; [reflexivity|]. split.
      { unfold setupHeartbeat, clearHeartbeat.
        by destruct (heartbeatIntervals st !! id). }
      split; simpl; rewrite ?union_None_r; by split_and!.
    + rewrite bool_decide_eq_false_2 by done.
      eexists _, _. split; [reflexivity|]. split.
      { unfold setupHeartbeat, clearHeartbeat. simpl.
        by destruct (heartbeatIntervals st !! id). }
      split; simpl; rewrite ?union_None_r; by split_and!.
    + eexists _, _. split; [reflexivity|]. split.
      { unfold setupHeartbeat, clearHeartbeat. simpl.
        by destruct (heartbeatIntervals st !! id). }
      split; simpl; rewrite ?union_None_r; by split_and!.
  - (* OFFLINE *)
    destruct (ex ≫= connectedAt) as [t|] eqn:Ht.
    + eexists _, _. split; [reflexivity|]. split.
      { unfold clearHeartbeat. by destruct (heartbeatIntervals st !! id). }
      split; simpl; rewrite ?union_None_r; by split_and!.
    + eexists _, _. split; [reflexivity|]. split.
      { unfold clearHeartbeat. by destruct (heartbeatIntervals st !! id). }
      split; simpl; rewrite ?union_None_r; by split_and!.
  - (* INACTIVE *)
    eexists _, _. split; [reflexivity|]. split; [done|].
    split; simpl; rewrite ?union_None_r; by split_and!.
  - (* ERROR *)
    eexists _, _. split; [reflexivity|]. split; [done|].
    split; simpl; rewrite ?union_None_r; by split_and!.
Qed.

Lemma logConnectionStatus_emits id s proto c st :
  ∃ d, emits st (logConnectionStatus id s proto c st) d
       ∧ busEvents d = [] ∧ deliveries d = []
       ∧ connectionLogs d
         = [connectionLogRow id s proto c].
Proof.
  unfold logConnectionStatus. eexists. split.
  - eapply emits_trans; apply emits_perform.
  - done.
Qed.

Lemma updateDeviceStatus_lookup env id s st id' :
  devices (updateDeviceStatus env id s st) !! id'
  = (λ d, if decide (id = id') then
       {| Device.id := Device.id d; Device.identifier := Device.identifier d;
          Device.name := Device.name d;
          Device.organizationId := Device.organizationId d;
          Device.organizationName := Device.organizationName d;
          Device.status := s;
          Device.lastOnlineAt :=
            if bool_decide (s = DeviceConnectionStatus.ONLINE)
            then Some (now env) else Device.lastOnlineAt d |}
     else d) <$> devices st !! id'.
Proof.
  unfold updateDeviceStatus. simpl. rewrite lookup_alter.
  destruct (decide (id = id')) as [->|]; [done|]. by destruct (devices st !! id').
Qed.

Lemma dispatchChannels_updateDeviceStatus env id s st id' s' :
  dispatchChannels id' s' (updateDeviceStatus env id s st)
  = dispatchChannels id' s' st.
Proof.
  unfold dispatchChannels. rewrite updateDeviceStatus_lookup.
  destruct (devices st !! id') as [dv|]; [|done]. simpl.
  by destruct (decide (id = id')).
Qed.

Lemma dispatchChannels_ext st st' id s :
  devices st' = devices st → notificationConfigs st' = notificationConfigs st →
  dispatchChannels id s st' = dispatchChannels id s st.
Proof.
  intros Hd Hc. unfold dispatchChannels, getNotificationConfigs.
  by rewrite Hd, Hc.
Qed.

(** The whole of one successful [setDeviceStatus]: the record it returns is
    the one it stores; it writes one row to the connection log; it publishes
    events exactly when the status has changed. *)
Lemma setDeviceStatus_effects env id s proto ci st device :
  devices st !! id = Some device →
  let ex := JsMap.get id (deviceConnections st) in
  ∃ c st' d,
    setDeviceStatus env id s proto ci st = (st', Ok c)
    ∧ deviceConnections st' = JsMap.set id c (deviceConnections st)
    ∧ notificationConfigs st' = notificationConfigs st
    ∧ (∀ id', devices st' !! id' = devices (updateDeviceStatus env id s st) !! id')
    ∧ trace st' = trace st ++ d
    ∧ busEvents d
      = (if sameStatus c ex then []
         else [status_change id c ex; specificEvent id c])
    ∧ connectionLogs d
      = [connectionLogRow id s proto c]
    ∧ deliveries d
      = (if sameStatus c ex then []
         else dispatchChannels id (status c) st
                ++ dispatchChannels id (status c) st).
Proof.
  intros Hdev ex.
  destruct (setDeviceStatus_run env id s proto ci st device Hdev)
    as (c & st0 & Hrun & (Ht0 & Hd0 & Hc0 & Hn0) & _ & _).
  fold ex in Hrun.
  remember (with_deviceConnections (JsMap.set id c) st0) as st1 eqn:Hst1.
  assert (trace st1 = trace st ∧ devices st1 = devices st
          ∧ deviceConnections st1 = JsMap.set id c (deviceConnections st)
          ∧ notificationConfigs st1 = notificationConfigs st)
    as (T0 & D0 & C0 & N0).
  { subst st1. simpl. by rewrite Hc0. }
  destruct (logConnectionStatus_emits id s proto c st1)
    as (d1 & (T1 & D1 & C1 & _ & _ & N1) & Hb1 & Hv1 & Hl1).
  remember (logConnectionStatus id s proto c st1) as st2 eqn:Hst2.
  remember (updateDeviceStatus env id s st2) as st3 eqn:Hst3.
  assert (trace st3 = trace st2 ∧ deviceConnections st3 = deviceConnections st2
          ∧ notificationConfigs st3 = notificationConfigs st2)
    as (T3 & C3 & N3) by by subst st3.
  destruct (emitStatusChange_emits env id c ex st3)
    as (d2 & (T2 & D2 & C2 & _ & _ & N2) & Hb2 & Hl2 & Hv2).
  exists c, (emitStatusChange env id c ex st3), (d1 ++ d2).
  split; [exact Hrun|].
  split_and!.
  - congruence.
  - congruence.
  - intros id'. rewrite D2, Hst3, !updateDeviceStatus_lookup. congruence.
  - rewrite T2, T3, T1, T0. by rewrite app_assoc.
  - by rewrite busEvents_app, Hb1, Hb2.
  - by rewrite connectionLogs_app, Hl1, Hl2.
  - rewrite deliveries_app, Hv1, Hv2. simpl.
    destruct (sameStatus c ex); [done|].
    assert (dispatchChannels id (status c) st3 = dispatchChannels id (status c) st)
      as ->; [|done].
    rewrite Hst3, dispatchChannels_updateDeviceStatus.
    apply dispatchChannels_ext; congruence.
Qed.

(** ** Status signals *)

(** The events of one successful [setDeviceStatus]: none when the new
    record has the status of the old one, the general and the specific
    event otherwise. *)
Lemma setDeviceStatus_publishes env id s proto ci st :
  is_Some (devices st !! id) →
  ∃ c st',
    setDeviceStatus env id s proto ci st = (st', Ok c)
    ∧ status c = default s (ci ≫= Partial.status)
    ∧ busEvents (since st st')
      = if sameStatus c (JsMap.get id (deviceConnections st)) then []
        else [status_change id c (JsMap.get id (deviceConnections st));
              specificEvent id c].
Proof.
  intros [device Hdev].
  destruct (setDeviceStatus_effects env id s proto ci st device Hdev)
    as (c & st' & d & Hrun & _ & _ & _ & Ht & Hb & _ & _).
  destruct (setDeviceStatus_run env id s proto ci st device Hdev)
    as (c' & st0 & Hrun' & _ & (_ & _ & Hs & _) & _).
  rewrite Hrun in Hrun'. injection Hrun' as _ <-.
  exists c, st'. split; [done|]. split.
  - rewrite Hs. by destruct ci.
  - by rewrite (since_app _ _ _ Ht), Hb.
Qed.

(** C3. A [setDeviceStatus] call for a device of the store publishes the
    general [status_change] event followed by the event that matches the
    status of the new record, [device_online] for [ONLINE],
    [device_offline] for [OFFLINE], [device_inactive] for [INACTIVE] and
    [device_error] for [ERROR], when the device had no record or a record
    of another status, and publishes no event when the status of the record
    stays the same: an event is published if and only if the status
    changed.  The new record is the one stored in the table, and its
    status is that of the call unless the partial record overrides it. *)
Theorem C3_events_iff_status_changed env id s proto ci st :
  is_Some (devices st !! id) →
  let ex := getDeviceConnection id st in
  ∃ c st',
    setDeviceStatus env id s proto ci st = (st', Ok c)
    ∧ getDeviceConnection id st' = Some c
    ∧ status c = default s (ci ≫= Partial.status)
    ∧ (match ex with
       | None => True
       | Some old => status old ≠ status c
       end →
       busEvents (since st st')
       = [status_change id c ex;
          match status c with
          | DeviceConnectionStatus.ONLINE => device_online id c
          | DeviceConnectionStatus.OFFLINE => device_offline id c
          | DeviceConnectionStatus.INACTIVE => device_inactive id c
          | DeviceConnectionStatus.ERROR => device_error id c
          end])
    ∧ (match ex with
       | None => False
       | Some old => status old = status c
       end →
       busEvents (since st st') = [])
    ∧ (busEvents (since st st') ≠ []
       ↔ match ex with
         | None => True
         | Some old => status old ≠ status c
         end).
Proof.
  intros Hdev ex.
  destruct (setDeviceStatus_publishes env id s proto ci st Hdev)
    as (c & st' & Hrun & Hs & Hb).
  assert (getDeviceConnection id st' = Some c) as Hget.
  { destruct Hdev as [device Hdev].
    destruct (setDeviceStatus_effects env id s proto ci st device Hdev)
      as (c0 & st0 & d & Hrun0 & Hconn & _).
    rewrite Hrun in Hrun0. injection Hrun0 as <- <-.
    unfold getDeviceConnection. by rewrite Hconn, get_set_eq. }
  exists c, st'. split; [done|]. split; [done|]. split; [done|].
  rewrite Hb. unfold sameStatus, specificEvent, ex, getDeviceConnection.
  destruct (JsMap.get id (deviceConnections st)) as [old|]; simpl.
  - destruct (decide (status old = status c)) as [Heq|Hne].
    + rewrite bool_decide_eq_true_2 by done. by split_and!; [..|split].
    + rewrite bool_decide_eq_false_2 by done. by split_and!; [..|split].
  - by split_and!; [..|split].
Qed.

Lemma C3_events_iff_status_changed_witness :
  (∃ old c st',
     getDeviceConnection "dev-1" Scenario.connectedOverTcp = Some old
     ∧ setDeviceStatus (Scenario.at_time 2000) "dev-1"
         DeviceConnectionStatus.OFFLINE DeviceProtocol.TCP None
         Scenario.connectedOverTcp = (st', Ok c)
     ∧ busEvents (since Scenario.connectedOverTcp st')
       = [status_change "dev-1" c (Some old); device_offline "dev-1" c])
  ∧ (∃ c st',
       setDeviceStatus (Scenario.at_time 2000) "dev-1"
         DeviceConnectionStatus.ONLINE DeviceProtocol.TCP None
         Scenario.connectedOverTcp = (st', Ok c)
       ∧ busEvents (since Scenario.connectedOverTcp st') = []).
Proof.
  assert (∃ old, getDeviceConnection "dev-1" Scenario.connectedOverTcp = Some old
                 ∧ status old = DeviceConnectionStatus.ONLINE)
    as (old & Hold & Hon) by (eexists; split; reflexivity).
  split.
  - destruct (C3_events_iff_status_changed (Scenario.at_time 2000) "dev-1"
                DeviceConnectionStatus.OFFLINE DeviceProtocol.TCP None
                Scenario.connectedOverTcp)
      as (c & st' & Hrun & _ & Hs & Hchanged & _); [by eexists|].
    exists old, c, st'. split; [exact Hold|]. split; [exact Hrun|].
    cbv zeta in Hchanged. rewrite Hold, Hs in Hchanged. simpl in Hchanged.
    apply Hchanged. by rewrite Hon.
  - destruct (C3_events_iff_status_changed (Scenario.at_time 2000) "dev-1"
                DeviceConnectionStatus.ONLINE DeviceProtocol.TCP None
                Scenario.connectedOverTcp)
      as (c & st' & Hrun & _ & Hs & _ & Hsame & _); [by eexists|].
    exists c, st'. split; [exact Hrun|].
    cbv zeta in Hsame. rewrite Hold, Hs in Hsame. simpl in Hsame.
    by apply Hsame.
Defined.

(** C6. For a device id that the store does not know, [setDeviceStatus]
    throws the not-found error and returns the state it was given: the
    record table, the heartbeat timers, the connection log and the bus are
    as before. *)
Theorem C6_unknown_device_changes_nothing env id s proto ci st :
  devices st !! id = None →
  ∃ st',
    setDeviceStatus env id s proto ci st
    = (st', Throw ("Device with ID " +:+ id +:+ " not found"))
    ∧ st' = st
    ∧ deviceConnections st' = deviceConnections st
    ∧ heartbeatIntervals st' = heartbeatIntervals st
    ∧ connectionLogs (since st st') = []
    ∧ busEvents (since st st') = [].
Proof.
  intros Hdev. exists st. unfold setDeviceStatus, getDeviceById.
  rewrite Hdev, since_refl. done.
Qed.

Lemma C6_unknown_device_changes_nothing_witness :
  ∃ st',
    setDeviceStatus (Scenario.at_time 1000) "dev-2"
      DeviceConnectionStatus.ONLINE DeviceProtocol.TCP None
      (Scenario.initial None)
    = (st', Throw "Device with ID dev-2 not found")
    ∧ st' = Scenario.initial None.
Proof.
  destruct (C6_unknown_device_changes_nothing (Scenario.at_time 1000) "dev-2"
              DeviceConnectionStatus.ONLINE DeviceProtocol.TCP None
              (Scenario.initial None))
    as (st' & Hrun & Hst & _); [reflexivity|].
  exists st'. split; [exact Hrun|exact Hst].
Defined.

(** C5. Two [ONLINE] signals in a row for one device and protocol, both
    without a partial record: the second record has the session id and the
    connection time of the first, and differs from the first only in its
    last-activity time, which is the time of the second signal. *)
Theorem C5_repeated_online_keeps_session env1 env2 id proto st :
  is_Some (devices st !! id) →
  (now env1 ≤ now env2)%Z →
  ∃ st1 c1 st2 c2,
    setDeviceStatus env1 id DeviceConnectionStatus.ONLINE proto None st
    = (st1, Ok c1)
    ∧ setDeviceStatus env2 id DeviceConnectionStatus.ONLINE proto None st1
      = (st2, Ok c2)
    ∧ getDeviceConnection id st2 = Some c2
    ∧ sessionId c2 = sessionId c1
    ∧ connectedAt c2 = connectedAt c1
    ∧ lastActivityAt c1 = now env1
    ∧ lastActivityAt c2 = now env2
    ∧ (lastActivityAt c1 ≤ lastActivityAt c2)%Z
    ∧ c2 = set_lastActivityAt (now env2) c1.
Proof.
  intros [device Hdev] Hclock.
  destruct (setDeviceStatus_effects env1 id DeviceConnectionStatus.ONLINE proto
              None st device Hdev)
    as (c1 & st1 & d1 & Hrun1 & Hconn1 & _ & Hdev1 & _).
  destruct (setDeviceStatus_run env1 id DeviceConnectionStatus.ONLINE proto
              None st device Hdev)
    as (c1' & st0 & Hrun1' & _ & F1 & G1).
  rewrite Hrun1 in Hrun1'. injection Hrun1' as _ <-.
  assert (∃ device', devices st1 !! id = Some device'
                     ∧ Device.identifier device' = Device.identifier device)
    as (device' & Hdev' & Hident).
  { rewrite Hdev1, updateDeviceStatus_lookup, Hdev. simpl.
    rewrite decide_True by done. by eexists. }
  destruct (setDeviceStatus_effects env2 id DeviceConnectionStatus.ONLINE proto
              None st1 device' Hdev')
    as (c2 & st2 & d2 & Hrun2 & Hconn2 & _).
  destruct (setDeviceStatus_run env2 id DeviceConnectionStatus.ONLINE proto
              None st1 device' Hdev')
    as (c2' & st0' & Hrun2' & _ & F2 & G2).
  rewrite Hrun2 in Hrun2'. injection Hrun2' as _ <-.
  rewrite Hconn1, get_set_eq in G2.
  simpl in F1, F2, G1, G2.
  destruct F1 as (A1 & A2 & A3 & A4 & A5 & A6 & A7 & A8 & A9).
  destruct F2 as (B1 & B2 & B3 & B4 & B5 & B6 & B7 & B8 & B9).
  destruct G1 as (A10 & A11 & _).
  destruct G2 as (B10 & B11 & B12).
  rewrite A3 in B12. rewrite decide_True in B12 by done.
  destruct B12 as [B12 B13].
  exists st1, c1, st2, c2. split_and!; try done.
  - unfold getDeviceConnection. by rewrite Hconn2, get_set_eq.
  - lia.
  - destruct c1, c2. simpl in *. unfold set_lastActivityAt. simpl.
    congruence.
Qed.

Lemma C5_repeated_online_keeps_session_witness :
  ∃ st1 c1 st2 c2,
    setDeviceStatus (Scenario.at_time 1000) "dev-1"
      DeviceConnectionStatus.ONLINE DeviceProtocol.MQTT None
      (Scenario.initial None) = (st1, Ok c1)
    ∧ setDeviceStatus (Scenario.at_time 61000) "dev-1"
        DeviceConnectionStatus.ONLINE DeviceProtocol.MQTT None st1
      = (st2, Ok c2)
    ∧ sessionId c2 = sessionId c1
    ∧ connectedAt c2 = connectedAt c1
    ∧ lastActivityAt c2 = 61000%Z.
Proof.
  destruct (C5_repeated_online_keeps_session (Scenario.at_time 1000)
              (Scenario.at_time 61000) "dev-1" DeviceProtocol.MQTT
              (Scenario.initial None))
    as (st1 & c1 & st2 & c2 & H1 & H2 & _ & Hs & Hc & _ & Hl & _).
  - by eexists.
  - simpl. lia.
  - exists st1, c1, st2, c2. by split_and!.
Defined.

(** C4, as the code has it. For a device that already has a record,
    [setDeviceStatus] builds the new record from the signal alone.  Device
    id, identifier, status, protocol and last-activity time are those of
    the partial record where it supplies them, and otherwise the id, the
    status and the protocol of the call, the identifier of the device in
    the store and the time of the call.  Address, port, client id and
    metadata are those of the partial record, absent when it does not
    supply them, whatever the existing record holds.  The disconnect time
    is absent on [ONLINE], the time of the call on [OFFLINE] and that of
    the partial record otherwise.  The existing record supplies the
    connection time and the session id when it is [ONLINE] and the signal
    is [ONLINE], and the start of the duration when the signal is
    [OFFLINE]; nothing else of it enters the new record. *)
Theorem C4_record_built_from_signal env id s proto ci st device old :
  devices st !! id = Some device →
  getDeviceConnection id st = Some old →
  let p := default Partial.empty ci in
  ∃ c st',
    setDeviceStatus env id s proto ci st = (st', Ok c)
    ∧ getDeviceConnection id st' = Some c
    ∧ deviceId c = default id (Partial.deviceId p)
    ∧ deviceIdentifier c
      = default (Device.identifier device) (Partial.deviceIdentifier p)
    ∧ status c = default s (Partial.status p)
    ∧ protocol c = default proto (Partial.protocol p)
    ∧ lastActivityAt c = default (now env) (Partial.lastActivityAt p)
    ∧ address c = Partial.address p
    ∧ port c = Partial.port p
    ∧ clientId c = Partial.clientId p
    ∧ metadata c = Partial.metadata p
    ∧ disconnectedAt c
      = match s with
        | DeviceConnectionStatus.ONLINE => None
        | DeviceConnectionStatus.OFFLINE => Some (now env)
        | _ => Partial.disconnectedAt p
        end
    ∧ (s = DeviceConnectionStatus.ONLINE →
       status old = DeviceConnectionStatus.ONLINE →
       connectedAt c = connectedAt old ∧ sessionId c = sessionId old)
    ∧ (s = DeviceConnectionStatus.ONLINE →
       status old ≠ DeviceConnectionStatus.ONLINE →
       connectedAt c = Some (now env)
       ∧ sessionId c = Some (generateSessionId env st).1)
    ∧ (s ≠ DeviceConnectionStatus.ONLINE →
       connectedAt c = Partial.connectedAt p
       ∧ sessionId c = Partial.sessionId p)
    ∧ (s = DeviceConnectionStatus.OFFLINE →
       connectionDuration c
       = match connectedAt old with
         | Some t => Some ((now env - t) `div` 1000)%Z
         | None => Partial.connectionDuration p
         end)
    ∧ (s ≠ DeviceConnectionStatus.OFFLINE →
       connectionDuration c = Partial.connectionDuration p).
Proof.
  intros Hdev Hold p. unfold getDeviceConnection in *.
  destruct (setDeviceStatus_effects env id s proto ci st device Hdev)
    as (c & st' & d & Hrun & Hconn & _).
  destruct (setDeviceStatus_run env id s proto ci st device Hdev)
    as (c' & st0 & Hrun' & _ & F & G).
  rewrite Hrun in Hrun'. injection Hrun' as _ <-.
  rewrite Hold in G. simpl in G. fold p in F, G.
  destruct F as (Fi & Fn & Fs & Fpr & Fa & Fp & Fc & Fm & Fl).
  exists c, st'. split; [done|]. split; [by rewrite Hconn, get_set_eq|].
  split_and!; try done.
  - destruct s; by destruct G as (? & _).
  - intros -> Hon. destruct G as (_ & _ & G).
    rewrite decide_True in G by done. exact G.
  - intros -> Hoff. destruct G as (_ & _ & G).
    rewrite decide_False in G by done. exact G.
  - intros Hs. destruct s; [done|..]; by destruct G as (_ & ? & ? & _).
  - intros ->. by destruct G as (_ & _ & _ & G).
  - intros Hs. destruct s; [|done|..]; [by destruct G as (_ & ? & _)|by destruct G as (_ & _ & _ & ?)..].
Qed.

Lemma C4_record_built_from_signal_witness :
  ∃ c st',
    setDeviceStatus (Scenario.at_time 2000) "dev-1"
      DeviceConnectionStatus.OFFLINE DeviceProtocol.TCP None
      Scenario.connectedOverTcp = (st', Ok c)
    ∧ deviceId c = "dev-1" ∧ deviceIdentifier c = "sn-0001"
    ∧ status c = DeviceConnectionStatus.OFFLINE
    ∧ protocol c = DeviceProtocol.TCP
    ∧ lastActivityAt c = 2000%Z
    ∧ address c = None ∧ port c = None ∧ clientId c = None
    ∧ metadata c = None
    ∧ disconnectedAt c = Some 2000%Z
    ∧ connectionDuration c = Some 1%Z.
Proof.
  destruct (C4_record_built_from_signal (Scenario.at_time 2000) "dev-1"
              DeviceConnectionStatus.OFFLINE DeviceProtocol.TCP None
              Scenario.connectedOverTcp
              {| Device.id := "dev-1"; Device.identifier := "sn-0001";
                 Device.name := "pump"; Device.organizationId := Some "org-1";
                 Device.organizationName := Some "Waterworks";
                 Device.status := DeviceConnectionStatus.ONLINE;
                 Device.lastOnlineAt := Some 1000%Z |}
              {| deviceId := "dev-1"; deviceIdentifier := "sn-0001";
                 status := DeviceConnectionStatus.ONLINE;
                 protocol := DeviceProtocol.TCP;
                 address := Some "10.0.0.5"; port := Some 5000%Z;
                 clientId := Some "conn-7"; lastActivityAt := 1000;
                 connectedAt := Some 1000%Z; disconnectedAt := None;
                 connectionDuration := None;
                 sessionId := Some "session-1000-0"; metadata := None |})
    as (c & st' & Hrun & _ & Hi & Hn & Hs & Hpr & Hl & Ha & Hp & Hc & Hm
        & Hdis & _ & _ & _ & Hd & _).
  - reflexivity.
  - reflexivity.
  - exists c, st'. split; [exact Hrun|]. split_and!; try done.
    by rewrite Hd.
Defined.

(** C4 fails as stated: the record that the TCP listener created holds the
    address, the port and the client id of the connection; an [ONLINE]
    signal that supplies none of them returns a record without them. *)
Lemma C4_existing_fields_are_dropped :
  ∃ old c st',
    getDeviceConnection "dev-1" Scenario.connectedOverTcp = Some old
    ∧ setDeviceStatus (Scenario.at_time 2000) "dev-1"
        DeviceConnectionStatus.ONLINE DeviceProtocol.TCP None
        Scenario.connectedOverTcp = (st', Ok c)
    ∧ getDeviceConnection "dev-1" st' = Some c
    ∧ (address old = Some "10.0.0.5" ∧ address c = None)
    ∧ (port old = Some 5000%Z ∧ port c = None)
    ∧ (clientId old = Some "conn-7" ∧ clientId c = None).
Proof.
  eexists _, _, _. split; [reflexivity|]. split; [reflexivity|].
  split; [reflexivity|]. by split_and!.
Qed.

(** ** Activity signals *)

Lemma spreadMetadata_lookup a m k :
  spreadMetadata a m !! k
  = match m !! k with Some v => Some v | None => default ∅ a !! k end.
Proof.
  unfold spreadMetadata. rewrite lookup_union.
  destruct (m !! k) as [v|]; [|by rewrite (left_id_L None _)].
  by destruct (default ∅ a !! k).
Qed.

(** C9. [updateDeviceActivity] on a device with a record sets the
    last-activity time to the time of the call and lays the metadata patch
    over the metadata of the record; status, protocol, session id,
    connection and disconnection time stay as they are, and so do the
    records of the other devices and the trace.  On a device without a
    record it returns the state unchanged. *)
Theorem C9_activity_keeps_status env id patch st :
  let st' := updateDeviceActivity env id patch st in
  match getDeviceConnection id st with
  | Some c =>
      ∃ c',
        getDeviceConnection id st' = Some c'
        ∧ lastActivityAt c' = now env
        ∧ metadata c'
          = match patch with
            | Some m => Some (spreadMetadata (metadata c) m)
            | None => metadata c
            end
        ∧ (∀ k, default ∅ (metadata c') !! k
                = match patch ≫= (.!! k) with
                  | Some v => Some v
                  | None => default ∅ (metadata c) !! k
                  end)
        ∧ status c' = status c
        ∧ protocol c' = protocol c
        ∧ sessionId c' = sessionId c
        ∧ connectedAt c' = connectedAt c
        ∧ disconnectedAt c' = disconnectedAt c
        ∧ (∀ id', id' ≠ id →
             getDeviceConnection id' st' = getDeviceConnection id' st)
        ∧ trace st' = trace st
  | None => st' = st
  end.
Proof.
  unfold updateDeviceActivity, getDeviceConnection.
  destruct (JsMap.get id (deviceConnections st)) as [c|] eqn:Hc; [|done].
  simpl. rewrite get_set_eq. eexists. split; [reflexivity|].
  destruct patch as [m|]; simpl; split_and!; try done.
  - intros k. apply spreadMetadata_lookup.
  - intros id' Hne. by rewrite get_set_ne.
  - intros id' Hne. by rewrite get_set_ne.
Qed.

Lemma C9_activity_keeps_status_witness :
  ∃ c',
    getDeviceConnection "dev-1" Scenario.activityAt23h = Some c'
    ∧ lastActivityAt c' = (23 * Scenario.hour)%Z
    ∧ status c' = DeviceConnectionStatus.INACTIVE
    ∧ is_Some (default ∅ (metadata c') !! "lastMessage")
    ∧ updateDeviceActivity (Scenario.at_time 1000) "dev-1" None
        (Scenario.initial None) = Scenario.initial None.
Proof.
  pose proof (C9_activity_keeps_status (Scenario.at_time (23 * Scenario.hour))
                "dev-1"
                (Some {[ "lastMessage" :=
                           JObj [("topic", JStr "devices/dev-1/data");
                                 ("timestamp", JDate (23 * Scenario.hour))] ]})
                Scenario.inactiveAt0) as Hsome.
  pose proof (C9_activity_keeps_status (Scenario.at_time 1000) "dev-1" None
                (Scenario.initial None)) as Hnone.
  change (getDeviceConnection "dev-1" (Scenario.initial None)) with
    (@None DeviceConnectionInfo) in Hnone.
  cbv zeta in Hsome.
  change (getDeviceConnection "dev-1" Scenario.inactiveAt0) with
    (Some {| deviceId := "dev-1"; deviceIdentifier := "sn-0001";
             status := DeviceConnectionStatus.INACTIVE;
             protocol := DeviceProtocol.MQTT;
             address := None; port := None; clientId := None;
             lastActivityAt := 0; connectedAt := None;
             disconnectedAt := None; connectionDuration := None;
             sessionId := None; metadata := None |}) in Hsome.
  cbv beta iota in Hsome.
  destruct Hsome as (c' & Hget & Hlast & _ & Hmeta & Hstatus & _).
  exists c'. split_and!.
  - exact Hget.
  - exact Hlast.
  - exact Hstatus.
  - rewrite Hmeta. by eexists.
  - exact Hnone.
Defined.

(** ** Counters *)

Lemma foldl_online_count n (l : list DeviceConnectionInfo) :
  foldl (λ count connection, if isOnline connection then S count else count) n l
  = n + length (filter (λ c, status c = DeviceConnectionStatus.ONLINE) l).
Proof.
  revert n. induction l as [|c l IH]; intros n; simpl; [lia|].
  rewrite IH, filter_cons. unfold isOnline.
  destruct (decide (status c = _)).
  - rewrite bool_decide_eq_true_2 by done. simpl. lia.
  - by rewrite bool_decide_eq_false_2.
Qed.

Lemma foldl_stats acc (l : list DeviceConnectionInfo) p :
  foldl (λ stats connection,
           if isOnline connection then increment (protocol connection) stats
           else stats) acc l p
  = acc p
    + length (filter (λ c, status c = DeviceConnectionStatus.ONLINE
                           ∧ protocol c = p) l).
Proof.
  revert acc. induction l as [|c l IH]; intros acc; simpl; [lia|].
  rewrite IH, filter_cons. unfold isOnline, increment.
  destruct (decide (status c = DeviceConnectionStatus.ONLINE)) as [Hs|Hs].
  - rewrite bool_decide_eq_true_2 by done.
    destruct (decide (p = protocol c)) as [->|Hp].
    + rewrite decide_True by done. simpl. lia.
    + rewrite decide_False by (by intros [_ ?]). done.
  - rewrite bool_decide_eq_false_2 by done.
    rewrite decide_False by (by intros [? _]). done.
Qed.

Lemma online_split_by_protocol (l : list DeviceConnectionInfo) :
  sum_list ((λ p, length (filter (λ c, status c = DeviceConnectionStatus.ONLINE
                                       ∧ protocol c = p) l))
            <$> DeviceProtocol.all)
  = length (filter (λ c, status c = DeviceConnectionStatus.ONLINE) l).
Proof.
  induction l as [|c l IH]; [reflexivity|].
  rewrite filter_cons. simpl in *. rewrite !filter_cons.
  destruct (decide (status c = DeviceConnectionStatus.ONLINE)) as [Hs|Hs].
  - destruct (protocol c) eqn:Hp;
      repeat first [ rewrite decide_True by done
                   | rewrite decide_False by (by intros [_ ?]) ];
      simpl; lia.
  - repeat (rewrite decide_False by (by intros [? _])). done.
Qed.

(** C10. The statistics by protocol count, for each protocol, the records
    that are [ONLINE] on that protocol; a record of another status is
    counted for no protocol, and the counts add up to the number of online
    devices. *)
Theorem C10_stats_count_online_records st :
  let records := JsMap.values (getAllDeviceConnections st) in
  (∀ p, getDeviceConnectionStatsByProtocol st p
        = length (filter (λ c, status c = DeviceConnectionStatus.ONLINE
                               ∧ protocol c = p) records))
  ∧ getOnlineDeviceCount st
    = length (filter (λ c, status c = DeviceConnectionStatus.ONLINE) records)
  ∧ sum_list (getDeviceConnectionStatsByProtocol st <$> DeviceProtocol.all)
    = getOnlineDeviceCount st.
Proof.
  intros records. subst records.
  unfold getDeviceConnectionStatsByProtocol, getOnlineDeviceCount,
    getAllDeviceConnections.
  set (records := JsMap.values (deviceConnections st)).
  assert (∀ p, foldl (λ stats connection,
                        if isOnline connection
                        then increment (protocol connection) stats else stats)
                 (λ _, 0) records p
               = length (filter (λ c, status c = DeviceConnectionStatus.ONLINE
                                      ∧ protocol c = p) records)) as Hstats.
  { intros p. by rewrite foldl_stats. }
  split; [exact Hstats|]. rewrite foldl_online_count. split; [done|].
  rewrite <- (online_split_by_protocol records). simpl.
  by rewrite !Hstats.
Qed.

(** ** The sweeper *)

Lemma clearHeartbeat_lookup id st id' :
  heartbeatIntervals (clearHeartbeat id st) !! id'
  = if decide (id = id') then None else heartbeatIntervals st !! id'.
Proof.
  unfold clearHeartbeat.
  destruct (heartbeatIntervals st !! id) as [h|] eqn:Hh; simpl.
  - rewrite lookup_delete. by destruct (decide (id = id')).
  - destruct (decide (id = id')) as [<-|]; done.
Qed.

(** One turn of the cleanup loop on a device that has a record: the row is
    written, then the record and the timer are removed; nothing is
    published. *)
Lemma cleanupDevice_Some env st id c :
  JsMap.get id (deviceConnections st) = Some c →
  ∃ d, trace (cleanupDevice env st id) = trace st ++ d
       ∧ busEvents d = [] ∧ deliveries d = []
       ∧ connectionLogs d
         = [connectionLogRow id DeviceConnectionStatus.OFFLINE (protocol c)
              (cleanupRecord env c)]
       ∧ deviceConnections (cleanupDevice env st id) = JsMap.delete id (deviceConnections st)
       ∧ (∀ id', heartbeatIntervals (cleanupDevice env st id) !! id'
                 = if decide (id = id') then None
                   else heartbeatIntervals st !! id')
       ∧ devices (cleanupDevice env st id) = devices st.
Proof.
  intros Hc. unfold cleanupDevice. rewrite Hc.
  destruct (logConnectionStatus_emits id DeviceConnectionStatus.OFFLINE
              (protocol c) (cleanupRecord env c) st)
    as (d & (T & D & C & H & _ & _) & Hb & Hv & Hl).
  remember (logConnectionStatus _ _ _ _ st) as st1 eqn:Hst1.
  exists d. simpl. split_and!; try done.
  - unfold clearHeartbeat. simpl.
    by destruct (heartbeatIntervals st1 !! id).
  - unfold clearHeartbeat. simpl.
    by destruct (heartbeatIntervals st1 !! id); simpl; rewrite C.
  - intros id'. rewrite clearHeartbeat_lookup. simpl. by rewrite H.
  - unfold clearHeartbeat. simpl.
    by destruct (heartbeatIntervals st1 !! id).
Qed.

(** The second loop of the cleanup, over entries that are all present and
    have distinct keys. *)
Lemma cleanup_loop env (es : list (string * DeviceConnectionInfo)) st :
  NoDup es.*1 →
  (∀ id c, (id, c) ∈ es → JsMap.get id (deviceConnections st) = Some c) →
  ∃ d, trace (foldl (cleanupDevice env) st es.*1) = trace st ++ d
       ∧ busEvents d = [] ∧ deliveries d = []
       ∧ connectionLogs d
         = (λ e, connectionLogRow e.1 DeviceConnectionStatus.OFFLINE
                   (protocol e.2) (cleanupRecord env e.2)) <$> es
       ∧ (∀ id, JsMap.get id (deviceConnections (foldl (cleanupDevice env) st es.*1))
                = if decide (id ∈ es.*1) then None
                  else JsMap.get id (deviceConnections st))
       ∧ (∀ id, heartbeatIntervals (foldl (cleanupDevice env) st es.*1) !! id
                = if decide (id ∈ es.*1) then None
                  else heartbeatIntervals st !! id)
       ∧ devices (foldl (cleanupDevice env) st es.*1) = devices st.
Proof.
  revert st. induction es as [|[k c] es IH]; intros st Hnd Hall;
    cbn [fmap list_fmap foldl fst snd] in *.
  - exists []. rewrite app_nil_r. split_and!; try done.
  - apply NoDup_cons in Hnd as [Hk Hnd].
    assert (JsMap.get k (deviceConnections st) = Some c) as Hc
      by (apply Hall; left).
    destruct (cleanupDevice_Some env st k c Hc)
      as (d1 & T1 & Hb1 & Hv1 & Hl1 & C1 & H1 & D1).
    destruct (IH (cleanupDevice env st k) Hnd) as (d2 & T2 & Hb2 & Hv2 & Hl2 & C2 & H2 & D2).
    { intros id c' Hin. rewrite C1, get_delete_ne.
      - apply Hall. by right.
      - intros ->. apply Hk. apply list_elem_of_fmap. by exists (id, c'). }
    exists (d1 ++ d2). split_and!.
    + by rewrite T2, T1, app_assoc.
    + by rewrite busEvents_app, Hb1, Hb2.
    + by rewrite deliveries_app, Hv1, Hv2.
    + by rewrite connectionLogs_app, Hl1, Hl2.
    + intros id. rewrite C2, C1.
      destruct (decide (id ∈ es.*1)) as [Hin|Hin].
      * rewrite decide_True; [done|by right].
      * destruct (decide (k = id)) as [->|Hne].
        -- rewrite decide_True by left. apply get_delete_eq.
        -- rewrite decide_False.
           ++ by apply get_delete_ne.
           ++ rewrite not_elem_of_cons. by split; [intros ->|].
    + intros id. rewrite H2, H1.
      destruct (decide (id ∈ es.*1)) as [Hin|Hin].
      * rewrite decide_True; [done|by right].
      * destruct (decide (k = id)) as [->|Hne].
        -- by rewrite decide_True by left.
        -- rewrite decide_False; [done|].
           rewrite not_elem_of_cons. by split; [intros ->|].
    + by rewrite D2, D1.
Qed.

Lemma isStale_spec env c :
  isStale env c = true
  ↔ (status c = DeviceConnectionStatus.INACTIVE
     ∨ status c = DeviceConnectionStatus.ERROR)
    ∧ (now env - lastActivityAt c > 24 * 60 * 60 * 1000)%Z.
Proof.
  unfold isStale, CLEANUP_THRESHOLD.
  rewrite andb_true_iff, orb_true_iff, !bool_decide_eq_true. done.
Qed.

(** The whole sweep on a table without duplicate keys. *)
Lemma cleanupInactiveConnections_spec env st :
  NoDup (JsMap.keys (deviceConnections st)) →
  let st' := cleanupInactiveConnections env st in
  let stale := filter (λ e, isStale env e.2 = true) (deviceConnections st) in
  ∃ d, trace st' = trace st ++ d
       ∧ busEvents d = [] ∧ deliveries d = []
       ∧ connectionLogs d
         = (λ e, connectionLogRow e.1 DeviceConnectionStatus.OFFLINE
                   (protocol e.2) (cleanupRecord env e.2)) <$> stale
       ∧ (∀ id, JsMap.get id (deviceConnections st')
                = if decide (id ∈ stale.*1) then None
                  else JsMap.get id (deviceConnections st))
       ∧ (∀ id, heartbeatIntervals st' !! id
                = if decide (id ∈ stale.*1) then None
                  else heartbeatIntervals st !! id)
       ∧ devices st' = devices st.
Proof.
  intros Hnd st' stale. subst st'. unfold cleanupInactiveConnections, devicesToCleanup.
  fold stale. apply cleanup_loop.
  - eapply sublist_NoDup; [exact Hnd|].
    unfold JsMap.keys. apply fmap_sublist, sublist_filter.
  - intros id c Hin. apply elem_of_get_NoDup; [done|].
    by apply list_elem_of_filter in Hin as [_ ?].
Qed.

Lemma stale_keys env st id c :
  NoDup (JsMap.keys (deviceConnections st)) →
  JsMap.get id (deviceConnections st) = Some c →
  id ∈ (filter (λ e, isStale env e.2 = true) (deviceConnections st)).*1
  ↔ isStale env c = true.
Proof.
  intros Hnd Hc. rewrite list_elem_of_fmap. split.
  - intros ([id' c'] & -> & [Hst Hin]%list_elem_of_filter). simpl in *.
    apply (elem_of_get_NoDup _ _ _ Hnd) in Hin. congruence.
  - intros Hst. exists (id, c). split; [done|].
    apply list_elem_of_filter. split; [done|by apply get_Some_elem_of].
Qed.

(** ** One record per device

    The table never holds two records of one device: every step keeps the
    keys distinct, so every state reached from the empty table has distinct
    keys. *)

Lemma setDeviceStatus_deviceConnections env id s proto ci st :
  deviceConnections (setDeviceStatus env id s proto ci st).1
  = match devices st !! id with
    | Some _ =>
        match (setDeviceStatus env id s proto ci st).2 with
        | Ok c => JsMap.set id c (deviceConnections st)
        | Throw _ => deviceConnections st
        end
    | None => deviceConnections st
    end.
Proof.
  destruct (devices st !! id) as [device|] eqn:Hdev.
  - destruct (setDeviceStatus_effects env id s proto ci st device Hdev)
      as (c & st' & d & Hrun & Hconn & _).
    by rewrite Hrun.
  - unfold setDeviceStatus, getDeviceById. by rewrite Hdev.
Qed.

Lemma setDeviceStatus_keys env id s proto ci st :
  NoDup (JsMap.keys (deviceConnections st)) →
  NoDup (JsMap.keys (deviceConnections (setDeviceStatus env id s proto ci st).1)).
Proof.
  intros Hnd. rewrite setDeviceStatus_deviceConnections.
  destruct (devices st !! id); [|done].
  destruct (setDeviceStatus _ _ _ _ _ _).2; [|done].
  by apply NoDup_keys_set.
Qed.

Lemma cleanupDevice_keys env st id :
  NoDup (JsMap.keys (deviceConnections st)) →
  NoDup (JsMap.keys (deviceConnections (cleanupDevice env st id))).
Proof.
  intros Hnd.
  destruct (JsMap.get id (deviceConnections st)) as [c|] eqn:Hc.
  - destruct (cleanupDevice_Some env st id c Hc) as (_ & _ & _ & _ & _ & -> & _).
    by apply NoDup_keys_delete.
  - unfold cleanupDevice. by rewrite Hc.
Qed.

Lemma Step_keys st st' :
  Step st st' →
  NoDup (JsMap.keys (deviceConnections st)) →
  NoDup (JsMap.keys (deviceConnections st')).
Proof.
  intros Hstep Hnd. destruct Hstep as [env id s proto ci|env id patch|env id _|env|o cs].
  - by apply setDeviceStatus_keys.
  - unfold updateDeviceActivity.
    destruct (JsMap.get id (deviceConnections st)); [|done].
    simpl. by apply NoDup_keys_set.
  - unfold heartbeatCallback.
    destruct (JsMap.get id (deviceConnections st)) as [c|].
    + simpl. case_bool_decide; [by apply setDeviceStatus_keys|done].
    + unfold clearHeartbeat. by destruct (heartbeatIntervals st !! id).
  - unfold cleanupInactiveConnections.
    generalize (devicesToCleanup env st). intros ids.
    revert st Hnd. induction ids as [|id ids IH]; intros st Hnd; [done|].
    cbn [foldl]. by apply IH, cleanupDevice_keys.
  - done.
Qed.

Lemma reachable_keys st st' :
  rtc Step st st' →
  NoDup (JsMap.keys (deviceConnections st)) →
  NoDup (JsMap.keys (deviceConnections st')).
Proof. induction 1; eauto using Step_keys. Qed.

(** C7, as the code has it. The sweep measures staleness by the
    last-activity time.  A record that is [INACTIVE] or [ERROR] and whose
    last activity lies more than 24 hours before the sweep is removed from
    the table, after one [OFFLINE] row with [cleanupReason] in its metadata
    has been written to the connection log for it, and its heartbeat timer
    is cleared.  Every other record stays as it is, keeps its timer, and
    gets no row. *)
Theorem C7_sweep_evicts_by_last_activity env st id c :
  NoDup (JsMap.keys (getAllDeviceConnections st)) →
  getDeviceConnection id st = Some c →
  let st' := cleanupInactiveConnections env st in
  let stale :=
    (status c = DeviceConnectionStatus.INACTIVE
     ∨ status c = DeviceConnectionStatus.ERROR)
    ∧ (now env - lastActivityAt c > 24 * 60 * 60 * 1000)%Z in
  let row :=
    connectionLogRow id DeviceConnectionStatus.OFFLINE (protocol c)
      (cleanupRecord env c) in
  (stale →
     getDeviceConnection id st' = None
     ∧ (id ∉ JsMap.keys (getAllDeviceConnections st'))
     ∧ heartbeatIntervals st' !! id = None
     ∧ row ∈ connectionLogs (since st st')
     ∧ ConnectionLog.status row = DeviceConnectionStatus.OFFLINE
     ∧ ConnectionLog.disconnectedAt row = Some (now env)
     ∧ (ConnectionLog.metadata row ≫= (.!! "cleanupReason"))
       = Some (JAtom (JStr "Inactive for more than 24 hours")))
  ∧ (¬ stale →
     getDeviceConnection id st' = Some c
     ∧ heartbeatIntervals st' !! id = heartbeatIntervals st !! id
     ∧ ∀ r, r ∈ connectionLogs (since st st') → ConnectionLog.deviceId r ≠ id).
Proof.
  intros Hnd Hc st' stale row.
  unfold getAllDeviceConnections, getDeviceConnection in *.
  destruct (cleanupInactiveConnections_spec env st Hnd)
    as (d & T & _ & _ & Hl & C & H & _).
  fold st' in T, C, H.
  pose proof (stale_keys env st id c Hnd Hc) as Hkeys.
  rewrite isStale_spec in Hkeys. fold stale in Hkeys.
  rewrite (since_app _ _ _ T), Hl.
  split; intros Hst.
  - assert (JsMap.get id (deviceConnections st') = None) as Hgone.
    { rewrite C. rewrite decide_True; [done|by apply Hkeys]. }
    split_and!; try done.
    + by apply get_None_keys.
    + rewrite H. rewrite decide_True; [done|by apply Hkeys].
    + apply list_elem_of_fmap. exists (id, c). split; [done|].
      apply list_elem_of_filter. split.
      * simpl. by apply isStale_spec.
      * by apply get_Some_elem_of.
    + simpl. rewrite spreadMetadata_lookup. by rewrite lookup_singleton_eq.
  - assert (id ∉ (filter (λ e, isStale env e.2 = true) (deviceConnections st)).*1)
      as Hnot by (by rewrite Hkeys).
    split_and!.
    + rewrite C. by rewrite decide_False.
    + rewrite H. by rewrite decide_False.
    + intros r ([id' c'] & -> & Hin)%list_elem_of_fmap. simpl. intros ->.
      apply Hnot. apply list_elem_of_fmap. by exists (id, c').
Qed.

Lemma C7_sweep_evicts_by_last_activity_witness :
  getDeviceConnection "dev-1"
    (cleanupInactiveConnections (Scenario.at_time (25 * Scenario.hour))
       Scenario.inactiveAt0) = None
  ∧ length (connectionLogs
              (since Scenario.inactiveAt0
                 (cleanupInactiveConnections
                    (Scenario.at_time (25 * Scenario.hour))
                    Scenario.inactiveAt0))) = 1.
Proof.
  destruct (C7_sweep_evicts_by_last_activity
              (Scenario.at_time (25 * Scenario.hour)) Scenario.inactiveAt0
              "dev-1"
              {| deviceId := "dev-1"; deviceIdentifier := "sn-0001";
                 status := DeviceConnectionStatus.INACTIVE;
                 protocol := DeviceProtocol.MQTT;
                 address := None; port := None; clientId := None;
                 lastActivityAt := 0; connectedAt := None;
                 disconnectedAt := None; connectionDuration := None;
                 sessionId := None; metadata := None |})
    as [Hstale _].
  - vm_compute. apply NoDup_singleton.
  - reflexivity.
  - destruct Hstale as (Hgone & _).
    + split; [by left|]. vm_compute. reflexivity.
    + split; [exact Hgone|]. reflexivity.
Defined.

(** C7 fails as stated: [dev-1] is [INACTIVE] from time 0 on and still is
    25 hours later, but it has published a message after 23 hours; the sweep
    at 25 hours leaves its record in the table and writes no row. *)
Lemma C7_inactive_for_25_hours_not_evicted :
  let swept :=
    cleanupInactiveConnections (Scenario.at_time (25 * Scenario.hour))
      Scenario.activityAt23h in
  status <$> getDeviceConnection "dev-1" Scenario.inactiveAt0
  = Some DeviceConnectionStatus.INACTIVE
  ∧ status <$> getDeviceConnection "dev-1" Scenario.activityAt23h
    = Some DeviceConnectionStatus.INACTIVE
  ∧ (25 * Scenario.hour - 0 > 24 * 60 * 60 * 1000)%Z
  ∧ status <$> getDeviceConnection "dev-1" swept
    = Some DeviceConnectionStatus.INACTIVE
  ∧ JsMap.keys (getAllDeviceConnections swept) = ["dev-1"]
  ∧ connectionLogs (since Scenario.activityAt23h swept) = [].
Proof. vm_compute. by split_and!. Qed.

(** The cleanup loop publishes nothing and attempts no delivery, whatever
    ids it is run on. *)
Lemma cleanup_loop_quiet env ids st :
  ∃ d, trace (foldl (cleanupDevice env) st ids) = trace st ++ d
       ∧ busEvents d = [] ∧ deliveries d = [].
Proof.
  revert st. induction ids as [|id ids IH]; intros st; cbn [foldl].
  { exists []. by rewrite app_nil_r. }
  assert (∃ d, trace (cleanupDevice env st id) = trace st ++ d
               ∧ busEvents d = [] ∧ deliveries d = []) as (d1 & T1 & Hb1 & Hv1).
  { destruct (JsMap.get id (deviceConnections st)) as [c|] eqn:Hc.
    - destruct (cleanupDevice_Some env st id c Hc) as (d & T & Hb & Hv & _).
      by exists d.
    - exists []. unfold cleanupDevice. rewrite Hc. by rewrite app_nil_r. }
  destruct (IH (cleanupDevice env st id)) as (d2 & T2 & Hb2 & Hv2).
  exists (d1 ++ d2). rewrite T2, T1, app_assoc.
  by rewrite busEvents_app, deliveries_app, Hb1, Hb2, Hv1, Hv2.
Qed.

(** C8, as the code has it. The heartbeat monitor reports a timeout through
    [setDeviceStatus], so that its transition publishes what a live
    [INACTIVE] signal with the same partial record publishes: the
    [status_change] and [device_inactive] events when the record was not yet
    [INACTIVE], and nothing when it was.  The sweeper writes its [OFFLINE]
    row to the connection log and removes the record without publishing
    any event. *)
Theorem C8_heartbeat_publishes_sweeper_is_silent env st :
  (∀ id c,
     getDeviceConnection id st = Some c →
     is_Some (devices st !! id) →
     (now env - lastActivityAt c > INACTIVE_THRESHOLD)%Z →
     ∃ c' st',
       setDeviceStatus env id DeviceConnectionStatus.INACTIVE (protocol c)
         (Some (inactiveSignal c)) st = (st', Ok c')
       ∧ heartbeatCallback env id st = st'
       ∧ status c' = DeviceConnectionStatus.INACTIVE
       ∧ busEvents (since st (heartbeatCallback env id st))
         = if decide (status c = DeviceConnectionStatus.INACTIVE) then []
           else [status_change id c' (Some c); device_inactive id c'])
  ∧ busEvents (since st (cleanupInactiveConnections env st)) = [].
Proof.
  split.
  - intros id c Hc Hdev Hlate. unfold getDeviceConnection in Hc.
    destruct (setDeviceStatus_publishes env id
                DeviceConnectionStatus.INACTIVE (protocol c)
                (Some (inactiveSignal c)) st Hdev)
      as (c' & st' & Hrun & Hs & Hb).
    rewrite Hc in Hb. simpl in Hs, Hb.
    assert (heartbeatCallback env id st = st') as Hcb.
    { unfold heartbeatCallback. rewrite Hc. simpl.
      rewrite bool_decide_eq_true_2 by done. by rewrite Hrun. }
    exists c', st'. split_and!; try done.
    rewrite Hcb, Hb, Hs. unfold specificEvent. rewrite Hs.
    destruct (decide (status c = _)) as [Hi|Hi].
    + by rewrite bool_decide_eq_true_2.
    + by rewrite bool_decide_eq_false_2.
  - destruct (cleanup_loop_quiet env (devicesToCleanup env st) st)
      as (d & T & Hb & _).
    unfold cleanupInactiveConnections. by rewrite (since_app _ _ _ T).
Qed.

Lemma C8_heartbeat_publishes_sweeper_is_silent_witness :
  ∃ c',
    busEvents
      (since Scenario.connectedOverTcp
         (heartbeatCallback (Scenario.at_time 400000) "dev-1"
            Scenario.connectedOverTcp))
    = [status_change "dev-1" c'
         (getDeviceConnection "dev-1" Scenario.connectedOverTcp);
       device_inactive "dev-1" c']
    ∧ lastActivityAt c' = 1000%Z.
Proof.
  destruct (C8_heartbeat_publishes_sweeper_is_silent
              (Scenario.at_time 400000) Scenario.connectedOverTcp)
    as [Hheartbeat _].
  destruct (Hheartbeat "dev-1"
              {| deviceId := "dev-1"; deviceIdentifier := "sn-0001";
                 status := DeviceConnectionStatus.ONLINE;
                 protocol := DeviceProtocol.TCP;
                 address := Some "10.0.0.5"; port := Some 5000%Z;
                 clientId := Some "conn-7"; lastActivityAt := 1000;
                 connectedAt := Some 1000%Z; disconnectedAt := None;
                 connectionDuration := None;
                 sessionId := Some "session-1000-0"; metadata := None |})
    as (c' & st' & Hrun & _ & _ & Hev).
  - reflexivity.
  - by eexists.
  - vm_compute. reflexivity.
  - exists c'. split; [exact Hev|].
    vm_compute in Hrun. by injection Hrun as _ <-.
Defined.

(** C8 fails as stated: the sweep at 25 hours removes the record of
    [dev-1], which has been [INACTIVE] and silent since time 0, and writes
    the [OFFLINE] row, but publishes neither [status_change] nor
    [device_offline]; the same [OFFLINE] transition made by a live signal
    publishes both. *)
Lemma C8_sweeper_publishes_no_event :
  let swept :=
    cleanupInactiveConnections (Scenario.at_time (25 * Scenario.hour))
      Scenario.inactiveAt0 in
  let live :=
    (setDeviceStatus (Scenario.at_time (25 * Scenario.hour)) "dev-1"
       DeviceConnectionStatus.OFFLINE DeviceProtocol.MQTT None
       Scenario.inactiveAt0).1 in
  status <$> getDeviceConnection "dev-1" Scenario.inactiveAt0
  = Some DeviceConnectionStatus.INACTIVE
  ∧ getDeviceConnection "dev-1" swept = None
  ∧ ConnectionLog.status <$> connectionLogs (since Scenario.inactiveAt0 swept)
    = [DeviceConnectionStatus.OFFLINE]
  ∧ busEvents (since Scenario.inactiveAt0 swept) = []
  ∧ length (busEvents (since Scenario.inactiveAt0 live)) = 2.
Proof. vm_compute. by split_and!. Qed.

(** ** Dispatch *)

(** A transition that changes the status runs the dispatcher twice, once
    from the listener of [status_change] and once from the listener of the
    status-specific event: each channel of the matching configuration gets
    two delivery attempts. *)
Lemma status_change_dispatches_twice env id s proto ci st ch :
  is_Some (devices st !! id) →
  ∃ c st',
    setDeviceStatus env id s proto ci st = (st', Ok c)
    ∧ attemptsOn ch (since st st')
      = if sameStatus c (getDeviceConnection id st) then 0
        else 2 * length (filter (λ x, x = ch)
                           (dispatchChannels id (status c) st)).
Proof.
  intros [device Hdev].
  destruct (setDeviceStatus_effects env id s proto ci st device Hdev)
    as (c & st' & d & Hrun & _ & _ & _ & T & _ & _ & Hv).
  exists c, st'. split; [done|].
  rewrite (since_app _ _ _ T). unfold attemptsOn, getDeviceConnection.
  rewrite Hv. destruct (sameStatus _ _); [done|].
  rewrite filter_app, length_app. lia.
Qed.

(** C1, on the code. [org-1] has [DEVICE_OFFLINE] enabled on e-mail and SMS;
    [dev-1] goes from [ONLINE] to [OFFLINE].  The transition publishes two
    events and each makes the dispatcher run: e-mail and SMS get two
    delivery attempts each, not one.  The other channels get none, and with
    the configuration disabled no channel gets any. *)
Theorem C1_offline_transition_delivers_twice :
  let t := since (Scenario.onlineWithOfflineConfig true)
             (Scenario.wentOffline true) in
  let t_disabled := since (Scenario.onlineWithOfflineConfig false)
                      (Scenario.wentOffline false) in
  length (busEvents t) = 2
  ∧ attemptsOn NotificationChannel.EMAIL t = 2
  ∧ attemptsOn NotificationChannel.SMS t = 2
  ∧ attemptsOn NotificationChannel.WEBSOCKET t = 0
  ∧ attemptsOn NotificationChannel.PUSH t = 0
  ∧ attemptsOn NotificationChannel.WEBHOOK t = 0
  ∧ deliveries t_disabled = [].
Proof. vm_compute. by split_and!. Qed.

(** C2, as the code has it. A message of priority [HIGH] or [CRITICAL] is
    broadcast to the system-wide room [notifications] by the WebSocket
    sender, once for each time the channel list names [WEBSOCKET]; it
    reaches that room exactly when the list names [WEBSOCKET]. *)
Theorem C2_system_wide_through_websocket_only m channels st :
  NotificationMessage.priority m = NotificationPriority.HIGH
  ∨ NotificationMessage.priority m = NotificationPriority.CRITICAL →
  let sent :=
    systemWide (since st (DeviceNotificationService.sendNotification m channels st)) in
  sent
  = replicate
      (length (filter (λ c, c = NotificationChannel.WEBSOCKET) channels)) m
  ∧ (m ∈ sent ↔ NotificationChannel.WEBSOCKET ∈ channels).
Proof.
  intros Hprio sent.
  destruct (sendNotification_emits m channels st) as (d & (T & _) & _ & _ & _ & Hs).
  assert (isHighOrCritical (NotificationMessage.priority m) = true) as Hhigh
    by (by destruct Hprio as [-> | ->]).
  rewrite Hhigh in Hs.
  assert (sent = replicate
            (length (filter (λ c, c = NotificationChannel.WEBSOCKET) channels)) m)
    as Hsent by (unfold sent; by rewrite (since_app _ _ _ T)).
  split; [exact Hsent|]. rewrite Hsent, elem_of_replicate.
  split.
  - intros [_ Hn].
    destruct (filter _ channels) as [|x l] eqn:Hf; [done|].
    assert (x ∈ filter (λ c, c = NotificationChannel.WEBSOCKET) channels)
      as [-> ?]%list_elem_of_filter by (rewrite Hf; left).
    done.
  - intros Hin. split; [done|].
    assert (NotificationChannel.WEBSOCKET
            ∈ filter (λ c, c = NotificationChannel.WEBSOCKET) channels) as Hf
      by (by apply list_elem_of_filter).
    destruct (filter _ channels); [by apply elem_of_nil in Hf|done].
Qed.

Lemma C2_system_wide_through_websocket_only_witness :
  systemWide
    (since (Scenario.initial None)
       (DeviceNotificationService.sendNotification Scenario.systemError
          [NotificationChannel.WEBSOCKET; NotificationChannel.EMAIL]
          (Scenario.initial None)))
  = [Scenario.systemError].
Proof.
  destruct (C2_system_wide_through_websocket_only Scenario.systemError
              [NotificationChannel.WEBSOCKET; NotificationChannel.EMAIL]
              (Scenario.initial None)) as [Hsent _].
  - by right.
  - exact Hsent.
Defined.

(** C2 fails as stated: [org-1] sends device errors at [CRITICAL] priority
    by e-mail only; the error of [dev-1] is dispatched on e-mail, and
    nothing reaches the system-wide room. *)
Lemma C2_critical_without_websocket_not_system_wide :
  let t := trace Scenario.reportedError in
  NotificationMessage.priority <$> sentMessages t
  = [NotificationPriority.CRITICAL; NotificationPriority.CRITICAL]
  ∧ deliveries t = [NotificationChannel.EMAIL; NotificationChannel.EMAIL]
  ∧ systemWide t = [].
Proof. vm_compute. by split_and!. Qed.

(** * Further properties *)

Import DeviceConnectionListeners.

(** ** Topics *)

Lemma slash_literal : "/" = String slash "".
Proof. reflexivity. Qed.

Lemma append_String a s r : String a s +:+ r = String a (s +:+ r).
Proof. reflexivity. Qed.

Lemma append_empty r : "" +:+ r = r.
Proof. reflexivity. Qed.

Lemma stripPrefix_app p s : stripPrefix p (p +:+ s) = Some s.
Proof.
  induction p as [|a p IH]; [done|]. rewrite append_String.
  cbn [stripPrefix]. by rewrite Ascii.eqb_refl.
Qed.

Lemma stripPrefix_Some p s r : stripPrefix p s = Some r → s = p +:+ r.
Proof.
  revert s. induction p as [|a p IH]; intros s;
    rewrite ?append_String, ?append_empty; cbn [stripPrefix].
  - by intros [= ->].
  - destruct s as [|b s]; [done|].
    destruct (Ascii.eqb a b) eqn:Hab; [|done].
    apply Ascii.eqb_eq in Hab as ->. intros H. by rewrite (IH _ H).
Qed.

Lemma segment_no_slash s :
  slash ∉ String.list_ascii_of_string s → segment s = s.
Proof.
  induction s as [|c s IH]; [done|]. cbn [String.list_ascii_of_string segment].
  intros [Hc Hs]%not_elem_of_cons.
  destruct (Ascii.eqb c slash) eqn:Hcs.
  - apply Ascii.eqb_eq in Hcs. congruence.
  - by rewrite IH.
Qed.

Lemma segment_app_slash s r :
  slash ∉ String.list_ascii_of_string s →
  segment (s +:+ String slash r) = s.
Proof.
  induction s as [|c s IH];
    rewrite ?append_String, ?append_empty; cbn [String.list_ascii_of_string segment].
  - intros _. by rewrite Ascii.eqb_refl.
  - intros [Hc Hs]%not_elem_of_cons.
    destruct (Ascii.eqb c slash) eqn:Hcs.
    + apply Ascii.eqb_eq in Hcs. congruence.
    + by rewrite IH.
Qed.

Lemma segment_split s :
  ∃ r, s = segment s +:+ r
       ∧ (r = "" ∨ ∃ r', r = String slash r')
       ∧ slash ∉ String.list_ascii_of_string (segment s).
Proof.
  induction s as [|c s (r & Hs & Hr & Hno)]; cbn [segment].
  - exists "". split_and!; [done|by left|apply not_elem_of_nil].
  - destruct (Ascii.eqb c slash) eqn:Hcs.
    + apply Ascii.eqb_eq in Hcs as ->. exists (String slash s).
      rewrite append_empty.
      split_and!; [done|right; by eexists|apply not_elem_of_nil].
    + exists r. rewrite append_String. cbn [String.list_ascii_of_string]. split_and!.
      * by rewrite <- Hs.
      * done.
      * apply not_elem_of_cons. split; [|done].
        intros <-. by rewrite Ascii.eqb_refl in Hcs.
Qed.

(** X1. A topic made of [devices/], a non-empty device id without a slash
    and, possibly, a slash and more levels yields that device id. *)
Theorem X1_topic_round_trip id rest :
  id ≠ "" →
  slash ∉ String.list_ascii_of_string id →
  extractDeviceIdFromTopic ("devices/" +:+ id) = Some id
  ∧ extractDeviceIdFromTopic ("devices/" +:+ id +:+ "/" +:+ rest) = Some id.
Proof.
  intros Hne Hno. unfold extractDeviceIdFromTopic.
  rewrite !stripPrefix_app, slash_literal.
  change (String slash "" +:+ rest) with (String slash rest).
  rewrite segment_no_slash, segment_app_slash by done.
  by rewrite !decide_False.
Qed.

Lemma X1_topic_round_trip_witness :
  extractDeviceIdFromTopic "devices/dev-1" = Some "dev-1"
  ∧ extractDeviceIdFromTopic "devices/dev-1/status" = Some "dev-1".
Proof.
  apply (X1_topic_round_trip "dev-1" "status"); [done|].
  apply (bool_decide_unpack _). vm_compute. exact I.
Defined.

(** X2. A device id that is read from a topic is not empty and has no
    slash, and the topic is [devices/] followed by that id and then either
    nothing or a slash and more.  A topic that does not begin with
    [devices/], or has nothing or a slash right after it, yields no id. *)
Theorem X2_topic_id_is_a_level topic :
  (∀ id, extractDeviceIdFromTopic topic = Some id →
     id ≠ ""
     ∧ (slash ∉ String.list_ascii_of_string id)
     ∧ ∃ rest, topic = "devices/" +:+ id +:+ rest
               ∧ (rest = "" ∨ ∃ r, rest = "/" +:+ r))
  ∧ ((∀ rest, topic ≠ "devices/" +:+ rest) →
     extractDeviceIdFromTopic topic = None)
  ∧ extractDeviceIdFromTopic "devices/" = None
  ∧ (∀ rest, extractDeviceIdFromTopic ("devices//" +:+ rest) = None).
Proof.
  split_and!.
  - intros id. unfold extractDeviceIdFromTopic.
    destruct (stripPrefix "devices/" topic) as [rest|] eqn:Hp; [|done].
    apply stripPrefix_Some in Hp as ->.
    destruct (decide (segment rest = "")) as [|Hne]; [done|].
    intros [= <-]. destruct (segment_split rest) as (r & Hr & Hcase & Hno).
    split_and!; [done|done|]. exists r. split.
    + by rewrite <- Hr.
    + destruct Hcase as [->|[r' ->]]; [by left|right; by exists r'].
  - intros Hnot. unfold extractDeviceIdFromTopic.
    destruct (stripPrefix "devices/" topic) as [rest|] eqn:Hp; [|done].
    apply stripPrefix_Some in Hp. by destruct (Hnot rest).
  - reflexivity.
  - intros rest. reflexivity.
Qed.

Lemma X2_topic_id_is_a_level_witness :
  extractDeviceIdFromTopic "sensors/dev-1/status" = None
  ∧ ∃ rest, "devices/+/status" = "devices/" +:+ "+" +:+ rest.
Proof.
  destruct (X2_topic_id_is_a_level "sensors/dev-1/status") as (_ & Hnone & _).
  destruct (X2_topic_id_is_a_level "devices/+/status") as (Hsome & _).
  destruct (Hsome "+") as (_ & _ & rest & Hrest & _); [reflexivity|].
  split.
  - apply Hnone. intros rest'. discriminate.
  - by exists rest.
Defined.

(** ** Signals, once more *)

(** Everything that is known about a successful [setDeviceStatus], in one
    place. *)
Lemma setDeviceStatus_known env id s proto ci st device :
  devices st !! id = Some device →
  let p := default Partial.empty ci in
  let ex := JsMap.get id (deviceConnections st) in
  ∃ c st' d,
    setDeviceStatus env id s proto ci st = (st', Ok c)
    ∧ (deviceConnections st' = JsMap.set id c (deviceConnections st)
       ∧ notificationConfigs st' = notificationConfigs st
       ∧ (∀ id', devices st' !! id'
                 = devices (updateDeviceStatus env id s st) !! id')
       ∧ trace st' = trace st ++ d
       ∧ busEvents d
         = (if sameStatus c ex then []
            else [status_change id c ex; specificEvent id c])
       ∧ connectionLogs d = [connectionLogRow id s proto c]
       ∧ deliveries d
         = (if sameStatus c ex then []
            else dispatchChannels id (status c) st
                   ++ dispatchChannels id (status c) st))
    ∧ (deviceId c = default id (Partial.deviceId p)
       ∧ deviceIdentifier c
         = default (Device.identifier device) (Partial.deviceIdentifier p)
       ∧ status c = default s (Partial.status p)
       ∧ protocol c = default proto (Partial.protocol p)
       ∧ address c = Partial.address p
       ∧ port c = Partial.port p
       ∧ clientId c = Partial.clientId p
       ∧ metadata c = Partial.metadata p
       ∧ lastActivityAt c = default (now env) (Partial.lastActivityAt p))
    ∧ match s with
      | DeviceConnectionStatus.ONLINE =>
          disconnectedAt c = None
          ∧ connectionDuration c = Partial.connectionDuration p
          ∧ match ex with
            | Some e =>
                if decide (status e = DeviceConnectionStatus.ONLINE)
                then connectedAt c = connectedAt e ∧ sessionId c = sessionId e
                else connectedAt c = Some (now env)
                     ∧ sessionId c = Some (generateSessionId env st).1
            | None => connectedAt c = Some (now env)
                      ∧ sessionId c = Some (generateSessionId env st).1
            end
      | DeviceConnectionStatus.OFFLINE =>
          disconnectedAt c = Some (now env)
          ∧ connectedAt c = Partial.connectedAt p
          ∧ sessionId c = Partial.sessionId p
          ∧ connectionDuration c
            = match ex ≫= connectedAt with
              | Some t => Some ((now env - t) `div` 1000)%Z
              | None => Partial.connectionDuration p
              end
      | _ =>
          disconnectedAt c = Partial.disconnectedAt p
          ∧ connectedAt c = Partial.connectedAt p
          ∧ sessionId c = Partial.sessionId p
          ∧ connectionDuration c = Partial.connectionDuration p
      end.
Proof.
  intros Hdev p ex.
  destruct (setDeviceStatus_effects env id s proto ci st device Hdev)
    as (c & st' & d & Hrun & E).
  destruct (setDeviceStatus_run env id s proto ci st device Hdev)
    as (c' & st0 & Hrun' & _ & F & G).
  rewrite Hrun in Hrun'. injection Hrun' as _ <-.
  by exists c, st', d.
Qed.

(** The timers after a successful [setDeviceStatus]. *)
Lemma setDeviceStatus_timers env id s proto ci st :
  is_Some (devices st !! id) →
  let st' := (setDeviceStatus env id s proto ci st).1 in
  (∀ id', heartbeatIntervals st' !! id'
          = match s with
            | DeviceConnectionStatus.ONLINE =>
                if decide (id = id') then Some (timerSeq st)
                else heartbeatIntervals st !! id'
            | DeviceConnectionStatus.OFFLINE =>
                if decide (id = id') then None
                else heartbeatIntervals st !! id'
            | _ => heartbeatIntervals st !! id'
            end)
  ∧ timerSeq st'
    = match s with
      | DeviceConnectionStatus.ONLINE => S (timerSeq st)
      | _ => timerSeq st
      end.
Proof.
  intros [device Hdev] st'. subst st'.
  unfold setDeviceStatus, getDeviceById. rewrite Hdev.
  set (ex := JsMap.get id (deviceConnections st)).
  assert (∀ c st0,
    heartbeatIntervals
      (emitStatusChange env id c ex
         (updateDeviceStatus env id s
            (logConnectionStatus id s proto c
               (with_deviceConnections (JsMap.set id c) st0))))
    = heartbeatIntervals st0
    ∧ timerSeq
        (emitStatusChange env id c ex
           (updateDeviceStatus env id s
              (logConnectionStatus id s proto c
                 (with_deviceConnections (JsMap.set id c) st0))))
      = timerSeq st0) as Htail.
  { intros c st0.
    destruct (emitStatusChange_emits env id c ex
                (updateDeviceStatus env id s
                   (logConnectionStatus id s proto c
                      (with_deviceConnections (JsMap.set id c) st0))))
      as (d & (_ & _ & _ & H & T & _) & _).
    by rewrite H, T. }
  assert (∀ st0, (∀ id', heartbeatIntervals (setupHeartbeat id st0) !! id'
                    = if decide (id = id') then Some (timerSeq st0)
                      else heartbeatIntervals st0 !! id')
                 ∧ timerSeq (setupHeartbeat id st0) = S (timerSeq st0)) as Hsetup.
  { intros st0. unfold setupHeartbeat, clearHeartbeat.
    destruct (heartbeatIntervals st0 !! id) as [h|] eqn:Hh; simpl; (split; [|done]);
      intros id'; rewrite lookup_insert; destruct (decide (id = id')) as [<-|Hne];
      try done.
    by rewrite lookup_delete_ne. }
  assert (∀ c st0, heartbeatIntervals
            (emitStatusChange env id c ex
               (updateDeviceStatus env id s
                  (logConnectionStatus id s proto c
                     (with_deviceConnections (JsMap.set id c) st0))))
          = heartbeatIntervals st0) as Htail1 by (intros; apply Htail).
  assert (∀ c st0, timerSeq
            (emitStatusChange env id c ex
               (updateDeviceStatus env id s
                  (logConnectionStatus id s proto c
                     (with_deviceConnections (JsMap.set id c) st0))))
          = timerSeq st0) as Htail2 by (intros; apply Htail).
  clear Htail. destruct s; simpl.
  - destruct (match ex with Some e => _ | None => false end); simpl;
      rewrite Htail1, Htail2;
      (split; [intros id'; by rewrite (proj1 (Hsetup _))|
               by rewrite (proj2 (Hsetup _))]).
  - destruct (ex ≫= connectedAt); simpl; rewrite Htail1, Htail2;
      (split; [intros id'; by rewrite clearHeartbeat_lookup|
               unfold clearHeartbeat; by destruct (heartbeatIntervals st !! id)]).
  - by rewrite Htail1, Htail2.
  - by rewrite Htail1, Htail2.
Qed.

(** X3. What a successful status signal does to the heartbeat timers: an
    [ONLINE] signal arms a new timer for the device, also when one was
    armed; an [OFFLINE] signal leaves the device without a timer; an
    [INACTIVE] or [ERROR] signal leaves its timer as it was.  The timers of
    the other devices are never touched. *)
Theorem X3_timer_follows_status env id s proto ci st :
  is_Some (devices st !! id) →
  let st' := (setDeviceStatus env id s proto ci st).1 in
  match s with
  | DeviceConnectionStatus.ONLINE =>
      heartbeatIntervals st' !! id = Some (timerSeq st)
      ∧ timerSeq st' = S (timerSeq st)
  | DeviceConnectionStatus.OFFLINE =>
      heartbeatIntervals st' !! id = None ∧ timerSeq st' = timerSeq st
  | _ =>
      heartbeatIntervals st' !! id = heartbeatIntervals st !! id
      ∧ timerSeq st' = timerSeq st
  end
  ∧ ∀ id', id' ≠ id →
      heartbeatIntervals st' !! id' = heartbeatIntervals st !! id'.
Proof.
  intros Hdev st'.
  destruct (setDeviceStatus_timers env id s proto ci st Hdev) as [Ht Hseq].
  fold st' in Ht, Hseq. split.
  - destruct s; (split; [|done]); rewrite Ht; try done;
      by rewrite decide_True.
  - intros id' Hne. rewrite Ht. destruct s; try done;
      by rewrite decide_False.
Qed.

Lemma X3_timer_follows_status_witness :
  heartbeatIntervals Scenario.connectedOverTcp !! "dev-1" = Some 0
  ∧ heartbeatIntervals
      (setDeviceStatus (Scenario.at_time 2000) "dev-1"
         DeviceConnectionStatus.OFFLINE DeviceProtocol.TCP None
         Scenario.connectedOverTcp).1 !! "dev-1" = None.
Proof.
  split.
  - apply (X3_timer_follows_status (Scenario.at_time 1000) "dev-1"
             DeviceConnectionStatus.ONLINE DeviceProtocol.TCP
             (Some Scenario.tcpDetails) (Scenario.initial None)).
    by eexists.
  - apply (X3_timer_follows_status (Scenario.at_time 2000) "dev-1"
             DeviceConnectionStatus.OFFLINE DeviceProtocol.TCP None
             Scenario.connectedOverTcp).
    by eexists.
Defined.

Lemma updateDeviceStatus_preserves_known env id s st id' :
  is_Some (devices st !! id') →
  is_Some (devices (updateDeviceStatus env id s st) !! id').
Proof.
  intros [d Hd]. rewrite updateDeviceStatus_lookup, Hd. by eexists.
Qed.

(** X4. A connect and disconnect pair without partial records: the
    [OFFLINE] record carries the time of the disconnect and the whole
    seconds since the connection time of the [ONLINE] record, which is the
    time of the [ONLINE] signal when the device was not online before it;
    and the device is left without a heartbeat timer. *)
Theorem X4_connect_disconnect_duration env1 env2 id proto st :
  is_Some (devices st !! id) →
  ∃ st1 c1 st2 c2,
    setDeviceStatus env1 id DeviceConnectionStatus.ONLINE proto None st
    = (st1, Ok c1)
    ∧ setDeviceStatus env2 id DeviceConnectionStatus.OFFLINE proto None st1
      = (st2, Ok c2)
    ∧ getDeviceConnection id st2 = Some c2
    ∧ status c2 = DeviceConnectionStatus.OFFLINE
    ∧ disconnectedAt c2 = Some (now env2)
    ∧ connectionDuration c2
      = (λ t, (now env2 - t) `div` 1000)%Z <$> connectedAt c1
    ∧ (match getDeviceConnection id st with
       | Some old => status old ≠ DeviceConnectionStatus.ONLINE
       | None => True
       end →
       connectionDuration c2 = Some ((now env2 - now env1) `div` 1000)%Z)
    ∧ heartbeatIntervals st2 !! id = None.
Proof.
  intros [device Hdev].
  destruct (setDeviceStatus_known env1 id DeviceConnectionStatus.ONLINE proto
              None st device Hdev)
    as (c1 & st1 & d1 & Hrun1 & (Hconn1 & _ & Hdev1 & _) & F1 & G1).
  assert (is_Some (devices st1 !! id)) as [device' Hdev'].
  { rewrite Hdev1. apply updateDeviceStatus_preserves_known. by eexists. }
  destruct (setDeviceStatus_known env2 id DeviceConnectionStatus.OFFLINE proto
              None st1 device' Hdev')
    as (c2 & st2 & d2 & Hrun2 & (Hconn2 & _) & F2 & G2).
  pose proof (X3 := setDeviceStatus_timers env2 id
                      DeviceConnectionStatus.OFFLINE proto None st1
                      (ex_intro _ device' Hdev')).
  rewrite Hrun2 in X3. simpl in X3. destruct X3 as [Htimer _].
  rewrite Hconn1, get_set_eq in G2. simpl in F2, G2.
  destruct F2 as (_ & _ & Hs2 & _). destruct G2 as (Hd2 & _ & _ & Hdur).
  exists st1, c1, st2, c2. split_and!; try done.
  - unfold getDeviceConnection. by rewrite Hconn2, get_set_eq.
  - intros Hold. unfold getDeviceConnection in Hold.
    assert (connectedAt c1 = Some (now env1)) as Hc1.
    { simpl in G1. destruct G1 as (_ & _ & G1).
      destruct (JsMap.get id (deviceConnections st)) as [old|].
      - rewrite decide_False in G1 by done. by destruct G1.
      - by destruct G1. }
    by rewrite Hdur, Hc1.
  - rewrite Htimer. by rewrite decide_True.
Qed.

Lemma X4_connect_disconnect_duration_witness :
  ∃ st1 c1 st2 c2,
    setDeviceStatus (Scenario.at_time 1000) "dev-1"
      DeviceConnectionStatus.ONLINE DeviceProtocol.MQTT None
      (Scenario.initial None) = (st1, Ok c1)
    ∧ setDeviceStatus (Scenario.at_time 601999) "dev-1"
        DeviceConnectionStatus.OFFLINE DeviceProtocol.MQTT None st1
      = (st2, Ok c2)
    ∧ connectionDuration c2 = Some 600%Z.
Proof.
  destruct (X4_connect_disconnect_duration (Scenario.at_time 1000)
              (Scenario.at_time 601999) "dev-1" DeviceProtocol.MQTT
              (Scenario.initial None))
    as (st1 & c1 & st2 & c2 & H1 & H2 & _ & _ & _ & _ & Hdur & _).
  - by eexists.
  - exists st1, c1, st2, c2. split_and!; [done|done|]. by rewrite Hdur.
Defined.

(** ** The heartbeat monitor *)

(** A tick of the timer of a device whose last activity is too old. *)
Lemma heartbeat_timeout env id st c :
  JsMap.get id (deviceConnections st) = Some c →
  is_Some (devices st !! id) →
  (now env - lastActivityAt c > INACTIVE_THRESHOLD)%Z →
  ∃ c' d,
    setDeviceStatus env id DeviceConnectionStatus.INACTIVE (protocol c)
      (Some (inactiveSignal c)) st = (heartbeatCallback env id st, Ok c')
    ∧ deviceConnections (heartbeatCallback env id st)
      = JsMap.set id c' (deviceConnections st)
    ∧ (∀ id' dv, devices st !! id' = Some dv →
         ∃ dv', devices (heartbeatCallback env id st) !! id' = Some dv'
                ∧ Device.identifier dv' = Device.identifier dv)
    ∧ (∀ dv, devices st !! id = Some dv →
             deviceIdentifier c' = Device.identifier dv)
    ∧ trace (heartbeatCallback env id st) = trace st ++ d
    ∧ busEvents d
      = (if decide (status c = DeviceConnectionStatus.INACTIVE) then []
         else [status_change id c' (Some c); device_inactive id c'])
    ∧ connectionLogs d
      = [connectionLogRow id DeviceConnectionStatus.INACTIVE (protocol c) c']
    ∧ c' = {| deviceId := id;
              deviceIdentifier := deviceIdentifier c';
              status := DeviceConnectionStatus.INACTIVE;
              protocol := protocol c;
              address := None; port := None; clientId := None;
              lastActivityAt := lastActivityAt c;
              connectedAt := None; disconnectedAt := None;
              connectionDuration := None; sessionId := None;
              metadata := Some
                (spreadMetadata (metadata c)
                   {[ "inactiveReason" := JAtom (JStr "Heartbeat timeout") ]}) |}.
Proof.
  intros Hc [device Hdev] Hlate.
  destruct (setDeviceStatus_known env id DeviceConnectionStatus.INACTIVE
              (protocol c) (Some (inactiveSignal c)) st device Hdev)
    as (c' & st' & d & Hrun & (Hconn & _ & Hdevs & T & Hb & Hl & _) & F & G).
  assert (heartbeatCallback env id st = st') as ->.
  { unfold heartbeatCallback. rewrite Hc. simpl.
    rewrite bool_decide_eq_true_2 by done. by rewrite Hrun. }
  simpl in F, G. rewrite Hc in Hb.
  destruct F as (F1 & F2 & F3 & F4 & F5 & F6 & F7 & F8 & F9).
  destruct G as (G1 & G2 & G3 & G4).
  exists c', d. split_and!; try done.
  - intros id' dv Hdv. rewrite Hdevs, updateDeviceStatus_lookup, Hdv. simpl.
    eexists. split; [reflexivity|]. by destruct (decide (id = id')).
  - intros dv Hdv. rewrite F2. congruence.
  - rewrite Hb. unfold sameStatus, specificEvent. rewrite F3.
    destruct (decide (status c = _)) as [Hi|Hi].
    + by rewrite bool_decide_eq_true_2.
    + by rewrite bool_decide_eq_false_2.
  - destruct c'. simpl in *. congruence.
Qed.

(** X5. The first tick after the inactivity threshold has passed makes the
    record [INACTIVE] on the same protocol.  The record keeps the old
    last-activity time; its metadata are the old ones with [inactiveReason]
    added; address, port, client id, connection time and session id are not
    carried over.  When the record was not [INACTIVE] before, the tick
    publishes [status_change] and [device_inactive]. *)
Theorem X5_timeout_marks_inactive env id st c :
  getDeviceConnection id st = Some c →
  is_Some (devices st !! id) →
  (now env - lastActivityAt c > 300000)%Z →
  let st' := heartbeatCallback env id st in
  ∃ c',
    getDeviceConnection id st' = Some c'
    ∧ status c' = DeviceConnectionStatus.INACTIVE
    ∧ protocol c' = protocol c
    ∧ lastActivityAt c' = lastActivityAt c
    ∧ (∀ k, default ∅ (metadata c') !! k
            = if decide (k = "inactiveReason")
              then Some (JAtom (JStr "Heartbeat timeout"))
              else default ∅ (metadata c) !! k)
    ∧ (address c' = None ∧ port c' = None ∧ clientId c' = None
       ∧ connectedAt c' = None ∧ sessionId c' = None)
    ∧ (status c ≠ DeviceConnectionStatus.INACTIVE →
       busEvents (since st st')
       = [status_change id c' (Some c); device_inactive id c']).
Proof.
  intros Hc Hdev Hlate st'. unfold getDeviceConnection in *.
  destruct (heartbeat_timeout env id st c Hc Hdev Hlate)
    as (c' & d & _ & Hconn & _ & _ & T & Hb & _ & Hrec).
  fold st' in Hconn, T.
  pose proof (f_equal status Hrec) as Hstatus.
  pose proof (f_equal protocol Hrec) as Hproto.
  pose proof (f_equal lastActivityAt Hrec) as Hlast.
  pose proof (f_equal metadata Hrec) as Hmeta.
  pose proof (f_equal address Hrec) as Haddr.
  pose proof (f_equal port Hrec) as Hport.
  pose proof (f_equal clientId Hrec) as Hclient.
  pose proof (f_equal connectedAt Hrec) as Hconnected.
  pose proof (f_equal sessionId Hrec) as Hsession.
  simpl in *.
  exists c'. rewrite Hconn, get_set_eq. split_and!; try done.
  - intros k. rewrite Hmeta. simpl. rewrite spreadMetadata_lookup.
    destruct (decide (k = "inactiveReason")) as [->|Hk].
    + by rewrite lookup_singleton_eq.
    + by rewrite lookup_singleton_ne.
  - intros Hs. rewrite (since_app _ _ _ T), Hb. by rewrite decide_False.
Qed.

Lemma X5_timeout_marks_inactive_witness :
  ∃ c',
    getDeviceConnection "dev-1"
      (heartbeatCallback (Scenario.at_time 400000) "dev-1"
         Scenario.connectedOverTcp) = Some c'
    ∧ status c' = DeviceConnectionStatus.INACTIVE
    ∧ lastActivityAt c' = 1000%Z
    ∧ clientId c' = None.
Proof.
  destruct (X5_timeout_marks_inactive (Scenario.at_time 400000) "dev-1"
              Scenario.connectedOverTcp
              {| deviceId := "dev-1"; deviceIdentifier := "sn-0001";
                 status := DeviceConnectionStatus.ONLINE;
                 protocol := DeviceProtocol.TCP;
                 address := Some "10.0.0.5"; port := Some 5000%Z;
                 clientId := Some "conn-7"; lastActivityAt := 1000;
                 connectedAt := Some 1000%Z; disconnectedAt := None;
                 connectionDuration := None;
                 sessionId := Some "session-1000-0"; metadata := None |})
    as (c' & Hget & Hs & _ & Hl & _ & (_ & _ & Hc & _) & _).
  - reflexivity.
  - by eexists.
  - vm_compute. reflexivity.
  - exists c'. by split_and!.
Defined.

Lemma set_set_eq {V} (m : list (string * V)) k v w :
  JsMap.set k w (JsMap.set k v m) = JsMap.set k w m.
Proof.
  induction m as [|[k' v'] m IH]; cbn [JsMap.set].
  - by rewrite decide_True.
  - destruct (decide (k' = k)) as [->|Hne]; cbn [JsMap.set].
    + by rewrite decide_True.
    + rewrite decide_False by done. by rewrite IH.
Qed.

Lemma spreadMetadata_twice a r :
  spreadMetadata (Some (spreadMetadata a r)) r = spreadMetadata a r.
Proof.
  apply map_eq. intros k. rewrite !spreadMetadata_lookup. simpl.
  rewrite spreadMetadata_lookup. by destruct (r !! k).
Qed.

(** X6. A further tick, with no signal in between, finds the record still
    too old, since the first tick kept its last-activity time: it runs the
    [INACTIVE] signal again.  The table is left as it is and no event is
    published, but one more row is written to the connection log. *)
Theorem X6_repeated_timeout_is_logged_not_published env1 env2 id st c :
  getDeviceConnection id st = Some c →
  is_Some (devices st !! id) →
  (now env1 - lastActivityAt c > 300000)%Z →
  (now env1 ≤ now env2)%Z →
  let st1 := heartbeatCallback env1 id st in
  let st2 := heartbeatCallback env2 id st1 in
  getAllDeviceConnections st2 = getAllDeviceConnections st1
  ∧ busEvents (since st1 st2) = []
  ∧ deliveries (since st1 st2) = []
  ∧ ∃ c', getDeviceConnection id st1 = Some c'
          ∧ connectionLogs (since st1 st2)
            = [connectionLogRow id DeviceConnectionStatus.INACTIVE
                 (protocol c) c'].
Proof.
  intros Hc [device Hdev] Hlate Hclock st1 st2.
  unfold getDeviceConnection, getAllDeviceConnections in *.
  destruct (heartbeat_timeout env1 id st c Hc (ex_intro _ device Hdev) Hlate)
    as (c1 & d1 & _ & Hconn1 & Hdevs1 & Hid1 & _ & _ & _ & Hrec1).
  fold st1 in Hconn1, Hdevs1.
  destruct (Hdevs1 id device Hdev) as (device1 & Hdev1 & Hident1).
  assert (JsMap.get id (deviceConnections st1) = Some c1) as Hc1
    by (by rewrite Hconn1, get_set_eq).
  pose proof (f_equal lastActivityAt Hrec1) as Hlast1.
  pose proof (f_equal status Hrec1) as Hstatus1.
  pose proof (f_equal protocol Hrec1) as Hproto1.
  pose proof (f_equal metadata Hrec1) as Hmeta1.
  simpl in Hlast1, Hstatus1, Hproto1, Hmeta1.
  assert (now env2 - lastActivityAt c1 > INACTIVE_THRESHOLD)%Z as Hlate2
    by (unfold INACTIVE_THRESHOLD; lia).
  destruct (heartbeat_timeout env2 id st1 c1 Hc1 (ex_intro _ device1 Hdev1) Hlate2)
    as (c2 & d2 & Hrun2 & Hconn2 & _ & Hid2 & T2 & Hb2 & Hl2 & Hrec2).
  fold st2 in Hconn2, T2.
  assert (c2 = c1) as ->.
  { rewrite Hrec2, Hrec1. f_equal.
    - rewrite (Hid2 _ Hdev1), (Hid1 _ Hdev). done.
    - simpl. by rewrite spreadMetadata_twice. }
  split_and!.
  - rewrite Hconn2, Hconn1. apply set_set_eq.
  - rewrite (since_app _ _ _ T2), Hb2. by rewrite decide_True.
  - destruct (setDeviceStatus_known env2 id DeviceConnectionStatus.INACTIVE
                (protocol c1) (Some (inactiveSignal c1)) st1 device1 Hdev1)
      as (c2' & st2' & d2' & Hrun2' & (_ & _ & _ & T2' & _ & _ & Hv) & _).
    rewrite Hrun2 in Hrun2'. injection Hrun2' as <- <-.
    rewrite (since_app st1 st2 _ T2'), Hv, Hc1. unfold sameStatus.
    by rewrite bool_decide_eq_true_2.
  - exists c1. split; [done|]. by rewrite (since_app _ _ _ T2), Hl2, Hproto1.
Qed.

Lemma X6_repeated_timeout_is_logged_not_published_witness :
  let st1 := heartbeatCallback (Scenario.at_time 400000) "dev-1"
               Scenario.connectedOverTcp in
  let st2 := heartbeatCallback (Scenario.at_time 460000) "dev-1" st1 in
  busEvents (since st1 st2) = []
  ∧ length (connectionLogs (since st1 st2)) = 1.
Proof.
  destruct (X6_repeated_timeout_is_logged_not_published
              (Scenario.at_time 400000) (Scenario.at_time 460000) "dev-1"
              Scenario.connectedOverTcp
              {| deviceId := "dev-1"; deviceIdentifier := "sn-0001";
                 status := DeviceConnectionStatus.ONLINE;
                 protocol := DeviceProtocol.TCP;
                 address := Some "10.0.0.5"; port := Some 5000%Z;
                 clientId := Some "conn-7"; lastActivityAt := 1000;
                 connectedAt := Some 1000%Z; disconnectedAt := None;
                 connectionDuration := None;
                 sessionId := Some "session-1000-0"; metadata := None |})
    as (_ & Hb & _ & c' & _ & Hl).
  - reflexivity.
  - by eexists.
  - vm_compute. reflexivity.
  - vm_compute. discriminate.
  - split; [exact Hb|]. by rewrite Hl.
Defined.

(** X7. After a heartbeat timeout the connection time is gone from the
    record, so the [OFFLINE] signal that follows computes no connection
    duration: the [OFFLINE] record has neither a duration nor a connection
    time nor a session id, whatever the record held before the timeout. *)
Theorem X7_timeout_loses_duration env1 env2 id proto st c :
  getDeviceConnection id st = Some c →
  is_Some (devices st !! id) →
  (now env1 - lastActivityAt c > 300000)%Z →
  let st1 := heartbeatCallback env1 id st in
  ∃ st2 c2,
    setDeviceStatus env2 id DeviceConnectionStatus.OFFLINE proto None st1
    = (st2, Ok c2)
    ∧ getDeviceConnection id st2 = Some c2
    ∧ status c2 = DeviceConnectionStatus.OFFLINE
    ∧ disconnectedAt c2 = Some (now env2)
    ∧ connectionDuration c2 = None
    ∧ connectedAt c2 = None
    ∧ sessionId c2 = None.
Proof.
  intros Hc [device Hdev] Hlate st1. unfold getDeviceConnection in *.
  destruct (heartbeat_timeout env1 id st c Hc (ex_intro _ device Hdev) Hlate)
    as (c1 & d1 & _ & Hconn1 & Hdevs1 & _ & _ & _ & _ & Hrec1).
  fold st1 in Hconn1, Hdevs1.
  destruct (Hdevs1 id device Hdev) as (device1 & Hdev1 & _).
  destruct (setDeviceStatus_known env2 id DeviceConnectionStatus.OFFLINE proto
              None st1 device1 Hdev1)
    as (c2 & st2 & d2 & Hrun2 & (Hconn2 & _) & F & G).
  rewrite Hconn1, get_set_eq in G. simpl in F, G.
  pose proof (f_equal connectedAt Hrec1) as Hconnected. simpl in Hconnected.
  rewrite Hconnected in G.
  destruct F as (_ & _ & Hs & _). destruct G as (G1 & G2 & G3 & G4).
  exists st2, c2. split_and!; try done.
  by rewrite Hconn2, get_set_eq.
Qed.

Lemma X7_timeout_loses_duration_witness :
  ∃ st2 c2,
    setDeviceStatus (Scenario.at_time 601000) "dev-1"
      DeviceConnectionStatus.OFFLINE DeviceProtocol.TCP None
      (heartbeatCallback (Scenario.at_time 400000) "dev-1"
         Scenario.connectedOverTcp) = (st2, Ok c2)
    ∧ connectionDuration c2 = None.
Proof.
  destruct (X7_timeout_loses_duration (Scenario.at_time 400000)
              (Scenario.at_time 601000) "dev-1" DeviceProtocol.TCP
              Scenario.connectedOverTcp
              {| deviceId := "dev-1"; deviceIdentifier := "sn-0001";
                 status := DeviceConnectionStatus.ONLINE;
                 protocol := DeviceProtocol.TCP;
                 address := Some "10.0.0.5"; port := Some 5000%Z;
                 clientId := Some "conn-7"; lastActivityAt := 1000;
                 connectedAt := Some 1000%Z; disconnectedAt := None;
                 connectionDuration := None;
                 sessionId := Some "session-1000-0"; metadata := None |})
    as (st2 & c2 & Hrun & _ & _ & _ & Hdur & _).
  - reflexivity.
  - by eexists.
  - vm_compute. reflexivity.
  - by exists st2, c2.
Defined.

(** X8. A tick within the threshold does nothing, and an activity signal
    resets the countdown: after [updateDeviceActivity] on a device with a
    record, a tick at most five minutes later leaves the state as it is. *)
Theorem X8_activity_postpones_timeout env1 env2 id patch st :
  is_Some (getDeviceConnection id st) →
  (now env2 - now env1 ≤ 300000)%Z →
  let st1 := updateDeviceActivity env1 id patch st in
  heartbeatCallback env2 id st1 = st1.
Proof.
  intros [c Hc] Hsoon st1. unfold getDeviceConnection in Hc.
  assert (∃ c1, JsMap.get id (deviceConnections st1) = Some c1
                ∧ lastActivityAt c1 = now env1) as (c1 & Hc1 & Hlast).
  { unfold st1, updateDeviceActivity. rewrite Hc. simpl. rewrite get_set_eq.
    eexists. split; [reflexivity|]. by destruct patch. }
  unfold heartbeatCallback. rewrite Hc1. simpl.
  rewrite bool_decide_eq_false_2; [done|].
  unfold INACTIVE_THRESHOLD. lia.
Qed.

Lemma X8_activity_postpones_timeout_witness :
  heartbeatCallback (Scenario.at_time 700000) "dev-1"
    (updateDeviceActivity (Scenario.at_time 400000) "dev-1" None
       Scenario.connectedOverTcp)
  = updateDeviceActivity (Scenario.at_time 400000) "dev-1" None
      Scenario.connectedOverTcp.
Proof.
  apply (X8_activity_postpones_timeout (Scenario.at_time 400000)
           (Scenario.at_time 700000) "dev-1" None Scenario.connectedOverTcp).
  - by eexists.
  - vm_compute. discriminate.
Defined.

(** ** The durable store and the log *)

(** X9. A successful status signal sets the durable status of the device
    to the status of the signal and, when that is [ONLINE], its
    last-online time to the time of the signal; name, identifier and
    organization of the device, and all other devices, stay as they are.
    Whether it succeeds or not, a signal neither adds nor removes a
    device. *)
Theorem X9_durable_status_follows_signal env id s proto ci st :
  let st' := (setDeviceStatus env id s proto ci st).1 in
  dom (devices st') = dom (devices st)
  ∧ (∀ id', id' ≠ id → devices st' !! id' = devices st !! id')
  ∧ (∀ device, devices st !! id = Some device →
       ∃ device',
         devices st' !! id = Some device'
         ∧ Device.status device' = s
         ∧ Device.lastOnlineAt device'
           = (if decide (s = DeviceConnectionStatus.ONLINE)
              then Some (now env) else Device.lastOnlineAt device)
         ∧ Device.identifier device' = Device.identifier device
         ∧ Device.name device' = Device.name device
         ∧ Device.organizationId device' = Device.organizationId device).
Proof.
  intros st'.
  assert (∀ id', devices st' !! id'
                 = devices (updateDeviceStatus env id s st) !! id') as Hlook.
  { intros id'. unfold st'.
    destruct (devices st !! id) as [device|] eqn:Hdev.
    - destruct (setDeviceStatus_known env id s proto ci st device Hdev)
        as (c & st1 & d & Hrun & (_ & _ & Hdevs & _) & _).
      rewrite Hrun. apply Hdevs.
    - unfold setDeviceStatus, getDeviceById. rewrite Hdev. cbn [fst].
      rewrite updateDeviceStatus_lookup.
      destruct (decide (id = id')) as [<-|]; [by rewrite Hdev|].
      by destruct (devices st !! id'). }
  split_and!.
  - apply set_eq. intros id'. rewrite !elem_of_dom, Hlook,
      updateDeviceStatus_lookup. by rewrite fmap_is_Some.
  - intros id' Hne. rewrite Hlook, updateDeviceStatus_lookup.
    destruct (devices st !! id'); simpl; [|done].
    by rewrite decide_False by done.
  - intros device Hdev. rewrite Hlook, updateDeviceStatus_lookup, Hdev. simpl.
    rewrite decide_True by done. eexists. split; [reflexivity|]. simpl.
    split_and!; try done.
    destruct (decide (s = _)) as [->|Hs]; [done|].
    by rewrite bool_decide_eq_false_2.
Qed.

Lemma X9_durable_status_follows_signal_witness :
  ∃ device',
    devices Scenario.connectedOverTcp !! "dev-1" = Some device'
    ∧ Device.status device' = DeviceConnectionStatus.ONLINE
    ∧ Device.lastOnlineAt device' = Some 1000%Z.
Proof.
  destruct (X9_durable_status_follows_signal (Scenario.at_time 1000) "dev-1"
              DeviceConnectionStatus.ONLINE DeviceProtocol.TCP
              (Some Scenario.tcpDetails) (Scenario.initial None))
    as (_ & _ & Hknown).
  destruct (Hknown Scenario.device) as (device' & Hget & Hs & Hl & _);
    [reflexivity|].
  exists device'. by split_and!.
Defined.

(** X10. Every successful status signal, also one that repeats the status
    of the record and publishes nothing, writes exactly one row to the
    connection log.  The row has the device id, the status and the protocol
    of the call, and the remaining columns from the record that was
    stored. *)
Theorem X10_every_signal_is_logged env id s proto ci st :
  is_Some (devices st !! id) →
  ∃ c st',
    setDeviceStatus env id s proto ci st = (st', Ok c)
    ∧ getDeviceConnection id st' = Some c
    ∧ connectionLogs (since st st')
      = [ {| ConnectionLog.deviceId := id;
             ConnectionLog.status := s;
             ConnectionLog.protocol := proto;
             ConnectionLog.clientId := clientId c;
             ConnectionLog.ipAddress := address c;
             ConnectionLog.port := port c;
             ConnectionLog.connectedAt := connectedAt c;
             ConnectionLog.disconnectedAt := disconnectedAt c;
             ConnectionLog.connectionDuration := connectionDuration c;
             ConnectionLog.sessionId := sessionId c;
             ConnectionLog.metadata := metadata c |} ].
Proof.
  intros [device Hdev].
  destruct (setDeviceStatus_known env id s proto ci st device Hdev)
    as (c & st' & d & Hrun & (Hconn & _ & _ & T & _ & Hl & _) & _).
  exists c, st'. split_and!; [done| |].
  - unfold getDeviceConnection. by rewrite Hconn, get_set_eq.
  - by rewrite (since_app _ _ _ T), Hl.
Qed.

Lemma X10_every_signal_is_logged_witness :
  ConnectionLog.status
  <$> connectionLogs
        (since Scenario.inactiveAt0
           (setDeviceStatus (Scenario.at_time 1000) "dev-1"
              DeviceConnectionStatus.INACTIVE DeviceProtocol.MQTT None
              Scenario.inactiveAt0).1)
  = [DeviceConnectionStatus.INACTIVE].
Proof.
  destruct (X10_every_signal_is_logged (Scenario.at_time 1000) "dev-1"
              DeviceConnectionStatus.INACTIVE DeviceProtocol.MQTT None
              Scenario.inactiveAt0) as (c & st' & Hrun & _ & Hl).
  - by eexists.
  - rewrite Hrun. simpl. by rewrite Hl.
Defined.

(** ** Counting *)

Lemma online_count_set (m : list (string * DeviceConnectionInfo)) id c :
  length (filter (λ x, status x = DeviceConnectionStatus.ONLINE)
            (JsMap.values (JsMap.set id c m)))
  + onlineWeight (JsMap.get id m)
  = length (filter (λ x, status x = DeviceConnectionStatus.ONLINE)
              (JsMap.values m))
    + onlineWeight (Some c).
Proof.
  unfold JsMap.values, onlineWeight, isOnline.
  induction m as [|[k v] m IH]; cbn [JsMap.set JsMap.get fmap list_fmap snd].
  - rewrite !filter_cons, filter_nil. simpl.
    destruct (decide (status c = _)).
    + by rewrite bool_decide_eq_true_2.
    + by rewrite bool_decide_eq_false_2.
  - destruct (decide (k = id)) as [->|Hne];
      cbn [fmap list_fmap snd]; rewrite !filter_cons.
    + destruct (decide (status c = _)), (decide (status v = _));
        repeat first [ rewrite bool_decide_eq_true_2 by done
                     | rewrite bool_decide_eq_false_2 by done ];
        simpl; lia.
    + destruct (decide (status v = _)); simpl in *; lia.
Qed.

(** X11. How a successful status signal moves the online count: the count
    after the signal, plus one if the device had an [ONLINE] record before,
    is the count before the signal, plus one if its new record is
    [ONLINE]. *)
Theorem X11_online_count_follows_signal env id s proto ci st :
  is_Some (devices st !! id) →
  ∃ c st',
    setDeviceStatus env id s proto ci st = (st', Ok c)
    ∧ getOnlineDeviceCount st' + onlineWeight (getDeviceConnection id st)
      = getOnlineDeviceCount st + onlineWeight (Some c).
Proof.
  intros [device Hdev].
  destruct (setDeviceStatus_known env id s proto ci st device Hdev)
    as (c & st' & d & Hrun & (Hconn & _) & _).
  exists c, st'. split; [done|].
  unfold getOnlineDeviceCount, getDeviceConnection.
  rewrite !foldl_online_count, Hconn. simpl. apply online_count_set.
Qed.

Lemma X11_online_count_follows_signal_witness :
  getOnlineDeviceCount (Scenario.initial None) = 0
  ∧ getOnlineDeviceCount Scenario.connectedOverTcp = 1.
Proof.
  destruct (X11_online_count_follows_signal (Scenario.at_time 1000) "dev-1"
              DeviceConnectionStatus.ONLINE DeviceProtocol.TCP
              (Some Scenario.tcpDetails) (Scenario.initial None))
    as (c & st' & Hrun & Hcount).
  - by eexists.
  - split; [reflexivity|].
    change Scenario.connectedOverTcp with
      (setDeviceStatus (Scenario.at_time 1000) "dev-1"
         DeviceConnectionStatus.ONLINE DeviceProtocol.TCP
         (Some Scenario.tcpDetails) (Scenario.initial None)).1.
    rewrite Hrun. simpl.
    vm_compute in Hrun. injection Hrun as _ <-.
    simpl in Hcount. lia.
Defined.

(** ** Timers and records *)

Lemma is_Some_get_set {V} (m : list (string * V)) k id v :
  is_Some (JsMap.get k m) → is_Some (JsMap.get k (JsMap.set id v m)).
Proof.
  intros H. destruct (decide (id = k)) as [->|Hne].
  - rewrite get_set_eq. by eexists.
  - by rewrite get_set_ne.
Qed.

Lemma setDeviceStatus_timersHaveRecords env id s proto ci st :
  timersHaveRecords st →
  timersHaveRecords (setDeviceStatus env id s proto ci st).1.
Proof.
  intros Hinv. destruct (devices st !! id) as [device|] eqn:Hdev.
  - destruct (setDeviceStatus_timers env id s proto ci st (ex_intro _ device Hdev))
      as [Ht _].
    destruct (setDeviceStatus_known env id s proto ci st device Hdev)
      as (c & st' & d & Hrun & (Hconn & _) & _).
    rewrite Hrun in Ht |- *. simpl in Ht |- *.
    intros k Hk. rewrite Hconn. rewrite Ht in Hk.
    destruct (decide (id = k)) as [<-|Hne].
    + rewrite get_set_eq. by eexists.
    + rewrite get_set_ne by done. apply Hinv.
      destruct s; try done; by rewrite decide_False in Hk.
  - unfold setDeviceStatus, getDeviceById. by rewrite Hdev.
Qed.

Lemma cleanupDevice_timersHaveRecords env st id :
  timersHaveRecords st → timersHaveRecords (cleanupDevice env st id).
Proof.
  intros Hinv.
  destruct (JsMap.get id (deviceConnections st)) as [c|] eqn:Hc.
  - destruct (cleanupDevice_Some env st id c Hc)
      as (d & _ & _ & _ & _ & Hconn & Ht & _).
    intros k Hk. rewrite Ht in Hk. rewrite Hconn.
    destruct (decide (id = k)) as [<-|Hne]; [by destruct Hk|].
    rewrite get_delete_ne by done. by apply Hinv.
  - unfold cleanupDevice. by rewrite Hc.
Qed.

Lemma Step_timersHaveRecords st st' :
  Step st st' → timersHaveRecords st → timersHaveRecords st'.
Proof.
  intros Hstep Hinv.
  destruct Hstep as [env id s proto ci|env id patch|env id _|env|o cs].
  - by apply setDeviceStatus_timersHaveRecords.
  - unfold updateDeviceActivity.
    destruct (JsMap.get id (deviceConnections st)); [|done].
    intros k Hk. simpl in *. apply is_Some_get_set. by apply Hinv.
  - unfold heartbeatCallback.
    destruct (JsMap.get id (deviceConnections st)) as [c|] eqn:Hc.
    + simpl. case_bool_decide; [|done].
      by apply setDeviceStatus_timersHaveRecords.
    + intros k Hk. rewrite clearHeartbeat_lookup in Hk.
      destruct (decide (id = k)); [by destruct Hk|].
      unfold clearHeartbeat.
      destruct (heartbeatIntervals st !! id); simpl; by apply Hinv.
  - unfold cleanupInactiveConnections.
    generalize (devicesToCleanup env st). intros ids.
    revert st Hinv. induction ids as [|id ids IH]; intros st Hinv; [done|].
    cbn [foldl]. by apply IH, cleanupDevice_timersHaveRecords.
  - done.
Qed.

(** X12. No heartbeat timer outlives its record: if every armed timer
    belongs to a device with a record, then so it is after any number of
    status signals, activity signals, timer ticks, sweeps and
    configuration changes.  In particular it is so in every state reached
    from one without timers. *)
Theorem X12_timers_have_records st st' :
  rtc Step st st' →
  timersHaveRecords st →
  ∀ id, is_Some (heartbeatIntervals st' !! id) →
        is_Some (getDeviceConnection id st').
Proof.
  intros Hsteps Hinv.
  assert (timersHaveRecords st') as Hinv'; [|exact Hinv'].
  induction Hsteps as [|st0 st1 st2 Hstep _ IH]; [done|].
  by apply IH, (Step_timersHaveRecords st0).
Qed.

Lemma X12_timers_have_records_witness :
  is_Some (getDeviceConnection "dev-1" Scenario.connectedOverTcp).
Proof.
  apply (X12_timers_have_records (Scenario.initial None)
           Scenario.connectedOverTcp).
  - apply rtc_once. apply StepStatus.
  - intros id [h Hh]. simpl in Hh. by rewrite lookup_empty in Hh.
  - by eexists.
Defined.

(** ** The sweeper, once more *)

Lemma cleanup_nothing_stale env st :
  devicesToCleanup env st = [] → cleanupInactiveConnections env st = st.
Proof. unfold cleanupInactiveConnections. by intros ->. Qed.

(** X13. A sweep leaves nothing for a second sweep at the same time: run
    again on its own result, the sweeper changes nothing and writes
    nothing. *)
Theorem X13_sweep_is_idempotent env st :
  NoDup (JsMap.keys (getAllDeviceConnections st)) →
  cleanupInactiveConnections env (cleanupInactiveConnections env st)
  = cleanupInactiveConnections env st.
Proof.
  unfold getAllDeviceConnections. intros Hnd.
  apply cleanup_nothing_stale. unfold devicesToCleanup.
  destruct (cleanupInactiveConnections_spec env st Hnd)
    as (d & _ & _ & _ & _ & C & _).
  set (st' := cleanupInactiveConnections env st) in *.
  assert (NoDup (JsMap.keys (deviceConnections st'))) as Hnd'
    by (apply (Step_keys st); [apply StepCleanup|done]).
  destruct (filter (λ e, isStale env e.2 = true) (deviceConnections st'))
    as [|[id c] rest] eqn:Hf; [done|].
  assert ((id, c) ∈ filter (λ e, isStale env e.2 = true) (deviceConnections st'))
    as [Hstale Hin]%list_elem_of_filter by (rewrite Hf; left).
  simpl in Hstale.
  pose proof (elem_of_get_NoDup _ _ _ Hnd' Hin) as Hget.
  rewrite C in Hget. case_decide as Hkey; [done|].
  exfalso. apply Hkey. by apply (stale_keys env st id c Hnd Hget).
Qed.

Lemma X13_sweep_is_idempotent_witness :
  cleanupInactiveConnections (Scenario.at_time (25 * Scenario.hour))
    (cleanupInactiveConnections (Scenario.at_time (25 * Scenario.hour))
       Scenario.inactiveAt0)
  = cleanupInactiveConnections (Scenario.at_time (25 * Scenario.hour))
      Scenario.inactiveAt0.
Proof.
  apply X13_sweep_is_idempotent. vm_compute. apply NoDup_singleton.
Defined.

Lemma cleanupDevice_local env st id :
  ∃ d, trace (cleanupDevice env st id) = trace st ++ d
       ∧ deliveries d = [] ∧ sentMessages d = []
       ∧ devices (cleanupDevice env st id) = devices st
       ∧ notificationConfigs (cleanupDevice env st id) = notificationConfigs st.
Proof.
  unfold cleanupDevice.
  destruct (JsMap.get id (deviceConnections st)) as [c|].
  - unfold clearHeartbeat, logConnectionStatus. simpl.
    destruct (heartbeatIntervals st !! id); simpl;
      (eexists; split; [by rewrite <- app_assoc|done]).
  - exists []. by rewrite app_nil_r.
Qed.

(** X14. The sweeper works on the table, the timers and the connection
    log only: it attempts no delivery on any channel and sends no message,
    and it leaves the durable store as it is, so that the durable status of
    an evicted device is still the status it had before the sweep. *)
Theorem X14_sweep_is_local env st :
  let st' := cleanupInactiveConnections env st in
  deliveries (since st st') = []
  ∧ sentMessages (since st st') = []
  ∧ devices st' = devices st
  ∧ notificationConfigs st' = notificationConfigs st.
Proof.
  intros st'. unfold st', cleanupInactiveConnections.
  generalize (devicesToCleanup env st). intros ids.
  assert (∀ st0, ∃ d, trace (foldl (cleanupDevice env) st0 ids) = trace st0 ++ d
                      ∧ deliveries d = [] ∧ sentMessages d = []
                      ∧ devices (foldl (cleanupDevice env) st0 ids) = devices st0
                      ∧ notificationConfigs (foldl (cleanupDevice env) st0 ids)
                        = notificationConfigs st0) as Hloop.
  { induction ids as [|id ids IH]; intros st0; cbn [foldl].
    { exists []. by rewrite app_nil_r. }
    destruct (cleanupDevice_local env st0 id) as (d1 & T1 & Hv1 & Hm1 & D1 & N1).
    destruct (IH (cleanupDevice env st0 id)) as (d2 & T2 & Hv2 & Hm2 & D2 & N2).
    exists (d1 ++ d2). rewrite T2, T1, D2, D1, N2, N1, app_assoc.
    unfold deliveries, sentMessages in *.
    by rewrite !omap_app, Hv1, Hv2, Hm1, Hm2. }
  destruct (Hloop st) as (d & T & Hv & Hm & D & N).
  by rewrite (since_app _ _ _ T).
Qed.

(** ** The dispatcher, once more *)

Import DeviceNotificationService.

Lemma audits_app d1 d2 : audits (d1 ++ d2) = audits d1 ++ audits d2.
Proof. apply omap_app. Qed.

Lemma sentMessages_app d1 d2 :
  sentMessages (d1 ++ d2) = sentMessages d1 ++ sentMessages d2.
Proof. apply omap_app. Qed.

Lemma notificationRooms_app d1 d2 :
  notificationRooms (d1 ++ d2) = notificationRooms d1 ++ notificationRooms d2.
Proof. apply omap_app. Qed.

Lemma sendWebSocketNotification_rooms m st :
  ∃ d, trace (sendWebSocketNotification m st) = trace st ++ d
       ∧ audits d = [] ∧ sentMessages d = []
       ∧ notificationRooms d = webSocketRooms m.
Proof.
  unfold sendWebSocketNotification, webSocketRooms.
  destruct (NotificationMessage.deviceId m) as [dv|];
    [destruct (truthy (Some dv))|];
    (destruct (NotificationMessage.organizationId m) as [o|];
       [destruct (truthy (Some o))|]);
    destruct (isHighOrCritical _); simpl;
    (eexists; split; [by rewrite <- ?app_assoc|done])
    || (exists []; split; [by rewrite app_nil_r|done]).
Qed.

(** The rooms that one turn of the loop of [sendNotification] reaches. *)
Lemma sendOnChannel_rooms m st ch :
  ∃ d, trace (sendOnChannel m st ch) = trace st ++ d
       ∧ audits d = [] ∧ sentMessages d = []
       ∧ notificationRooms d
         = if decide (ch = NotificationChannel.WEBSOCKET)
           then webSocketRooms m else [].
Proof.
  unfold sendOnChannel. destruct ch.
  2-5: by (eexists [_]; split_and!).
  destruct (sendWebSocketNotification_rooms m
              (perform (Deliver NotificationChannel.WEBSOCKET m) st))
    as (d & T & Ha & Hs & Hr).
  exists (Deliver NotificationChannel.WEBSOCKET m :: d).
  rewrite T. simpl. rewrite <- app_assoc. by split_and!.
Qed.

Lemma sendNotification_rooms m chs st :
  ∃ d, trace (sendNotification m chs st) = trace st ++ d
       ∧ audits d = [] ∧ sentMessages d = [m]
       ∧ notificationRooms d
         = chs ≫= (λ ch, if decide (ch = NotificationChannel.WEBSOCKET)
                        then webSocketRooms m else []).
Proof.
  unfold sendNotification.
  assert (∀ st0, ∃ d, trace (foldl (sendOnChannel m) st0 chs) = trace st0 ++ d
                      ∧ audits d = [] ∧ sentMessages d = []
                      ∧ notificationRooms d
                        = chs ≫= (λ ch, if decide (ch = NotificationChannel.WEBSOCKET)
                                       then webSocketRooms m else [])) as Hloop.
  { induction chs as [|ch chs IH]; intros st0; cbn [foldl].
    { exists []. by rewrite app_nil_r. }
    destruct (sendOnChannel_rooms m st0 ch) as (d1 & T1 & Ha1 & Hs1 & Hr1).
    destruct (IH (sendOnChannel m st0 ch)) as (d2 & T2 & Ha2 & Hs2 & Hr2).
    exists (d1 ++ d2). rewrite T2, T1, app_assoc.
    rewrite audits_app, sentMessages_app, notificationRooms_app.
    rewrite Ha1, Ha2, Hs1, Hs2, Hr1, Hr2. by rewrite bind_cons. }
  destruct (Hloop st) as (d & T & Ha & Hs & Hr).
  exists (d ++ [NotificationSent m]). simpl. rewrite T, app_assoc.
  rewrite audits_app, sentMessages_app, notificationRooms_app, Ha, Hs, Hr.
  simpl. by rewrite !app_nil_r.
Qed.

(** X15. A message of priority [LOW] or [MEDIUM] never reaches the
    system-wide room [notifications], whatever channels it is sent on. *)
Theorem X15_low_priority_stays_local m channels st :
  NotificationMessage.priority m = NotificationPriority.LOW
  ∨ NotificationMessage.priority m = NotificationPriority.MEDIUM →
  systemWide (since st (sendNotification m channels st)) = []
  ∧ "notifications" ∉ notificationRooms (since st (sendNotification m channels st)).
Proof.
  intros Hprio.
  assert (isHighOrCritical (NotificationMessage.priority m) = false) as Hlow
    by (by destruct Hprio as [-> | ->]).
  split.
  - destruct (sendNotification_emits m channels st)
      as (d & (T & _) & _ & _ & _ & Hs).
    by rewrite (since_app _ _ _ T), Hs, Hlow.
  - destruct (sendNotification_rooms m channels st) as (d & T & _ & _ & Hr).
    rewrite (since_app _ _ _ T), Hr. intros Hin.
    apply list_elem_of_bind in Hin as (ch & Hin & _).
    case_decide; [|by apply elem_of_nil in Hin].
    unfold webSocketRooms in Hin. rewrite Hlow, app_nil_r in Hin.
    apply elem_of_app in Hin as [Hin|Hin].
    + destruct (NotificationMessage.deviceId m) as [dv|];
        [destruct (truthy (Some dv))|]; try by apply elem_of_nil in Hin.
      by apply list_elem_of_singleton in Hin.
    + destruct (NotificationMessage.organizationId m) as [o|];
        [destruct (truthy (Some o))|]; try by apply elem_of_nil in Hin.
      by apply list_elem_of_singleton in Hin.
Qed.

Lemma X15_low_priority_stays_local_witness :
  systemWide
    (since (Scenario.initial None)
       (sendNotification
          {| NotificationMessage.id := "notification-1000-0";
             NotificationMessage.type := NotificationType.DEVICE_ONLINE;
             NotificationMessage.title := "设备上线: pump";
             NotificationMessage.content := "online";
             NotificationMessage.timestamp := 1000;
             NotificationMessage.priority := NotificationPriority.LOW;
             NotificationMessage.deviceId := Some "dev-1";
             NotificationMessage.deviceIdentifier := Some "sn-0001";
             NotificationMessage.deviceName := Some "pump";
             NotificationMessage.organizationId := Some "org-1";
             NotificationMessage.organizationName := Some "Waterworks";
             NotificationMessage.data := None |}
          [NotificationChannel.WEBSOCKET; NotificationChannel.EMAIL]
          (Scenario.initial None))) = [].
Proof.
  eapply proj1.
  apply (X15_low_priority_stays_local _
           [NotificationChannel.WEBSOCKET; NotificationChannel.EMAIL]
           (Scenario.initial None)).
  by left.
Defined.

(** X16. A message sent on the WebSocket channel is broadcast to the room
    of its device and to the room of its organization, when it names them,
    and to the system-wide room when its priority is [HIGH] or [CRITICAL],
    in this order, once for each time the channel list names [WEBSOCKET].
    Without [WEBSOCKET] in the list nothing is broadcast to any room. *)
Theorem X16_websocket_rooms m channels st :
  let rooms := notificationRooms (since st (sendNotification m channels st)) in
  rooms
  = mjoin (replicate
             (length (filter (λ c, c = NotificationChannel.WEBSOCKET) channels))
             (webSocketRooms m))
  ∧ (NotificationChannel.WEBSOCKET ∉ channels → rooms = [])
  ∧ (∀ d o,
       NotificationMessage.deviceId m = Some d → d ≠ "" →
       NotificationMessage.organizationId m = Some o → o ≠ "" →
       webSocketRooms m
       = ["device:" +:+ d; "organization:" +:+ o]
         ++ (if isHighOrCritical (NotificationMessage.priority m)
             then ["notifications"] else [])).
Proof.
  intros rooms.
  assert (rooms = mjoin (replicate
            (length (filter (λ c, c = NotificationChannel.WEBSOCKET) channels))
            (webSocketRooms m))) as Hrooms.
  { unfold rooms.
    destruct (sendNotification_rooms m channels st) as (d & T & _ & _ & Hr).
    rewrite (since_app _ _ _ T), Hr. clear.
    induction channels as [|ch chs IH]; [done|].
    rewrite bind_cons, filter_cons, IH.
    by destruct (decide (ch = NotificationChannel.WEBSOCKET)). }
  split_and!; [done| |].
  - intros Hno. rewrite Hrooms.
    assert (filter (λ c, c = NotificationChannel.WEBSOCKET) channels = []) as ->;
      [|done].
    destruct (filter _ channels) as [|x l] eqn:Hf; [done|].
    assert (x ∈ filter (λ c, c = NotificationChannel.WEBSOCKET) channels)
      as [-> ?]%list_elem_of_filter by (rewrite Hf; left).
    done.
  - intros d o Hd Hdne Ho Hone. unfold webSocketRooms. rewrite Hd, Ho.
    simpl. rewrite !bool_decide_eq_true_2 by done. done.
Qed.

Lemma X16_websocket_rooms_witness :
  notificationRooms
    (since (Scenario.initial None)
       (sendNotification Scenario.systemError [NotificationChannel.EMAIL]
          (Scenario.initial None))) = [].
Proof.
  apply (X16_websocket_rooms Scenario.systemError [NotificationChannel.EMAIL]
           (Scenario.initial None)).
  intros [[=]|[]%elem_of_nil]%elem_of_cons.
Defined.

Lemma findMatchingConfig_None t configs :
  findMatchingConfig t configs = None
  ↔ ∀ c, c ∈ configs →
         NotificationConfig.type c = t → NotificationConfig.enabled c = false.
Proof.
  unfold findMatchingConfig. induction configs as [|c cs IH]; simpl.
  - split; [intros _ c Hin; by apply elem_of_nil in Hin|done].
  - destruct (decide (NotificationConfig.type c = t)) as [Ht|Ht].
    + rewrite bool_decide_eq_true_2 by done. simpl.
      destruct (NotificationConfig.enabled c) eqn:Hen.
      * split; [done|]. intros H. specialize (H c). rewrite Hen in H.
        by discriminate H; [left|].
      * rewrite IH. split.
        -- intros H c' [->|Hin]%elem_of_cons; [done|by apply H].
        -- intros H c' Hin. apply H. by right.
    + rewrite bool_decide_eq_false_2 by done. simpl. rewrite IH. split.
      * intros H c' [->|Hin]%elem_of_cons; [done|by apply H].
      * intros H c' Hin. apply H. by right.
Qed.

Lemma findMatchingConfig_Some t configs c :
  findMatchingConfig t configs = Some c →
  c ∈ configs ∧ NotificationConfig.type c = t
  ∧ NotificationConfig.enabled c = true.
Proof.
  unfold findMatchingConfig. intros H.
  pose proof (find_some _ _ H) as [Hin Hc].
  apply andb_true_iff in Hc as [Ht He]. apply bool_decide_eq_true in Ht.
  split_and!; [by apply list_elem_of_In|done|done].
Qed.

(** The lookup returns the first configuration of the list that has the
    type and is enabled. *)
Lemma findMatchingConfig_first t before config after :
  NotificationConfig.type config = t →
  NotificationConfig.enabled config = true →
  (∀ c, c ∈ before →
        NotificationConfig.type c = t → NotificationConfig.enabled c = false) →
  findMatchingConfig t (before ++ config :: after) = Some config.
Proof.
  intros Ht Hen Hbefore. unfold findMatchingConfig.
  induction before as [|c cs IH]; simpl.
  - by rewrite Hen, bool_decide_eq_true_2.
  - assert (bool_decide (NotificationConfig.type c = t)
            && NotificationConfig.enabled c = false) as ->.
    { destruct (decide (NotificationConfig.type c = t)) as [Hc|Hc].
      + rewrite (Hbefore c) by (done || left). apply andb_false_r.
      + by rewrite bool_decide_eq_false_2. }
    apply IH. intros c' Hin. apply Hbefore. by right.
Qed.

(** X17. One run of the dispatcher for a status, for a device of an
    organization.  The notification type of the run is [DEVICE_ONLINE],
    [DEVICE_OFFLINE], [DEVICE_INACTIVE] or [DEVICE_ERROR] for a status of
    [ONLINE], [OFFLINE], [INACTIVE] or [ERROR].  The run uses the first
    configuration of the organization that has this type and is enabled:
    it emits [notification_sent] for one message, of this type, of the
    priority of that configuration and about the device and its
    organization, attempts the channels of that configuration, and hands
    one entry to the audit log, whose level is [critical], [error],
    [warning] or [info] for a priority of [CRITICAL], [HIGH], [MEDIUM] or
    [LOW].  A run for a device that the store does not know, or for an
    organization none of whose configurations of this type is enabled,
    returns the state as it is. *)
Theorem X17_dispatch_is_audited env id s c st :
  let st' := sendDeviceStatusNotification env id s c st in
  let wanted :=
    match s with
    | DeviceConnectionStatus.ONLINE => NotificationType.DEVICE_ONLINE
    | DeviceConnectionStatus.OFFLINE => NotificationType.DEVICE_OFFLINE
    | DeviceConnectionStatus.INACTIVE => NotificationType.DEVICE_INACTIVE
    | DeviceConnectionStatus.ERROR => NotificationType.DEVICE_ERROR
    end in
  (devices st !! id = None → st' = st)
  ∧ ∀ device o,
      devices st !! id = Some device →
      Device.organizationId device = Some o →
      o ≠ "" →
      ((∀ config, config ∈ getNotificationConfigs o st →
                  NotificationConfig.type config = wanted →
                  NotificationConfig.enabled config = false) →
       st' = st)
      ∧ ∀ before config after,
          getNotificationConfigs o st = before ++ config :: after →
          NotificationConfig.type config = wanted →
          NotificationConfig.enabled config = true →
          (∀ other, other ∈ before →
                    NotificationConfig.type other = wanted →
                    NotificationConfig.enabled other = false) →
          ∃ m,
            sentMessages (since st st') = [m]
            ∧ NotificationMessage.type m = wanted
            ∧ NotificationMessage.priority m = NotificationConfig.priority config
            ∧ NotificationMessage.deviceId m = Some id
            ∧ NotificationMessage.organizationId m = Some o
            ∧ deliveries (since st st') = NotificationConfig.channels config
            ∧ AuditEntry.level <$> audits (since st st')
              = [match NotificationConfig.priority config with
                 | NotificationPriority.CRITICAL => AuditLogLevel.CRITICAL
                 | NotificationPriority.HIGH => AuditLogLevel.ERROR
                 | NotificationPriority.MEDIUM => AuditLogLevel.WARNING
                 | NotificationPriority.LOW => AuditLogLevel.INFO
                 end].
Proof.
  intros st' wanted. subst st'.
  assert (wanted = notificationTypeOf s) as Hwanted by (by destruct s).
  clearbody wanted. subst wanted.
  unfold sendDeviceStatusNotification. split.
  { by intros ->. }
  intros device o Hdev Horg Hne. rewrite Hdev.
  assert (default "default" (or_else (Device.organizationId device) None) = o)
    as Hkey.
  { rewrite Horg. unfold or_else, truthy.
    by rewrite bool_decide_eq_true_2. }
  assert (or_else (Device.organizationId device) None = Some o) as Hname.
  { rewrite Horg. unfold or_else, truthy.
    by rewrite bool_decide_eq_true_2. }
  cbv zeta. rewrite Hkey. split.
  { intros Hoff.
    by rewrite (proj2 (findMatchingConfig_None _ _) Hoff). }
  intros before config after Hconfigs Ht Hen Hbefore.
  rewrite Hconfigs, (findMatchingConfig_first _ _ _ _ Ht Hen Hbefore).
  unfold generateNotificationId, nextRandom.
  match goal with
  | |- context [sendNotification ?m ?chs ?s0] =>
      destruct (sendNotification_rooms m chs s0) as (d & T & Ha & Hs & _);
      destruct (sendNotification_emits m chs s0)
        as (d' & (T' & _) & _ & _ & Hv & _);
      exists m; remember (sendNotification m chs s0) as st1 eqn:Hst1
  end.
  rewrite T in T'. apply app_inv_head in T'. subst d'. simpl in T.
  match goal with
  | |- context [since st (logNotification ?m st1)] =>
      assert (∃ e, since st (logNotification m st1) = d ++ [Audit e]
                   ∧ AuditEntry.level e
                     = auditLevel (NotificationMessage.priority m))
        as (e & -> & He)
  end.
  { eexists. split.
    - apply since_app. unfold logNotification. simpl.
      rewrite T, <- app_assoc. reflexivity.
    - reflexivity. }
  rewrite sentMessages_app, deliveries_app, audits_app, Hs, Ha, Hv. simpl.
  rewrite He. simpl.
  assert (auditLevel (NotificationConfig.priority config)
          = match NotificationConfig.priority config with
            | NotificationPriority.CRITICAL => AuditLogLevel.CRITICAL
            | NotificationPriority.HIGH => AuditLogLevel.ERROR
            | NotificationPriority.MEDIUM => AuditLogLevel.WARNING
            | NotificationPriority.LOW => AuditLogLevel.INFO
            end) as -> by (by destruct (NotificationConfig.priority config)).
  split_and!; try done. by rewrite app_nil_r.
Qed.

Lemma X17_dispatch_is_audited_witness :
  sendDeviceStatusNotification (Scenario.at_time 1000) "dev-1"
    DeviceConnectionStatus.OFFLINE Examples.errorRecord Examples.mixedConfigs
  = Examples.mixedConfigs
  ∧ ∃ m,
      sentMessages
        (since Examples.mixedConfigs
           (sendDeviceStatusNotification (Scenario.at_time 1000) "dev-1"
              DeviceConnectionStatus.ERROR Examples.errorRecord
              Examples.mixedConfigs)) = [m]
      ∧ NotificationMessage.type m = NotificationType.DEVICE_ERROR
      ∧ NotificationMessage.priority m = NotificationPriority.CRITICAL
      ∧ deliveries
          (since Examples.mixedConfigs
             (sendDeviceStatusNotification (Scenario.at_time 1000) "dev-1"
                DeviceConnectionStatus.ERROR Examples.errorRecord
                Examples.mixedConfigs))
        = [NotificationChannel.EMAIL].
Proof.
  pose (st := Examples.mixedConfigs). pose (c := Examples.errorRecord).
  split.
  - destruct (X17_dispatch_is_audited (Scenario.at_time 1000) "dev-1"
                DeviceConnectionStatus.OFFLINE c st) as (_ & Hknown).
    destruct (Hknown Scenario.device "org-1") as (Hnone & _);
      [reflexivity|reflexivity|done|].
    apply Hnone. intros config Hin Ht.
    change (config ∈ [Scenario.offlineByEmailAndSms false;
                      Scenario.errorByEmail]) in Hin.
    apply elem_of_cons in Hin as [->|Hin]; [reflexivity|].
    apply elem_of_cons in Hin as [->|Hin]; [discriminate Ht|].
    by apply elem_of_nil in Hin.
  - destruct (X17_dispatch_is_audited (Scenario.at_time 1000) "dev-1"
                DeviceConnectionStatus.ERROR c st) as (_ & Hknown).
    destruct (Hknown Scenario.device "org-1") as (_ & Hsome);
      [reflexivity|reflexivity|done|].
    destruct (Hsome [Scenario.offlineByEmailAndSms false]
                Scenario.errorByEmail [])
      as (m & Hm & Ht & Hp & _ & _ & Hv & _);
      [reflexivity|reflexivity|reflexivity| |].
    + intros other Hin Hty.
      apply elem_of_cons in Hin as [->|Hin]; [reflexivity|].
      by apply elem_of_nil in Hin.
    + exists m. by split_and!.
Defined.

(** X18. The configurations of an organization are those that were set
    for it last, also when that is the empty list; setting them for one
    organization changes nothing for another; an organization for which
    none were ever set gets the default configurations. *)
Theorem X18_configs_round_trip o configs st :
  getNotificationConfigs o (setNotificationConfigs o configs st) = configs
  ∧ (∀ o', o' ≠ o →
       getNotificationConfigs o' (setNotificationConfigs o configs st)
       = getNotificationConfigs o' st)
  ∧ (notificationConfigs st !! o = None →
     getNotificationConfigs o st = defaultConfigs)
  ∧ deviceConnections (setNotificationConfigs o configs st)
    = deviceConnections st
  ∧ trace (setNotificationConfigs o configs st) = trace st.
Proof.
  unfold getNotificationConfigs, setNotificationConfigs. simpl.
  split_and!; try done.
  - by rewrite lookup_insert_eq.
  - intros o' Hne. by rewrite lookup_insert_ne.
  - by intros ->.
Qed.

Lemma X18_configs_round_trip_witness :
  getNotificationConfigs "org-1" (Scenario.initial None) = defaultConfigs
  ∧ getNotificationConfigs "org-1"
      (setNotificationConfigs "org-1" [] (Scenario.initial None)) = [].
Proof.
  destruct (X18_configs_round_trip "org-1" [] (Scenario.initial None))
    as (Hset & _ & Hdefault & _).
  split; [by apply Hdefault|exact Hset].
Defined.

(** X19. When the configurations of the organization of a device hold no
    enabled configuration of the type of the new status, whatever they hold
    for the other types, a status signal for the device attempts no
    delivery on any channel.  This is so in particular after the empty list
    has been set for the organization. *)
Theorem X19_no_enabled_config_no_delivery env id s proto ci st device :
  devices st !! id = Some device →
  let o := default "default" (or_else (Device.organizationId device) None) in
  let wanted :=
    match default s (ci ≫= Partial.status) with
    | DeviceConnectionStatus.ONLINE => NotificationType.DEVICE_ONLINE
    | DeviceConnectionStatus.OFFLINE => NotificationType.DEVICE_OFFLINE
    | DeviceConnectionStatus.INACTIVE => NotificationType.DEVICE_INACTIVE
    | DeviceConnectionStatus.ERROR => NotificationType.DEVICE_ERROR
    end in
  (∀ config, config ∈ getNotificationConfigs o st →
             NotificationConfig.type config = wanted →
             NotificationConfig.enabled config = false) →
  deliveries (since st (setDeviceStatus env id s proto ci st).1) = []
  ∧ deliveries
      (since (setNotificationConfigs o [] st)
         (setDeviceStatus env id s proto ci (setNotificationConfigs o [] st)).1)
    = [].
Proof.
  intros Hdev o wanted Hoff.
  assert (∀ st0, devices st0 !! id = Some device →
            (∀ config, config ∈ getNotificationConfigs o st0 →
                       NotificationConfig.type config = wanted →
                       NotificationConfig.enabled config = false) →
            deliveries (since st0 (setDeviceStatus env id s proto ci st0).1) = [])
    as Hgen.
  { intros st0 Hdev0 Hoff0.
    destruct (setDeviceStatus_known env id s proto ci st0 device Hdev0)
      as (c & st' & d & Hrun & (_ & _ & _ & T & _ & _ & Hv) & F & _).
    destruct F as (_ & _ & Fs & _).
    rewrite Hrun. simpl. rewrite (since_app _ _ _ T), Hv.
    destruct (sameStatus _ _); [done|].
    unfold dispatchChannels. rewrite Hdev0. simpl. fold o.
    assert (notificationTypeOf (status c) = wanted) as ->.
    { rewrite Fs. unfold wanted. by destruct ci as [p|]; simpl;
        [destruct (Partial.status p) as [[]|]; simpl; destruct s|destruct s]. }
    by rewrite (proj2 (findMatchingConfig_None _ _) Hoff0). }
  split; [by apply Hgen|]. apply Hgen; [done|].
  intros config. unfold getNotificationConfigs, setNotificationConfigs. simpl.
  rewrite lookup_insert_eq. simpl. intros Hin. by apply elem_of_nil in Hin.
Qed.

Lemma X19_no_enabled_config_no_delivery_witness :
  deliveries
    (since Examples.mixedConfigs
       (setDeviceStatus (Scenario.at_time 5000) "dev-1"
          DeviceConnectionStatus.OFFLINE DeviceProtocol.MQTT None
          Examples.mixedConfigs).1)
  = [].
Proof.
  pose (st := Examples.mixedConfigs). eapply proj1.
  apply (X19_no_enabled_config_no_delivery (Scenario.at_time 5000) "dev-1"
           DeviceConnectionStatus.OFFLINE DeviceProtocol.MQTT None
           st Scenario.device).
  - reflexivity.
  - intros config Hin Ht.
    change (config ∈ [Scenario.offlineByEmailAndSms false;
                      Scenario.errorByEmail]) in Hin.
    apply elem_of_cons in Hin as [->|Hin]; [reflexivity|].
    apply elem_of_cons in Hin as [->|Hin]; [discriminate Ht|].
    by apply elem_of_nil in Hin.
Defined.

(** X20. For a device of an organization that has no configurations of
    its own, the default table decides.  A signal that changes the status
    to [ONLINE] or [OFFLINE] is notified on the WebSocket channel, and one
    that changes it to [INACTIVE] or [ERROR] on WebSocket and e-mail: each
    of these channels gets two delivery attempts, one from each of the two
    listeners that the transition starts, and every other channel gets
    none, so that SMS, push and webhook are never used. *)
Theorem X20_default_channels env id s proto ci st device :
  devices st !! id = Some device →
  notificationConfigs st
    !! default "default" (or_else (Device.organizationId device) None) = None →
  ∃ c st',
    setDeviceStatus env id s proto ci st = (st', Ok c)
    ∧ (match getDeviceConnection id st with
       | None => True
       | Some old => status old ≠ status c
       end →
       ∀ ch,
         attemptsOn ch (since st st')
         = match status c, ch with
           | (DeviceConnectionStatus.ONLINE | DeviceConnectionStatus.OFFLINE),
             NotificationChannel.WEBSOCKET => 2
           | (DeviceConnectionStatus.INACTIVE | DeviceConnectionStatus.ERROR),
             (NotificationChannel.WEBSOCKET | NotificationChannel.EMAIL) => 2
           | _, _ => 0
           end).
Proof.
  intros Hdev Hnone.
  destruct (setDeviceStatus_known env id s proto ci st device Hdev)
    as (c & st' & d & Hrun & (_ & _ & _ & T & _ & _ & Hv) & _).
  exists c, st'. split; [done|]. intros Hchanged ch.
  unfold getDeviceConnection in Hchanged. unfold attemptsOn.
  rewrite (since_app _ _ _ T), Hv.
  assert (sameStatus c (JsMap.get id (deviceConnections st)) = false) as ->.
  { unfold sameStatus. destruct (JsMap.get id (deviceConnections st)); [|done].
    by rewrite bool_decide_eq_false_2. }
  unfold dispatchChannels, getNotificationConfigs. rewrite Hdev. simpl.
  rewrite Hnone. by destruct (status c), ch.
Qed.

Lemma X20_default_channels_witness :
  attemptsOn NotificationChannel.WEBSOCKET (trace Scenario.inactiveAt0) = 2
  ∧ attemptsOn NotificationChannel.EMAIL (trace Scenario.inactiveAt0) = 2
  ∧ attemptsOn NotificationChannel.SMS (trace Scenario.inactiveAt0) = 0.
Proof.
  destruct (X20_default_channels (Scenario.at_time 0) "dev-1"
              DeviceConnectionStatus.INACTIVE DeviceProtocol.MQTT None
              (Scenario.initial None) Scenario.device)
    as (c & st' & Hrun & Hv); [reflexivity|reflexivity|].
  change Scenario.inactiveAt0 with
    (setDeviceStatus (Scenario.at_time 0) "dev-1"
       DeviceConnectionStatus.INACTIVE DeviceProtocol.MQTT None
       (Scenario.initial None)).1.
  rewrite Hrun. simpl fst.
  change (trace st') with (since (Scenario.initial None) st').
  rewrite !(Hv I).
  vm_compute in Hrun. by injection Hrun as _ <-.
Defined.

(** X21. A device without an organization is notified under the key
    [default]: the configurations set for that key apply to it, and the
    default table when none are set.  Its messages name no organization, so
    that no organization room is reached. *)
Theorem X21_device_without_organization env id s c st device :
  devices st !! id = Some device →
  Device.organizationId device = None
  ∨ Device.organizationId device = Some "" →
  let st' := sendDeviceStatusNotification env id s c st in
  deliveries (since st st')
  = match findMatchingConfig (notificationTypeOf s)
            (getNotificationConfigs "default" st) with
    | Some config => NotificationConfig.channels config
    | None => []
    end
  ∧ (∀ m, m ∈ sentMessages (since st st') →
          NotificationMessage.organizationId m = None).
Proof.
  intros Hdev Horg st'.
  assert (or_else (Device.organizationId device) None = None) as Hkey
    by (by destruct Horg as [-> | ->]).
  split.
  - destruct (sendDeviceStatusNotification_emits env id s c st)
      as (d & (T & _) & _ & _ & Hv).
    unfold st'. rewrite (since_app _ _ _ T), Hv.
    unfold dispatchChannels. rewrite Hdev. simpl. by rewrite Hkey.
  - unfold st', sendDeviceStatusNotification. rewrite Hdev. simpl.
    rewrite Hkey. simpl.
    destruct (findMatchingConfig _ _) as [config|];
      [|intros m; rewrite since_refl; by intros ?%elem_of_nil].
    unfold generateNotificationId, nextRandom.
    match goal with
    | |- context [sendNotification ?m ?chs ?s0] =>
        destruct (sendNotification_rooms m chs s0) as (d & T & _ & Hs & _);
        remember (sendNotification m chs s0) as st1 eqn:Hst1
    end.
    simpl in T. intros m.
    erewrite since_app;
      [|unfold logNotification; simpl; rewrite T, <- app_assoc; reflexivity].
    rewrite sentMessages_app, Hs. simpl.
    by intros [->|[]%elem_of_nil]%elem_of_cons.
Qed.

Lemma X21_device_without_organization_witness :
  deliveries
    (since Examples.strayState
       (sendDeviceStatusNotification (Scenario.at_time 1000) "dev-9"
          DeviceConnectionStatus.ERROR
          {| deviceId := "dev-9"; deviceIdentifier := "sn-0009";
             status := DeviceConnectionStatus.ERROR;
             protocol := DeviceProtocol.MQTT;
             address := None; port := None; clientId := None;
             lastActivityAt := 1000; connectedAt := None;
             disconnectedAt := None; connectionDuration := None;
             sessionId := None; metadata := None |}
          Examples.strayState))
  = [NotificationChannel.EMAIL].
Proof.
  eapply proj1.
  apply (X21_device_without_organization (Scenario.at_time 1000) "dev-9"
           DeviceConnectionStatus.ERROR _ Examples.strayState
           Examples.strayDevice); [reflexivity|by left].
Defined.

(** ** The listeners *)

Lemma get_Some_keys {V} (m : list (string * V)) k v :
  JsMap.get k m = Some v → k ∈ JsMap.keys m.
Proof.
  intros H. destruct (decide (k ∈ JsMap.keys m)) as [|Hno]; [done|].
  apply get_None_keys in Hno. congruence.
Qed.

(** An activity signal changes nothing but the last-activity time and the
    metadata of one record. *)
Lemma updateDeviceActivity_frame env id patch st :
  let st' := updateDeviceActivity env id patch st in
  trace st' = trace st
  ∧ devices st' = devices st
  ∧ heartbeatIntervals st' = heartbeatIntervals st
  ∧ notificationConfigs st' = notificationConfigs st
  ∧ JsMap.keys (deviceConnections st') = JsMap.keys (deviceConnections st)
  ∧ ∀ id', status <$> JsMap.get id' (deviceConnections st')
           = status <$> JsMap.get id' (deviceConnections st).
Proof.
  intros st'. unfold st', updateDeviceActivity.
  destruct (JsMap.get id (deviceConnections st)) as [c|] eqn:Hc; [|done].
  simpl. split_and!; try done.
  - rewrite keys_set. rewrite decide_True; [done|by eapply get_Some_keys].
  - intros id'. destruct (decide (id = id')) as [<-|Hne].
    + rewrite get_set_eq, Hc. by destruct patch.
    + by rewrite get_set_ne.
Qed.

Lemma setupMqttSubscriptions_keys err1 err2 c topic :
  MqttClientService.subscriptions c = [] →
  topic ≠ "devices/+/status" → topic ≠ "devices/+/lwt" →
  JsMap.get topic
    (MqttClientService.subscriptions (setupMqttSubscriptions err1 err2 c))
  = None.
Proof.
  intros Hsubs H1 H2.
  unfold setupMqttSubscriptions, MqttClientService.subscribe,
    MqttClientService.isClientConnected.
  destruct c as [cl conn subs]. simpl in *. subst subs.
  destruct cl, conn, err1, err2; simpl; try done;
    cbn [JsMap.get JsMap.set];
    repeat (rewrite ?decide_False by done; cbn [JsMap.get JsMap.set]);
    done.
Qed.

(** X22. The MQTT client looks the handler of an incoming message up under
    the exact topic string, and the two handlers are subscribed under the
    patterns [devices/+/status] and [devices/+/lwt].  A message on any other
    topic, such as [devices/dev-1/status], therefore reaches neither
    handler: whatever its payload, it is an activity signal for the device
    named in the topic and nothing more.  No status changes, no record is
    added or removed, nothing is logged, published or delivered, and no
    timer changes. *)
Theorem X22_pattern_subscriptions_match_no_topic env err1 err2 c topic payload st :
  MqttClientService.subscriptions c = [] →
  topic ≠ "devices/+/status" →
  topic ≠ "devices/+/lwt" →
  let c' := setupMqttSubscriptions err1 err2 c in
  let st' := handleMessage env c' topic payload st in
  st' = onMqttMessage env topic st
  ∧ trace st' = trace st
  ∧ devices st' = devices st
  ∧ heartbeatIntervals st' = heartbeatIntervals st
  ∧ JsMap.keys (getAllDeviceConnections st')
    = JsMap.keys (getAllDeviceConnections st)
  ∧ (∀ id, status <$> getDeviceConnection id st'
           = status <$> getDeviceConnection id st)
  ∧ (MqttClientService.isClientConnected c = true →
     err1 = None → err2 = None →
     MqttClientService.getSubscriptions c'
     = ["devices/+/status"; "devices/+/lwt"]).
Proof.
  intros Hsubs H1 H2 c' st'.
  assert (st' = onMqttMessage env topic st) as Hst'.
  { unfold st', handleMessage, c'.
    by rewrite setupMqttSubscriptions_keys. }
  rewrite Hst'. unfold onMqttMessage, getAllDeviceConnections,
    getDeviceConnection.
  split; [done|].
  assert (MqttClientService.isClientConnected c = true →
          err1 = None → err2 = None →
          MqttClientService.getSubscriptions c'
          = ["devices/+/status"; "devices/+/lwt"]) as Hready.
  { intros Hconn -> ->. unfold c', setupMqttSubscriptions,
      MqttClientService.subscribe, MqttClientService.isClientConnected in *.
    destruct c as [cl conn subs]. simpl in *. subst subs.
    destruct cl, conn; try done. }
  destruct (extractDeviceIdFromTopic topic) as [id|]; [|by split_and!].
  destruct (updateDeviceActivity_frame env id
              (Some {[ "lastMessage" :=
                         JObj [("topic", JStr topic);
                               ("timestamp", JDate (now env))] ]}) st)
    as (T & D & H & _ & K & S).
  by split_and!.
Qed.

Lemma X22_pattern_subscriptions_match_no_topic_witness :
  handleMessage (Scenario.at_time 2000) Examples.mqttReady
    "devices/dev-1/status" "offline" Scenario.connectedOverTcp
  = onMqttMessage (Scenario.at_time 2000) "devices/dev-1/status"
      Scenario.connectedOverTcp
  ∧ status <$> getDeviceConnection "dev-1"
                 (handleMessage (Scenario.at_time 2000) Examples.mqttReady
                    "devices/dev-1/status" "offline" Scenario.connectedOverTcp)
    = Some DeviceConnectionStatus.ONLINE.
Proof.
  destruct (X22_pattern_subscriptions_match_no_topic (Scenario.at_time 2000)
              None None
              {| MqttClientService.client := true;
                 MqttClientService.isConnected := true;
                 MqttClientService.subscriptions := [] |}
              "devices/dev-1/status" "offline" Scenario.connectedOverTcp)
    as (Hsame & _ & _ & _ & _ & Hstatus & _); [done|done|done|].
  split; [exact Hsame|]. by rewrite Hstatus.
Defined.

(** X23. What the handler of the status topic does with a payload, for the
    device named in the topic.  If the store does not know the device,
    nothing changes, for [online] because the handler asks the store first
    and for [offline] because the error is caught.  A payload other than
    [online] and [offline] changes nothing.  For a known device, [online]
    makes its record [ONLINE] over MQTT and arms its timer, and [offline]
    makes it [OFFLINE] over MQTT, stamps the disconnect time and leaves it
    without a timer. *)
Theorem X23_status_payload env topic payload st id :
  extractDeviceIdFromTopic topic = Some id →
  let st' := statusHandler env topic payload st in
  (devices st !! id = None → st' = st)
  ∧ (payload ≠ "online" → payload ≠ "offline" → st' = st)
  ∧ (is_Some (devices st !! id) → payload = "online" →
     ∃ c, getDeviceConnection id st' = Some c
          ∧ status c = DeviceConnectionStatus.ONLINE
          ∧ protocol c = DeviceProtocol.MQTT
          ∧ lastActivityAt c = now env
          ∧ is_Some (heartbeatIntervals st' !! id))
  ∧ (is_Some (devices st !! id) → payload = "offline" →
     ∃ c, getDeviceConnection id st' = Some c
          ∧ status c = DeviceConnectionStatus.OFFLINE
          ∧ protocol c = DeviceProtocol.MQTT
          ∧ disconnectedAt c = Some (now env)
          ∧ heartbeatIntervals st' !! id = None).
Proof.
  intros Hid st'. unfold st', statusHandler, getDeviceConnection.
  rewrite Hid. split_and!.
  - intros Hdev. unfold setDeviceStatus, getDeviceById. rewrite !Hdev.
    by repeat case_decide.
  - intros H1 H2. by rewrite !decide_False.
  - intros [device Hdev] ->. rewrite decide_True by done.
    unfold getDeviceById. rewrite Hdev.
    destruct (setDeviceStatus_known env id DeviceConnectionStatus.ONLINE
                DeviceProtocol.MQTT None st device Hdev)
      as (c & st1 & d & Hrun & (Hconn & _) & F & _).
    pose proof (setDeviceStatus_timers env id DeviceConnectionStatus.ONLINE
                  DeviceProtocol.MQTT None st (ex_intro _ device Hdev))
      as [Ht _].
    rewrite Hrun in Ht |- *. simpl in Ht, F |- *.
    destruct F as (_ & _ & F3 & F4 & _ & _ & _ & _ & F9).
    exists c. rewrite Hconn, get_set_eq, Ht, decide_True by done.
    by split_and!.
  - intros [device Hdev] ->. rewrite decide_False by done.
    rewrite decide_True by done.
    destruct (setDeviceStatus_known env id DeviceConnectionStatus.OFFLINE
                DeviceProtocol.MQTT None st device Hdev)
      as (c & st1 & d & Hrun & (Hconn & _) & F & G).
    pose proof (setDeviceStatus_timers env id DeviceConnectionStatus.OFFLINE
                  DeviceProtocol.MQTT None st (ex_intro _ device Hdev))
      as [Ht _].
    rewrite Hrun in Ht |- *. simpl in Ht, F, G |- *.
    destruct F as (_ & _ & F3 & F4 & _). destruct G as (G1 & _).
    exists c. rewrite Hconn, get_set_eq, Ht, decide_True by done.
    by split_and!.
Qed.

Lemma X23_status_payload_witness :
  statusHandler (Scenario.at_time 2000) "devices/dev-2/status" "offline"
    Scenario.connectedOverTcp = Scenario.connectedOverTcp
  ∧ ∃ c,
      getDeviceConnection "dev-1"
        (statusHandler (Scenario.at_time 2000) "devices/dev-1/status"
           "offline" Scenario.connectedOverTcp) = Some c
      ∧ status c = DeviceConnectionStatus.OFFLINE.
Proof.
  split.
  - destruct (X23_status_payload (Scenario.at_time 2000)
                "devices/dev-2/status" "offline" Scenario.connectedOverTcp
                "dev-2") as (Hunknown & _); [reflexivity|].
    apply Hunknown. reflexivity.
  - destruct (X23_status_payload (Scenario.at_time 2000)
                "devices/dev-1/status" "offline" Scenario.connectedOverTcp
                "dev-1") as (_ & _ & _ & Hoff); [reflexivity|].
    destruct Hoff as (c & Hget & Hs & _); [by eexists|reflexivity|].
    by exists c.
Defined.

(** X24. The last-will handler takes the device named in the topic
    offline at once: its record becomes [OFFLINE] over MQTT with the
    disconnect time of the message, its timer is cleared, and the metadata
    of the record are the payload as [lwtMessage] and the time as
    [lwtTimestamp] and nothing else.  The duration is computed from the
    connection time of the record it replaces.  For a device that the store
    does not know the error is caught and nothing changes. *)
Theorem X24_last_will_takes_offline env topic payload st id :
  extractDeviceIdFromTopic topic = Some id →
  let st' := lwtHandler env topic payload st in
  (devices st !! id = None → st' = st)
  ∧ (is_Some (devices st !! id) →
     ∃ c, getDeviceConnection id st' = Some c
          ∧ status c = DeviceConnectionStatus.OFFLINE
          ∧ protocol c = DeviceProtocol.MQTT
          ∧ disconnectedAt c = Some (now env)
          ∧ connectionDuration c
            = (λ t, (now env - t) `div` 1000)%Z
              <$> (getDeviceConnection id st ≫= connectedAt)
          ∧ (∀ k, default ∅ (metadata c) !! k
                  = if decide (k = "lwtMessage")
                    then Some (JAtom (JStr payload))
                    else if decide (k = "lwtTimestamp")
                         then Some (JAtom (JDate (now env)))
                         else None)
          ∧ heartbeatIntervals st' !! id = None).
Proof.
  intros Hid st'. unfold st', lwtHandler, getDeviceConnection.
  rewrite Hid. split.
  - intros Hdev. unfold setDeviceStatus, getDeviceById. by rewrite Hdev.
  - intros [device Hdev].
    destruct (setDeviceStatus_known env id DeviceConnectionStatus.OFFLINE
                DeviceProtocol.MQTT (Some (lwtSignal env payload)) st device Hdev)
      as (c & st1 & d & Hrun & (Hconn & _) & F & G).
    pose proof (setDeviceStatus_timers env id DeviceConnectionStatus.OFFLINE
                  DeviceProtocol.MQTT (Some (lwtSignal env payload)) st
                  (ex_intro _ device Hdev)) as [Ht _].
    rewrite Hrun in Ht |- *. simpl in Ht, F, G |- *.
    destruct F as (_ & _ & F3 & F4 & _ & _ & _ & F8 & _).
    destruct G as (G1 & _ & _ & G4).
    exists c. rewrite Hconn, get_set_eq, Ht, decide_True by done.
    split_and!; try done.
    intros k. rewrite F8. simpl.
    destruct (decide (k = "lwtMessage")) as [->|H1].
    + by rewrite lookup_insert_eq.
    + rewrite lookup_insert_ne by done.
      destruct (decide (k = "lwtTimestamp")) as [->|H2].
      * by rewrite lookup_singleton_eq.
      * by rewrite lookup_singleton_ne.
Qed.

Lemma X24_last_will_takes_offline_witness :
  ∃ c,
    getDeviceConnection "dev-1"
      (lwtHandler (Scenario.at_time 4500) "devices/dev-1/lwt" "power lost"
         Scenario.connectedOverTcp) = Some c
    ∧ status c = DeviceConnectionStatus.OFFLINE
    ∧ connectionDuration c = Some 3%Z.
Proof.
  destruct (X24_last_will_takes_offline (Scenario.at_time 4500)
              "devices/dev-1/lwt" "power lost" Scenario.connectedOverTcp
              "dev-1") as (_ & Hknown); [reflexivity|].
  destruct Hknown as (c & Hget & Hs & _ & _ & Hdur & _); [by eexists|].
  exists c. split_and!; [done|done|]. by rewrite Hdur.
Defined.

(** ** The close listeners *)

Lemma find_None_all {A} (P : A → bool) (l : list A) :
  (∀ x, x ∈ l → P x = false) → List.find P l = None.
Proof.
  induction l as [|x l IH]; intros H; cbn [List.find]; [done|].
  rewrite (H x) by apply list_elem_of_here.
  apply IH. intros y Hy. apply H. by apply list_elem_of_further.
Qed.

(** After [set k v], no entry passes a test that [(k, v)] fails and that
    only entries under [k] passed before. *)
Lemma find_set_None {V} (P : string * V → bool) (m : list (string * V)) k v :
  NoDup (JsMap.keys m) →
  P (k, v) = false →
  (∀ k' v', (k', v') ∈ m → P (k', v') = true → k' = k) →
  List.find P (JsMap.set k v m) = None.
Proof.
  unfold JsMap.keys. intros Hnd HP Hm.
  induction m as [|[k0 v0] m IH]; cbn [JsMap.set List.find].
  - by rewrite HP.
  - cbn in Hnd. apply NoDup_cons in Hnd as [Hnotin Hnd].
    destruct (decide (k0 = k)) as [->|Hne]; cbn [List.find].
    + rewrite HP. apply find_None_all. intros [k' v'] Hin.
      destruct (P (k', v')) eqn:HP'; [|done]. exfalso. apply Hnotin.
      rewrite <- (Hm k' v' (list_elem_of_further _ _ _ Hin) HP').
      apply list_elem_of_fmap. by exists (k', v').
    + destruct (P (k0, v0)) eqn:HP0.
      * destruct Hne. apply (Hm k0 v0); [apply list_elem_of_here|done].
      * apply IH; [done|]. intros k' v' Hin. apply Hm.
        by apply list_elem_of_further.
Qed.

(** After [set k v], the first entry that passes a test is [(k, v)] when
    it passes and no entry under another key does. *)
Lemma find_set_Some {V} (P : string * V → bool) (m : list (string * V)) k v :
  P (k, v) = true →
  (∀ k' v', (k', v') ∈ m → k' ≠ k → P (k', v') = false) →
  List.find P (JsMap.set k v m) = Some (k, v).
Proof.
  intros HP Hm. induction m as [|[k0 v0] m IH]; cbn [JsMap.set List.find].
  - by rewrite HP.
  - destruct (decide (k0 = k)) as [->|Hne]; cbn [List.find].
    + by rewrite HP.
    + rewrite (Hm k0 v0) by (done || apply list_elem_of_here).
      apply IH. intros k' v' Hin. apply Hm. by apply list_elem_of_further.
Qed.

Lemma find_usesConnection proto connectionId m id e :
  List.find (usesConnection proto connectionId) m = Some (id, e) →
  (id, e) ∈ m ∧ protocol e = proto ∧ clientId e = Some connectionId.
Proof.
  intros H. apply find_some in H as [Hin HP]. split.
  - by apply list_elem_of_In.
  - unfold usesConnection in HP. apply andb_prop in HP as [H1 H2].
    by apply bool_decide_eq_true in H1, H2.
Qed.

(** What taking the device of a closed connection offline does. *)
Lemma close_takes_offline env proto connectionId st id :
  is_Some (devices st !! id) →
  let st' := (setDeviceStatus env id DeviceConnectionStatus.OFFLINE proto
                None st).1 in
  (∃ c, getDeviceConnection id st' = Some c
        ∧ status c = DeviceConnectionStatus.OFFLINE
        ∧ protocol c = proto
        ∧ clientId c = None ∧ address c = None ∧ port c = None
        ∧ disconnectedAt c = Some (now env)
        ∧ heartbeatIntervals st' !! id = None)
  ∧ (∀ id', id' ≠ id →
       getDeviceConnection id' st' = getDeviceConnection id' st)
  ∧ (NoDup (JsMap.keys (deviceConnections st)) →
     (∀ k' v', (k', v') ∈ deviceConnections st →
        usesConnection proto connectionId (k', v') = true → k' = id) →
     List.find (usesConnection proto connectionId) (deviceConnections st')
     = None).
Proof.
  intros [device Hdev] st'. unfold st', getDeviceConnection.
  destruct (setDeviceStatus_known env id DeviceConnectionStatus.OFFLINE
              proto None st device Hdev)
    as (c & st1 & d & Hrun & (Hconn & _) & F & G).
  pose proof (setDeviceStatus_timers env id DeviceConnectionStatus.OFFLINE
                proto None st (ex_intro _ device Hdev)) as [Ht _].
  rewrite Hrun in Ht |- *. simpl in Ht, F, G |- *.
  destruct F as (_ & _ & F3 & F4 & F5 & F6 & F7 & _).
  destruct G as (G1 & _). rewrite Hconn. split_and!.
  - exists c. rewrite get_set_eq, Ht, decide_True by done. by split_and!.
  - intros id' Hne. by rewrite get_set_ne.
  - intros Hnd Honly. apply find_set_None; [done| |done].
    unfold usesConnection. simpl. rewrite F7.
    rewrite (bool_decide_eq_false_2 (None = Some connectionId)) by done.
    apply andb_false_r.
Qed.

(** X25. The listener of the TCP service's [socket_close] event.  When no
    record of the table is a TCP record with the closed connection as its
    client id, or the device of the first such record is not in the store,
    nothing changes.  Otherwise the device of the first such record, and no
    other, gets an [OFFLINE] record over TCP: it carries the time of the
    close and no client id, address or port, and the device has no timer.
    When that record was the only one that used the connection, a second
    close of the same connection changes nothing. *)
Theorem X25_socket_close_takes_first_user_offline env connectionId st :
  let uses := usesConnection DeviceProtocol.TCP connectionId in
  let st' := onTcpSocketClose env connectionId st in
  (List.find uses (deviceConnections st) = None → st' = st)
  ∧ ∀ id e, List.find uses (deviceConnections st) = Some (id, e) →
      (devices st !! id = None → st' = st)
      ∧ (is_Some (devices st !! id) →
         (∃ c, getDeviceConnection id st' = Some c
               ∧ status c = DeviceConnectionStatus.OFFLINE
               ∧ protocol c = DeviceProtocol.TCP
               ∧ clientId c = None ∧ address c = None ∧ port c = None
               ∧ disconnectedAt c = Some (now env)
               ∧ heartbeatIntervals st' !! id = None)
         ∧ (∀ id', id' ≠ id →
              getDeviceConnection id' st' = getDeviceConnection id' st)
         ∧ (NoDup (JsMap.keys (deviceConnections st)) →
            (∀ k' v', (k', v') ∈ deviceConnections st →
               uses (k', v') = true → k' = id) →
            ∀ env', onTcpSocketClose env' connectionId st' = st')).
Proof.
  intros uses st'. unfold st', uses, onTcpSocketClose. split.
  - by intros ->.
  - intros id e ->. split.
    + intros Hdev. unfold setDeviceStatus, getDeviceById. by rewrite Hdev.
    + intros Hknown.
      destruct (close_takes_offline env DeviceProtocol.TCP connectionId st id
                  Hknown) as (Hrec & Hothers & Hfind).
      split_and!; [done|done|].
      intros Hnd Honly env'. by rewrite Hfind.
Qed.

Lemma X25_socket_close_takes_first_user_offline_witness :
  onTcpSocketClose (Scenario.at_time 3000) "conn-8" Scenario.connectedOverTcp
  = Scenario.connectedOverTcp
  ∧ ∃ c,
      getDeviceConnection "dev-1"
        (onTcpSocketClose (Scenario.at_time 3000) "conn-7"
           Scenario.connectedOverTcp) = Some c
      ∧ status c = DeviceConnectionStatus.OFFLINE
      ∧ clientId c = None.
Proof.
  split.
  - destruct (X25_socket_close_takes_first_user_offline
                (Scenario.at_time 3000) "conn-8" Scenario.connectedOverTcp)
      as (Hnone & _).
    apply Hnone. reflexivity.
  - destruct (X25_socket_close_takes_first_user_offline
                (Scenario.at_time 3000) "conn-7" Scenario.connectedOverTcp)
      as (_ & Hsome).
    edestruct (Hsome "dev-1") as (_ & Hknown); [reflexivity|].
    destruct Hknown as ((c & Hget & Hs & _ & Hc & _) & _); [by eexists|].
    by exists c.
Defined.

(** X26. A WebSocket session, from the record that the [connection]
    listener writes to the [disconnect] listener.  A device comes online
    over WebSocket with a partial record that names the client, in a table
    where no record of another device names that client.  Then the
    [disconnect] of that client finds the device and takes it offline: the
    new record has no client id and carries the whole seconds since the
    connection time of the online record, and the step publishes
    [status_change] with the online record as the old one and then
    [device_offline].  A TCP [socket_close] with the same identifier leaves
    the state as it is, since the record is not a TCP record. *)
Theorem X26_websocket_session env1 env2 id client p st :
  is_Some (devices st !! id) →
  NoDup (JsMap.keys (deviceConnections st)) →
  (∀ k' v', (k', v') ∈ deviceConnections st → k' ≠ id →
     clientId v' ≠ Some client) →
  Partial.clientId p = Some client →
  Partial.protocol p = None →
  Partial.status p = None →
  let st1 := (setDeviceStatus env1 id DeviceConnectionStatus.ONLINE
                DeviceProtocol.WEBSOCKET (Some p) st).1 in
  let st2 := onWebSocketDisconnect env2 client st1 in
  ∃ c1 c2,
    getDeviceConnection id st1 = Some c1
    ∧ getDeviceConnection id st2 = Some c2
    ∧ status c1 = DeviceConnectionStatus.ONLINE
    ∧ status c2 = DeviceConnectionStatus.OFFLINE
    ∧ clientId c2 = None
    ∧ connectionDuration c2
      = (λ t, (now env2 - t) `div` 1000)%Z <$> connectedAt c1
    ∧ busEvents (since st1 st2)
      = [status_change id c2 (Some c1); device_offline id c2]
    ∧ onTcpSocketClose env2 client st1 = st1.
Proof.
  intros [device Hdev] Hnd Hothers Hclient Hproto Hstatus st1 st2.
  destruct (setDeviceStatus_known env1 id DeviceConnectionStatus.ONLINE
              DeviceProtocol.WEBSOCKET (Some p) st device Hdev)
    as (c1 & st1' & d1 & Hrun1 & (Hconn1 & _ & Hdevs1 & _) & F & _).
  simpl in F. destruct F as (_ & _ & F3 & F4 & _ & _ & F7 & _).
  rewrite Hstatus in F3. rewrite Hproto in F4. rewrite Hclient in F7.
  simpl in F3, F4.
  assert (st1 = st1') as Est1 by (unfold st1; by rewrite Hrun1).
  assert (is_Some (devices st1 !! id)) as [device1 Hdev1].
  { rewrite Est1, Hdevs1. apply updateDeviceStatus_preserves_known.
    by eexists. }
  assert (List.find (usesConnection DeviceProtocol.WEBSOCKET client)
            (deviceConnections st1) = Some (id, c1)) as Hfind.
  { rewrite Est1, Hconn1. apply find_set_Some.
    - unfold usesConnection. simpl. rewrite F4, F7.
      by rewrite !bool_decide_eq_true_2.
    - intros k' v' Hin Hne. unfold usesConnection. simpl.
      rewrite (bool_decide_eq_false_2 (clientId v' = Some client))
        by eauto.
      apply andb_false_r. }
  assert (List.find (usesConnection DeviceProtocol.TCP client)
            (deviceConnections st1) = None) as Htcp.
  { rewrite Est1, Hconn1. apply find_set_None; [done| |].
    - unfold usesConnection. simpl. rewrite F4.
      by rewrite bool_decide_eq_false_2.
    - intros k' v' Hin Huse. destruct (decide (k' = id)) as [|Hne]; [done|].
      unfold usesConnection in Huse. apply andb_prop in Huse as [_ Huse].
      apply bool_decide_eq_true in Huse. by destruct (Hothers k' v'). }
  destruct (setDeviceStatus_known env2 id DeviceConnectionStatus.OFFLINE
              DeviceProtocol.WEBSOCKET None st1 device1 Hdev1)
    as (c2 & st2' & d2 & Hrun2 & (Hconn2 & _ & _ & Htrace2 & Hev2 & _) & F & G).
  simpl in F, G. destruct F as (_ & _ & G3 & _ & _ & _ & G7 & _).
  destruct G as (_ & _ & _ & G4).
  assert (st2 = st2') as Est2.
  { unfold st2, onWebSocketDisconnect. by rewrite Hfind, Hrun2. }
  assert (JsMap.get id (deviceConnections st1) = Some c1) as Hget1.
  { by rewrite Est1, Hconn1, get_set_eq. }
  rewrite Hget1 in G4, Hev2. simpl in G4.
  exists c1, c2. unfold getDeviceConnection. split_and!; try done.
  - by rewrite Est2, Hconn2, get_set_eq.
  - rewrite Est2, (since_app st1 st2' d2 Htrace2), Hev2.
    unfold sameStatus, specificEvent. rewrite F3, G3.
    by rewrite bool_decide_eq_false_2.
  - unfold onTcpSocketClose. by rewrite Htcp.
Qed.

Lemma X26_websocket_session_witness :
  ∃ c,
    getDeviceConnection "dev-1"
      (onWebSocketDisconnect (Scenario.at_time 9000) "sock-3"
         Examples.connectedOverWebSocket) = Some c
    ∧ status c = DeviceConnectionStatus.OFFLINE
    ∧ connectionDuration c = Some 8%Z.
Proof.
  destruct (X26_websocket_session (Scenario.at_time 1000)
              (Scenario.at_time 9000) "dev-1" "sock-3"
              {| Partial.deviceId := None; Partial.deviceIdentifier := None;
                 Partial.status := None; Partial.protocol := None;
                 Partial.address := Some "10.0.0.8"; Partial.port := None;
                 Partial.clientId := Some "sock-3";
                 Partial.lastActivityAt := None; Partial.connectedAt := None;
                 Partial.disconnectedAt := None;
                 Partial.connectionDuration := None;
                 Partial.sessionId := None; Partial.metadata := None |}
              (Scenario.initial None))
    as (c1 & c2 & Hget1 & Hget2 & _ & Hs & _ & Hdur & _).
  - by eexists.
  - apply NoDup_nil_2.
  - intros k' v' Hin. by apply elem_of_nil in Hin.
  - reflexivity.
  - reflexivity.
  - reflexivity.
  - exists c2. split_and!; [exact Hget2|exact Hs|].
    rewrite Hdur. injection Hget1 as <-. reflexivity.
Defined.

(** ** The subscription table of the MQTT client *)

(** X27. A [subscribe] with a handler followed by an [unsubscribe] of the
    same topic.  A call on a client that is not connected, or that the
    broker answers with an error, throws and leaves the table as it is.
    A granted [subscribe] stores the handler under the topic, with the
    requested quality of service or 0, and a granted [unsubscribe] after it
    leaves the topic out of [getSubscriptions]; neither touches the entry of
    another topic, and no topic is ever listed twice. *)
Theorem X27_subscribe_then_unsubscribe err1 err2 topic qos h c :
  NoDup (MqttClientService.getSubscriptions c) →
  let r1 := MqttClientService.subscribe err1 topic qos (Some h) c in
  let r2 := MqttClientService.unsubscribe err2 topic r1.1 in
  let entry :=
    λ t c, JsMap.get t (MqttClientService.subscriptions c) in
  NoDup (MqttClientService.getSubscriptions r1.1)
  ∧ NoDup (MqttClientService.getSubscriptions r2.1)
  ∧ (MqttClientService.isClientConnected r2.1
     = MqttClientService.isClientConnected c)
  ∧ (MqttClientService.isClientConnected c = false ∨ is_Some err1 →
     r1.1 = c ∧ ∃ e, r1.2 = Throw e)
  ∧ (MqttClientService.isClientConnected c = false ∨ is_Some err2 →
     r2.1 = r1.1 ∧ ∃ e, r2.2 = Throw e)
  ∧ (MqttClientService.isClientConnected c = true → err1 = None →
     r1.2 = Ok true
     ∧ entry topic r1.1
       = Some {| MqttClientService.qos := default 0 qos;
                 MqttClientService.handler := h |}
     ∧ ∀ t, t ≠ topic → entry t r1.1 = entry t c)
  ∧ (MqttClientService.isClientConnected c = true → err2 = None →
     r2.2 = Ok true
     ∧ (topic ∉ MqttClientService.getSubscriptions r2.1)
     ∧ ∀ t, t ≠ topic → entry t r2.1 = entry t c).
Proof.
  intros Hnd r1 r2 entry. subst r1 r2 entry.
  unfold MqttClientService.unsubscribe, MqttClientService.subscribe,
    MqttClientService.isClientConnected, MqttClientService.getSubscriptions
    in *.
  destruct c as [cl conn subs].
  cbn [MqttClientService.client MqttClientService.isConnected
       MqttClientService.subscriptions] in *.
  assert (∀ A (x : A) (e : string), ∃ e', @Throw A e = Throw e') as Hthrow
    by (intros; by eexists).
  destruct cl, conn, err1 as [e1|], err2 as [e2|];
    cbn [negb orb andb fst snd MqttClientService.with_subscriptions
         MqttClientService.client MqttClientService.isConnected
         MqttClientService.subscriptions default];
    (split_and!;
     [ first [done | by apply NoDup_keys_set]
     | first [done | by apply NoDup_keys_set
             | by apply NoDup_keys_delete
             | by apply NoDup_keys_delete, NoDup_keys_set]
     | done
     | intros [?|[? ?]]; first [done | by split; [|eexists]]
     | intros [?|[? ?]]; first [done | by split; [|eexists]]
     | intros ? ?;
       first [ done
             | split_and!;
               [done|apply get_set_eq|intros t Hne; by apply get_set_ne] ]
     | intros ? ?;
       first [ done
             | split_and!;
               [ done
               | apply get_None_keys, get_delete_eq
               | intros t Hne; rewrite get_delete_ne by done;
                 first [by rewrite get_set_ne | done] ] ] ]).
Qed.

Lemma X27_subscribe_then_unsubscribe_witness :
  JsMap.get "devices/dev-1/status"
    (MqttClientService.subscriptions
       (MqttClientService.subscribe None "devices/dev-1/status" (Some 1)
          (Some MqttClientService.StatusHandler) Examples.mqttReady).1)
  = Some {| MqttClientService.qos := 1;
            MqttClientService.handler := MqttClientService.StatusHandler |}
  ∧ "devices/dev-1/status"
    ∉ MqttClientService.getSubscriptions
        (MqttClientService.unsubscribe None "devices/dev-1/status"
           (MqttClientService.subscribe None "devices/dev-1/status" (Some 1)
              (Some MqttClientService.StatusHandler) Examples.mqttReady).1).1.
Proof.
  destruct (X27_subscribe_then_unsubscribe None None "devices/dev-1/status"
              (Some 1) MqttClientService.StatusHandler Examples.mqttReady)
    as (_ & _ & _ & _ & _ & Hsub & Hunsub).
  - apply (bool_decide_unpack _). vm_compute. exact I.
  - destruct Hsub as (_ & Hentry & _); [reflexivity|reflexivity|].
    destruct Hunsub as (_ & Hgone & _); [reflexivity|reflexivity|].
    split; [exact Hentry|exact Hgone].
Defined.
